(** * Trading backend: order execution, trade recording and portfolio ledger

    A shallow embedding of the JavaScript backend (memoryStore.js,
    helpers.js, constants.js, the instrument / trade / portfolio / order
    services, the instrument controller and the request validation
    middleware), followed by the properties of the specification.

    Conventions of the embedding.
    - A JavaScript number that holds a share quantity is an integer
      (the request schema demands it): it is a [Z].  A number that holds
      a price or an amount is a rational [Q]; [+], [*], [/] and the
      comparisons are the exact ones.  JavaScript's [x / 0] is [NaN] or
      an infinity while [Qdiv] yields [0]; the two agree when the divisor
      is not zero, which is so for every fill of a positive quantity on
      a holding of non-negative quantity.
    - [Math.random()] and [uuidv4()] are arguments of the functions that
      call them ([rnd], [uuid]).
    - A JavaScript [Map] is an insertion-ordered association list with
      unique keys ([JsMap]).  The store is a singleton mutated in place:
      the services are computations in a state monad over the store in
      which a mutation done before a [throw] stays done.
    - Timestamps ([createdAt], [updatedAt], [executedAt]), the trade
      reference and console output are left out: nothing below reads
      them. *)

From Stdlib Require Import ZArith QArith Qround Qabs String Ascii List Bool Lia Lqa.
Import ListNotations.

Local Open Scope string_scope.
Local Open Scope Z_scope.

(** ** utils/constants.js *)

Module Constants.

Inductive ORDER_TYPES := BUY | SELL.
Inductive ORDER_STYLES := MARKET | LIMIT.
Inductive ORDER_STATUSES := NEW | PLACED | EXECUTED | CANCELLED.

Definition ORDER_TYPES_eqb (a b : ORDER_TYPES) : bool :=
  match a, b with BUY, BUY | SELL, SELL => true | _, _ => false end.

Definition ORDER_STYLES_eqb (a b : ORDER_STYLES) : bool :=
  match a, b with MARKET, MARKET | LIMIT, LIMIT => true | _, _ => false end.

Definition ORDER_STATUSES_eqb (a b : ORDER_STATUSES) : bool :=
  match a, b with
  | NEW, NEW | PLACED, PLACED | EXECUTED, EXECUTED | CANCELLED, CANCELLED => true
  | _, _ => false
  end.

(** The strings behind the enumerations, as a request carries them. *)
Definition parse_ORDER_TYPES (s : string) : option ORDER_TYPES :=
  if String.eqb s "BUY" then Some BUY
  else if String.eqb s "SELL" then Some SELL else None.

Definition parse_ORDER_STYLES (s : string) : option ORDER_STYLES :=
  if String.eqb s "MARKET" then Some MARKET
  else if String.eqb s "LIMIT" then Some LIMIT else None.

Module HTTP_STATUS.
Definition OK := 200.
Definition CREATED := 201.
Definition BAD_REQUEST := 400.
Definition UNAUTHORIZED := 401.
Definition FORBIDDEN := 403.
Definition NOT_FOUND := 404.
Definition INTERNAL_SERVER_ERROR := 500.
End HTTP_STATUS.

Module LIMITS.
Definition MAX_ORDER_QUANTITY := 10000.
Definition MIN_ORDER_QUANTITY := 1.
Definition MAX_ORDER_VALUE := 1000000.
Definition MIN_ORDER_VALUE := 1.
End LIMITS.

End Constants.
Export Constants.

(** ** JavaScript [Map] with string keys *)

Module JsMap.
Section JsMap.
Context {V : Type}.

Definition t := list (string * V).

Definition empty : t := [].

(** [m.get(k)] *)
Fixpoint get (m : t) (k : string) : option V :=
  match m with
  | [] => None
  | (k', v) :: m' => if String.eqb k' k then Some v else get m' k
  end.

(** [m.set(k, v)]: an existing key keeps its place, a new one goes last. *)
Fixpoint set (m : t) (k : string) (v : V) : t :=
  match m with
  | [] => [(k, v)]
  | (k', v') :: m' =>
      if String.eqb k' k then (k, v) :: m' else (k', v') :: set m' k v
  end.

(** [Array.from(m.values())] *)
Definition values (m : t) : list V := map snd m.

Definition keys (m : t) : list string := map fst m.

End JsMap.
Arguments t : clear implicits.
End JsMap.

(** ** Numbers *)

(** [Math.round]: the nearest integer, a tie going up. *)
Definition Math_round (x : Q) : Z := Qfloor (x + (1 # 2)).

(** [String.prototype.toLowerCase], on ASCII letters. *)
Definition lower_ascii (c : ascii) : ascii :=
  let n := nat_of_ascii c in
  if (Nat.leb 65 n && Nat.leb n 90)%bool then ascii_of_nat (n + 32) else c.

Fixpoint toLowerCase (s : string) : string :=
  match s with
  | EmptyString => EmptyString
  | String c s' => String (lower_ascii c) (toLowerCase s')
  end.

(** ** The records of the store *)

Record Instrument := mkInstrument {
  instrument_id : string;
  instrument_symbol : string;
  exchange : string;
  instrumentType : string;
  lastTradedPrice : Q;
  companyName : string
}.

Record Order := mkOrder {
  order_id : string;
  order_userId : string;
  order_symbol : string;
  orderType : ORDER_TYPES;
  orderStyle : ORDER_STYLES;
  order_quantity : Z;
  order_price : option Q;          (* absent on a MARKET order without a price *)
  status : ORDER_STATUSES;
  executedPrice : option Q;
  executedQuantity : option Z
}.

Record Trade := mkTrade {
  trade_id : string;
  trade_userId : string;
  trade_orderId : string;
  trade_symbol : string;
  trade_orderType : ORDER_TYPES;
  trade_quantity : Z;
  trade_price : Q;
  totalAmount : Q
}.

Record Holding := mkHolding {
  holding_userId : string;
  holding_symbol : string;
  quantity : Z;
  totalInvestment : Q;
  averagePrice : Q
}.

Record MemoryStore := mkStore {
  instruments : JsMap.t Instrument;
  orders : JsMap.t Order;
  trades : JsMap.t Trade;
  portfolio : JsMap.t Holding
}.

(** ** utils/helpers.js *)

Module Helpers.

Local Open Scope Q_scope.

(** [generatePriceVariation(basePrice, maxVariationPercent = 2)] *)
Definition generatePriceVariation (rnd : Q) (basePrice maxVariationPercent : Q) : Q :=
  let variation := (rnd - (1 # 2)) * 2 * (maxVariationPercent / 100) in
  let newPrice := basePrice * (1 + variation) in
  inject_Z (Math_round (newPrice * 100)) / 100.

(** [calculateExecutionPrice(order, currentMarketPrice)]; [None] is the
    [undefined] of a LIMIT order that carries no price. *)
Definition calculateExecutionPrice (rnd : Q) (order : Order) (currentMarketPrice : Q)
  : option Q :=
  if ORDER_STYLES_eqb (orderStyle order) MARKET then
    let slippage := (rnd - (1 # 2)) * (2 # 1000) in
    Some (inject_Z (Math_round (currentMarketPrice * (1 + slippage) * 100)) / 100)
  else
    order_price order.

(** [canExecuteLimitOrder(order, currentMarketPrice)]; a comparison with
    [undefined] is false. *)
Definition canExecuteLimitOrder (order : Order) (currentMarketPrice : Q) : bool :=
  if negb (ORDER_STYLES_eqb (orderStyle order) LIMIT) then true
  else if ORDER_TYPES_eqb (orderType order) BUY then
    match order_price order with
    | Some price => Qle_bool currentMarketPrice price
    | None => false
    end
  else
    match order_price order with
    | Some price => Qle_bool price currentMarketPrice
    | None => false
    end.

End Helpers.
Export Helpers.

(** ** database/memoryStore.js *)

Module memoryStore.

Definition sampleInstruments : list Instrument :=
  [ mkInstrument "RELIANCE" "RELIANCE" "NSE" "EQUITY" (245075 # 100) "Reliance Industries Ltd";
    mkInstrument "TCS" "TCS" "NSE" "EQUITY" (389020 # 100) "Tata Consultancy Services Ltd";
    mkInstrument "INFY" "INFY" "NSE" "EQUITY" (175685 # 100) "Infosys Ltd";
    mkInstrument "HDFC" "HDFC" "NSE" "EQUITY" (164230 # 100) "HDFC Bank Ltd";
    mkInstrument "ICICIBANK" "ICICIBANK" "NSE" "EQUITY" (119845 # 100) "ICICI Bank Ltd" ].

(** [initializeSampleData()] on the instruments map. *)
Definition initializeSampleData (m : JsMap.t Instrument) : JsMap.t Instrument :=
  fold_left (fun acc i => JsMap.set acc (instrument_symbol i) i) sampleInstruments m.

(** [new MemoryStore()] *)
Definition initialStore : MemoryStore :=
  mkStore (initializeSampleData JsMap.empty) JsMap.empty JsMap.empty JsMap.empty.

Definition getAllInstruments (st : MemoryStore) : list Instrument :=
  JsMap.values (instruments st).

Definition getInstrumentBySymbol (st : MemoryStore) (symbol : string) : option Instrument :=
  JsMap.get (instruments st) symbol.

Definition with_instruments (st : MemoryStore) (m : JsMap.t Instrument) : MemoryStore :=
  mkStore m (orders st) (trades st) (portfolio st).
Definition with_orders (st : MemoryStore) (m : JsMap.t Order) : MemoryStore :=
  mkStore (instruments st) m (trades st) (portfolio st).
Definition with_trades (st : MemoryStore) (m : JsMap.t Trade) : MemoryStore :=
  mkStore (instruments st) (orders st) m (portfolio st).
Definition with_portfolio (st : MemoryStore) (m : JsMap.t Holding) : MemoryStore :=
  mkStore (instruments st) (orders st) (trades st) m.

(** [updateInstrumentPrice(symbol, price)] *)
Definition updateInstrumentPrice (st : MemoryStore) (symbol : string) (price : Q)
  : bool * MemoryStore :=
  match JsMap.get (instruments st) symbol with
  | Some instrument =>
      let instrument' :=
        mkInstrument (instrument_id instrument) (instrument_symbol instrument)
          (exchange instrument) (instrumentType instrument) price
          (companyName instrument) in
      (true, with_instruments st (JsMap.set (instruments st) symbol instrument'))
  | None => (false, st)
  end.

(** What [placeOrder] hands to [createOrder]: the request body, the
    user and a status. *)
Record OrderData := mkOrderData {
  data_userId : string;
  data_symbol : string;
  data_orderType : ORDER_TYPES;
  data_orderStyle : ORDER_STYLES;
  data_quantity : Z;
  data_price : option Q;
  data_status : ORDER_STATUSES
}.

(** [createOrder(orderData)], [uuid] being the value of [uuidv4()]. *)
Definition createOrder (uuid : string) (st : MemoryStore) (orderData : OrderData)
  : Order * MemoryStore :=
  let order :=
    mkOrder uuid (data_userId orderData) (data_symbol orderData)
      (data_orderType orderData) (data_orderStyle orderData)
      (data_quantity orderData) (data_price orderData) (data_status orderData)
      None None in
  (order, with_orders st (JsMap.set (orders st) uuid order)).

Definition getOrderById (st : MemoryStore) (orderId : string) : option Order :=
  JsMap.get (orders st) orderId.

(** The [executionData] argument of [updateOrderStatus]. *)
Record ExecutionData := mkExecutionData {
  data_executedPrice : option Q;
  data_executedQuantity : option Z
}.

Definition noExecutionData : ExecutionData := mkExecutionData None None.

(** Truthiness of an optional number: present and not zero. *)
Definition truthyQ (x : option Q) : bool :=
  match x with Some q => negb (Qeq_bool q 0) | None => false end.
Definition truthyZ (x : option Z) : bool :=
  match x with Some z => negb (z =? 0) | None => false end.

(** [updateOrderStatus(orderId, status, executionData = {})] *)
Definition updateOrderStatus (st : MemoryStore) (orderId : string)
    (newStatus : ORDER_STATUSES) (executionData : ExecutionData)
  : option Order * MemoryStore :=
  match JsMap.get (orders st) orderId with
  | Some order =>
      let order' :=
        mkOrder (order_id order) (order_userId order) (order_symbol order)
          (orderType order) (orderStyle order) (order_quantity order)
          (order_price order) newStatus
          (if truthyQ (data_executedPrice executionData)
           then data_executedPrice executionData else executedPrice order)
          (if truthyZ (data_executedQuantity executionData)
           then data_executedQuantity executionData else executedQuantity order) in
      (Some order', with_orders st (JsMap.set (orders st) orderId order'))
  | None => (None, st)
  end.

Definition getAllOrders (st : MemoryStore) (userId : string) : list Order :=
  filter (fun order => String.eqb (order_userId order) userId) (JsMap.values (orders st)).

(** What [tradeService.createTrade] hands to [createTrade]. *)
Record TradeData := mkTradeData {
  tdata_userId : string;
  tdata_orderId : string;
  tdata_symbol : string;
  tdata_orderType : ORDER_TYPES;
  tdata_quantity : Z;
  tdata_price : Q;
  tdata_totalAmount : Q
}.

(** [createTrade(tradeData)] *)
Definition createTrade (uuid : string) (st : MemoryStore) (tradeData : TradeData)
  : Trade * MemoryStore :=
  let trade :=
    mkTrade uuid (tdata_userId tradeData) (tdata_orderId tradeData)
      (tdata_symbol tradeData) (tdata_orderType tradeData)
      (tdata_quantity tradeData) (tdata_price tradeData)
      (tdata_totalAmount tradeData) in
  (trade, with_trades st (JsMap.set (trades st) uuid trade)).

Definition getAllTrades (st : MemoryStore) (userId : string) : list Trade :=
  filter (fun trade => String.eqb (trade_userId trade) userId) (JsMap.values (trades st)).

Definition portfolioKey (userId symbol : string) : string :=
  userId ++ "_" ++ symbol.

(** The holding [updatePortfolio] starts from: the stored one, or a new
    one with nothing in it. *)
Definition holdingOrNew (m : JsMap.t Holding) (userId symbol : string) : Holding :=
  match JsMap.get m (portfolioKey userId symbol) with
  | Some holding => holding
  | None => mkHolding userId symbol 0 0 0
  end.

(** The body of [updatePortfolio] between the lookup and the [set]. *)
Definition applyTrade (holding : Holding) (qty : Z) (price : Q) (side : ORDER_TYPES)
  : Holding :=
  match side with
  | BUY =>
      let totalInvestment' := (totalInvestment holding + inject_Z qty * price)%Q in
      let totalQuantity := quantity holding + qty in
      mkHolding (holding_userId holding) (holding_symbol holding)
        totalQuantity totalInvestment' (totalInvestment' / inject_Z totalQuantity)%Q
  | SELL =>
      (* For sell, reduce quantity but keep average price same *)
      let quantity' := Z.max 0 (quantity holding - qty) in
      if quantity' =? 0 then
        mkHolding (holding_userId holding) (holding_symbol holding) quantity' 0 0
      else
        mkHolding (holding_userId holding) (holding_symbol holding) quantity'
          (totalInvestment holding) (averagePrice holding)
  end.

(** [updatePortfolio(userId, symbol, quantity, price, orderType)] on the
    portfolio map. *)
Definition updatePortfolioMap (m : JsMap.t Holding) (userId symbol : string)
    (qty : Z) (price : Q) (side : ORDER_TYPES) : Holding * JsMap.t Holding :=
  let holding := applyTrade (holdingOrNew m userId symbol) qty price side in
  (holding, JsMap.set m (portfolioKey userId symbol) holding).

Definition updatePortfolio (st : MemoryStore) (userId symbol : string)
    (qty : Z) (price : Q) (side : ORDER_TYPES) : Holding * MemoryStore :=
  let '(holding, m) := updatePortfolioMap (portfolio st) userId symbol qty price side in
  (holding, with_portfolio st m).

(** An element of [getPortfolio]'s result: the holding and the values
    derived from the instrument's price. *)
Record PortfolioEntry := mkEntry {
  entry_holding : Holding;
  currentPrice : Q;
  currentValue : Q;
  totalReturn : Q
}.

(** [getPortfolio(userId)] *)
Definition getPortfolio (st : MemoryStore) (userId : string) : list PortfolioEntry :=
  let userHoldings :=
    filter (fun holding =>
              String.eqb (holding_userId holding) userId && (0 <? quantity holding))%bool
           (JsMap.values (portfolio st)) in
  map (fun holding =>
         let currentPrice :=
           match getInstrumentBySymbol st (holding_symbol holding) with
           | Some instrument => lastTradedPrice instrument
           | None => 0%Q
           end in
         let currentValue := (inject_Z (quantity holding) * currentPrice)%Q in
         mkEntry holding currentPrice currentValue
           (currentValue - totalInvestment holding)%Q)
      userHoldings.

End memoryStore.

(** ** Exceptions and the store monad *)

(** The message of an [AppError], one constructor per message of the
    services; [InsufficientQuantity] is the error of a SELL that exceeds
    the holdings (the spec's InsufficientHoldings). *)
Inductive Message :=
| InvalidInstrumentSymbol (symbol : string)
| InstrumentNotFound (symbol : string)
| FailedToRetrieveInstrument
| FailedToUpdatePriceFor (symbol : string)
| FailedToUpdateInstrumentPrice
| FailedToCreateTradeRecord
| FailedToRetrieveHolding
| InsufficientQuantity (available required : Z)
| FailedToUpdatePortfolio
| PriceRequiredForLimitOrders
| FailedToPlaceOrder.

(** A thrown value: an [AppError(message, statusCode)] of
    middleware/errorHandler.js, or any other JavaScript error. *)
Inductive Exn :=
| AppError (message : Message) (statusCode : Z)
| JsError.

Inductive Outcome (A : Type) :=
| Returned (a : A)
| Thrown (e : Exn).
Arguments Returned {A} a.
Arguments Thrown {A} e.

(** A service call: it runs on the store and leaves a store, whether it
    returns or throws. *)
Definition M (A : Type) := MemoryStore -> Outcome A * MemoryStore.

Definition ret {A} (a : A) : M A := fun st => (Returned a, st).

Definition throw {A} (e : Exn) : M A := fun st => (Thrown e, st).

Definition bind {A B} (m : M A) (k : A -> M B) : M B :=
  fun st =>
    match m st with
    | (Returned a, st') => k a st'
    | (Thrown e, st') => (Thrown e, st')
    end.

(** [try { m } catch (error) { handler(error) }] *)
Definition tryCatch {A} (m : M A) (handler : Exn -> M A) : M A :=
  fun st =>
    match m st with
    | (Returned a, st') => (Returned a, st')
    | (Thrown e, st') => handler e st'
    end.

(** A read of the store. *)
Definition gets {A} (f : MemoryStore -> A) : M A := fun st => (Returned (f st), st).

(** A method of the store that returns a value and the mutated store. *)
Definition call {A} (f : MemoryStore -> A * MemoryStore) : M A :=
  fun st => let '(a, st') := f st in (Returned a, st').

(** [if (error instanceof AppError) throw error; throw new AppError(...)] *)
Definition rethrowAppError {A} (fallback : Message) : Exn -> M A :=
  fun error =>
    match error with
    | AppError _ _ => throw error
    | JsError => throw (AppError fallback HTTP_STATUS.INTERNAL_SERVER_ERROR)
    end.

Declare Scope store_scope.
Delimit Scope store_scope with store.
Notation "x <- m ;; k" := (bind m (fun x => k))
  (at level 61, m at next level, right associativity) : store_scope.
Notation "m ;;; k" := (bind m (fun _ => k))
  (at level 61, right associativity) : store_scope.
Local Open Scope store_scope.

(** ** services/instrumentService.js *)

Module InstrumentService.

Definition getInstrumentBySymbol (symbol : string) : M Instrument :=
  tryCatch
    (instrument <- gets (fun st => memoryStore.getInstrumentBySymbol st symbol) ;;
     match instrument with
     | Some i => ret i
     | None => throw (AppError (InstrumentNotFound symbol) HTTP_STATUS.NOT_FOUND)
     end)
    (rethrowAppError FailedToRetrieveInstrument).

Definition getCurrentPrice (symbol : string) : M Q :=
  instrument <- getInstrumentBySymbol symbol ;;
  ret (lastTradedPrice instrument).

Definition updatePrice (symbol : string) (newPrice : Q) : M bool :=
  tryCatch
    (success <- call (fun st => memoryStore.updateInstrumentPrice st symbol newPrice) ;;
     if negb success then
       throw (AppError (FailedToUpdatePriceFor symbol) HTTP_STATUS.NOT_FOUND)
     else ret true)
    (rethrowAppError FailedToUpdateInstrumentPrice).

Definition validateInstrument (symbol : string) : M bool :=
  instrument <- gets (fun st => memoryStore.getInstrumentBySymbol st symbol) ;;
  ret (match instrument with Some _ => true | None => false end).

End InstrumentService.

(** ** services/tradeService.js *)

Module TradeService.

(** The [tradeData] that [attemptOrderExecution] builds. *)
Record TradeRequest := mkTradeRequest {
  req_userId : string;
  req_orderId : string;
  req_symbol : string;
  req_orderType : ORDER_TYPES;
  req_quantity : Z;
  req_price : Q
}.

Definition createTrade (uuid : string) (tradeData : TradeRequest) : M Trade :=
  tryCatch
    (let totalAmount := (inject_Z (req_quantity tradeData) * req_price tradeData)%Q in
     call (fun st =>
             memoryStore.createTrade uuid st
               (memoryStore.mkTradeData (req_userId tradeData) (req_orderId tradeData)
                  (req_symbol tradeData) (req_orderType tradeData)
                  (req_quantity tradeData) (req_price tradeData) totalAmount)))
    (fun _ => throw (AppError FailedToCreateTradeRecord
                       HTTP_STATUS.INTERNAL_SERVER_ERROR)).

End TradeService.

(** ** services/portfolioService.js *)

Module PortfolioService.

(** [getHoldingBySymbol(userId, symbol)]: the first entry of the user's
    visible portfolio whose symbol is the given one up to letter case;
    [None] is [null]. *)
Definition getHoldingBySymbol (userId symbol : string)
  : M (option memoryStore.PortfolioEntry) :=
  tryCatch
    (holdings <- gets (fun st => memoryStore.getPortfolio st userId) ;;
     ret (find (fun h =>
                  String.eqb
                    (toLowerCase (holding_symbol (memoryStore.entry_holding h)))
                    (toLowerCase symbol))
               holdings))
    (fun _ => throw (AppError FailedToRetrieveHolding
                       HTTP_STATUS.INTERNAL_SERVER_ERROR)).

(** [updatePortfolioAfterTrade(userId, symbol, quantity, price, orderType)] *)
Definition updatePortfolioAfterTrade (userId symbol : string) (qty : Z) (price : Q)
    (side : ORDER_TYPES) : M Holding :=
  tryCatch
    ((* Validate instrument *)
     valid <- InstrumentService.validateInstrument symbol ;;
     (if negb valid then
        throw (AppError (InvalidInstrumentSymbol symbol) HTTP_STATUS.BAD_REQUEST)
      else ret tt) ;;;
     (* For SELL orders, check if user has enough quantity *)
     (if ORDER_TYPES_eqb side SELL then
        currentHolding <- getHoldingBySymbol userId symbol ;;
        match currentHolding with
        | None =>
            throw (AppError (InsufficientQuantity 0 qty) HTTP_STATUS.BAD_REQUEST)
        | Some h =>
            if quantity (memoryStore.entry_holding h) <? qty then
              throw (AppError
                       (InsufficientQuantity (quantity (memoryStore.entry_holding h)) qty)
                       HTTP_STATUS.BAD_REQUEST)
            else ret tt
        end
      else ret tt) ;;;
     (* Update portfolio in memory store *)
     call (fun st => memoryStore.updatePortfolio st userId symbol qty price side))
    (rethrowAppError FailedToUpdatePortfolio).

End PortfolioService.

(** ** services/orderService.js *)

Module OrderService.

(** [attemptOrderExecution(orderId)]; [None] is [null].  [rnd] is the
    value of [Math.random()] in [calculateExecutionPrice] and [uuid] the
    identifier of the trade. *)
Definition attemptOrderExecution (rnd : Q) (uuid : string) (orderId : string)
  : M (option Order) :=
  tryCatch
    (order <- gets (fun st => memoryStore.getOrderById st orderId) ;;
     match order with
     | None => ret None
     | Some order =>
         if negb (ORDER_STATUSES_eqb (status order) PLACED) then ret None
         else
           currentPrice <- InstrumentService.getCurrentPrice (order_symbol order) ;;
           (* Check if order can be executed *)
           let canExecute :=
             if ORDER_STYLES_eqb (orderStyle order) MARKET then true
             else canExecuteLimitOrder order currentPrice in
           if negb canExecute then ret None (* Order remains in PLACED status *)
           else
             (* Calculate execution price *)
             match calculateExecutionPrice rnd order currentPrice with
             | None =>
                 (* not reached: a LIMIT order that can execute has a
                    price ([canExecute_has_price]) *)
                 throw JsError
             | Some executionPrice =>
                 (* Execute the order *)
                 executedOrder <-
                   call (fun st =>
                           memoryStore.updateOrderStatus st orderId EXECUTED
                             (memoryStore.mkExecutionData (Some executionPrice)
                                (Some (order_quantity order)))) ;;
                 (* Create trade record *)
                 TradeService.createTrade uuid
                   (TradeService.mkTradeRequest (order_userId order) (order_id order)
                      (order_symbol order) (orderType order) (order_quantity order)
                      executionPrice) ;;;
                 (* Update portfolio *)
                 PortfolioService.updatePortfolioAfterTrade
                   (order_userId order) (order_symbol order) (order_quantity order)
                   executionPrice (orderType order) ;;;
                 ret executedOrder
             end
     end)
    (fun _ => ret None).

(** [!orderData.price || orderData.price <= 0] *)
Definition missingOrNonPositive (price : option Q) : bool :=
  match price with
  | None => true
  | Some p => Qle_bool p 0
  end.

(** The order request as the controller hands it over: the validated
    body and the user. *)
Record OrderRequest := mkOrderRequest {
  request_userId : string;
  request_symbol : string;
  request_orderType : ORDER_TYPES;
  request_orderStyle : ORDER_STYLES;
  request_quantity : Z;
  request_price : option Q
}.

(** [placeOrder(orderData)]; [orderUuid] is the identifier of the new
    order.  [executedOrder] and [placedOrder] are the object that sits
    in the store, so what is returned is the stored order as it is at
    the end. *)
Definition placeOrder (orderUuid : string) (rnd : Q) (tradeUuid : string)
    (orderData : OrderRequest) : M Order :=
  tryCatch
    ((* Validate instrument exists *)
     valid <- InstrumentService.validateInstrument (request_symbol orderData) ;;
     (if negb valid then
        throw (AppError (InvalidInstrumentSymbol (request_symbol orderData))
                 HTTP_STATUS.BAD_REQUEST)
      else ret tt) ;;;
     (* Get current market price *)
     InstrumentService.getCurrentPrice (request_symbol orderData) ;;;
     (* Validate limit order price *)
     (if ORDER_STYLES_eqb (request_orderStyle orderData) LIMIT
         && missingOrNonPositive (request_price orderData)
      then throw (AppError PriceRequiredForLimitOrders HTTP_STATUS.BAD_REQUEST)
      else ret tt) ;;;
     (* Create order *)
     order <- call (fun st =>
                      memoryStore.createOrder orderUuid st
                        (memoryStore.mkOrderData (request_userId orderData)
                           (request_symbol orderData) (request_orderType orderData)
                           (request_orderStyle orderData) (request_quantity orderData)
                           (request_price orderData) NEW)) ;;
     (* Update status to PLACED *)
     placedOrder <- call (fun st =>
                            memoryStore.updateOrderStatus st (order_id order) PLACED
                              memoryStore.noExecutionData) ;;
     match placedOrder with
     | None => throw JsError
     | Some placedOrder =>
         (* Try to execute the order immediately *)
         attemptOrderExecution rnd tradeUuid (order_id placedOrder) ;;;
         stored <- gets (fun st => memoryStore.getOrderById st (order_id placedOrder)) ;;
         ret (match stored with Some o => o | None => placedOrder end)
     end)
    (rethrowAppError FailedToPlaceOrder).

End OrderService.

(** ** HTTP layer: responses, error handler, authentication *)

(** A value of a request body. *)
Inductive JsValue :=
| JUndefined
| JNull
| JBool (b : bool)
| JNumber (q : Q)
| JString (s : string)
| JObject.

(** The codes of the validation errors that the schemas below can raise. *)
Inductive ErrCode :=
| any_required | any_only
| string_base | string_empty | string_max
| number_base | number_integer | number_min | number_max | number_positive.

Inductive ResponseBody :=
| ValidationFailed (details : list (string * ErrCode))
| AuthenticationRequired
| InvalidToken
| ErrorBody (error : option Message)
| ValidPriceRequired
| PriceUpdated (symbol : string) (newPrice : Q)
| OrderCreated (order : Order).

Record Response := mkResponse {
  res_status : Z;
  res_body : ResponseBody
}.

(** middleware/errorHandler.js, [errorHandler]: the status of an
    [AppError] is its [statusCode], any other error gives 500. *)
Definition errorHandler (err : Exn) : Response :=
  match err with
  | AppError message statusCode => mkResponse statusCode (ErrorBody (Some message))
  | JsError => mkResponse 500 (ErrorBody None)
  end.

(** config/config.js, [mockUser.id] *)
Definition mockUser_id : string := "user_001".

(** middleware/auth.js, [authenticateUser]: a response, or the user that
    [next()] goes on with. *)
Definition authenticateUser (authorization : option string) : Response + string :=
  match authorization with
  | None => inl (mkResponse 401 AuthenticationRequired)
  | Some authHeader =>
      if negb (String.eqb authHeader "Bearer mock-token")
      then inl (mkResponse 401 InvalidToken)
      else inr mockUser_id
  end.

Definition upper_ascii (c : ascii) : ascii :=
  let n := nat_of_ascii c in
  if (Nat.leb 97 n && Nat.leb n 122)%bool then ascii_of_nat (n - 32) else c.

(** [String.prototype.toUpperCase], on ASCII letters. *)
Fixpoint toUpperCase (s : string) : string :=
  match s with
  | EmptyString => EmptyString
  | String c s' => String (upper_ascii c) (toUpperCase s')
  end.

(** ** controllers/instrumentController.js *)

Module InstrumentController.

(** [updatePrice]: [symbol] is [req.params.symbol] and [price] is
    [req.body.price], a number or nothing. *)
Definition updatePrice (symbol : string) (price : option Q)
  : MemoryStore -> Response * MemoryStore :=
  fun st =>
    match price with
    | None => (mkResponse HTTP_STATUS.BAD_REQUEST ValidPriceRequired, st)
    | Some price =>
        if Qle_bool price 0 then
          (mkResponse HTTP_STATUS.BAD_REQUEST ValidPriceRequired, st)
        else
          match InstrumentService.updatePrice (toUpperCase symbol) price st with
          | (Returned _, st') =>
              (mkResponse HTTP_STATUS.OK (PriceUpdated (toUpperCase symbol) price), st')
          | (Thrown e, st') => (errorHandler e, st')
          end
    end.

End InstrumentController.

(** ** middleware/validation.js *)

Module Validation.
Section Schemas.

(** The conversion of a string to a number that the validation library
    applies to a field declared as a number; [None] when the string is
    not a number. *)
Variable stringToNumber : string -> option Q.

(** The body of [POST /orders]. *)
Record CreateOrderBody := mkBody {
  body_symbol : JsValue;
  body_orderType : JsValue;
  body_orderStyle : JsValue;
  body_quantity : JsValue;
  body_price : JsValue
}.

(** What a valid body becomes. *)
Record CreateOrderValue := mkValue {
  value_symbol : string;
  value_orderType : ORDER_TYPES;
  value_orderStyle : ORDER_STYLES;
  value_quantity : Z;
  value_price : option Q
}.

(** A number field: absent, not a number, or the number. *)
Inductive NumberField := Absent | NotANumber | Number (q : Q).

Definition asNumber (v : JsValue) : NumberField :=
  match v with
  | JUndefined => Absent
  | JNumber q => Number q
  | JString s =>
      match stringToNumber s with Some q => Number q | None => NotANumber end
  | _ => NotANumber
  end.

Definition isInteger (q : Q) : bool := Qeq_bool (inject_Z (Qfloor q)) q.

(** The result of a field: its errors, or its value. *)
Definition Checked (A : Type) := (list ErrCode + A)%type.

(** [Joi.string().required().min(1).max(20)] *)
Definition check_symbol (v : JsValue) : Checked string :=
  match v with
  | JUndefined => inl [any_required]
  | JString s =>
      if String.eqb s "" then inl [string_empty]
      else if (20 <? String.length s)%nat then inl [string_max] else inr s
  | _ => inl [string_base]
  end.

(** [Joi.string().valid(...).required()], the allowed strings being those
    that [parse] reads. *)
Definition check_valid {A} (parse : string -> option A) (v : JsValue) : Checked A :=
  match v with
  | JUndefined => inl [any_required]
  | JString s => match parse s with Some a => inr a | None => inl [any_only] end
  | _ => inl [any_only]
  end.

(** [Joi.number().integer().min(1).max(10000).required()] *)
Definition check_quantity (v : JsValue) : Checked Z :=
  match asNumber v with
  | Absent => inl [any_required]
  | NotANumber => inl [number_base]
  | Number q =>
      match ((if isInteger q then [] else [number_integer])
             ++ (if Qle_bool 1 q then [] else [number_min])
             ++ (if Qle_bool q 10000 then [] else [number_max]))%list with
      | [] => inr (Qfloor q)
      | errors => inl errors
      end
  end.

(** [Joi.when('orderStyle', { is: 'LIMIT',
      then: Joi.number().positive().required(),
      otherwise: Joi.number().positive().optional() })] *)
Definition check_price (orderStyle v : JsValue) : Checked (option Q) :=
  let isLimit :=
    match orderStyle with JString s => String.eqb s "LIMIT" | _ => false end in
  match asNumber v with
  | Absent => if isLimit then inl [any_required] else inr None
  | NotANumber => inl [number_base]
  | Number q => if Qle_bool q 0 then inl [number_positive] else inr (Some q)
  end.

Definition errorsOf {A} (field : string) (c : Checked A) : list (string * ErrCode) :=
  match c with
  | inl codes => map (fun code => (field, code)) codes
  | inr _ => []
  end.

(** [schemas.createOrder.validate(body, { abortEarly: false,
    stripUnknown: true })]: the converted value, or every error of every
    field. *)
Definition createOrder_validate (body : CreateOrderBody)
  : list (string * ErrCode) + CreateOrderValue :=
  let symbol := check_symbol (body_symbol body) in
  let type := check_valid parse_ORDER_TYPES (body_orderType body) in
  let style := check_valid parse_ORDER_STYLES (body_orderStyle body) in
  let qty := check_quantity (body_quantity body) in
  let price := check_price (body_orderStyle body) (body_price body) in
  match symbol, type, style, qty, price with
  | inr s, inr t, inr y, inr q, inr p => inr (mkValue s t y q p)
  | _, _, _, _, _ =>
      inl (errorsOf "symbol" symbol ++ errorsOf "orderType" type
           ++ errorsOf "orderStyle" style ++ errorsOf "quantity" qty
           ++ errorsOf "price" price)%list
  end.

(** [validate(schemas.createOrder, 'body')]: a 400 response, or the value
    that replaces [req.body] when [next()] is called. *)
Definition validateCreateOrder (body : CreateOrderBody) : Response + CreateOrderValue :=
  match createOrder_validate body with
  | inl details => inl (mkResponse 400 (ValidationFailed details))
  | inr value => inr value
  end.

(** controllers/orderController.js, [placeOrder], under [asyncHandler]
    and the error handler. *)
Definition OrderController_placeOrder (orderUuid : string) (rnd : Q)
    (tradeUuid : string) (userId : string) (body : CreateOrderValue)
  : MemoryStore -> Response * MemoryStore :=
  fun st =>
    let orderData :=
      OrderService.mkOrderRequest userId (value_symbol body) (value_orderType body)
        (value_orderStyle body) (value_quantity body) (value_price body) in
    match OrderService.placeOrder orderUuid rnd tradeUuid orderData st with
    | (Returned order, st') => (mkResponse HTTP_STATUS.CREATED (OrderCreated order), st')
    | (Thrown e, st') => (errorHandler e, st')
    end.

(** routes/orders.js:
    [router.use(authenticateUser);
     router.post('/', validateCreateOrder, orderController.placeOrder)].
    The last component says whether the order service was called. *)
Definition post_orders (orderUuid : string) (rnd : Q) (tradeUuid : string)
    (authorization : option string) (body : CreateOrderBody)
  : MemoryStore -> Response * MemoryStore * bool :=
  fun st =>
    match authenticateUser authorization with
    | inl response => (response, st, false)
    | inr userId =>
        match validateCreateOrder body with
        | inl response => (response, st, false)
        | inr value =>
            (OrderController_placeOrder orderUuid rnd tradeUuid userId value st, true)
        end
    end.

End Schemas.
End Validation.

(** ** Fills, holdings and the notions the properties are stated with *)

(** A fill: what [attemptOrderExecution] passes to the portfolio update. *)
Record Fill := mkFill {
  fill_userId : string;
  fill_symbol : string;
  fill_quantity : Z;
  fill_price : Q;
  fill_side : ORDER_TYPES
}.

(** The quantity of an order is a positive integer. *)
Definition wellFormedFill (f : Fill) : Prop := 0 < fill_quantity f.

Definition fillKey (f : Fill) : string :=
  memoryStore.portfolioKey (fill_userId f) (fill_symbol f).

(** One call of [memoryStore.updatePortfolio], on the portfolio map. *)
Definition applyFill (m : JsMap.t Holding) (f : Fill) : JsMap.t Holding :=
  snd (memoryStore.updatePortfolioMap m (fill_userId f) (fill_symbol f)
         (fill_quantity f) (fill_price f) (fill_side f)).

(** A sequence of fills, the first one applied first. *)
Definition applyFills (m : JsMap.t Holding) (fs : list Fill) : JsMap.t Holding :=
  fold_left applyFill fs m.

(** One call of [portfolioService.updatePortfolioAfterTrade]; the store is
    what the call leaves, whether it returned or threw. *)
Definition serviceFill (st : MemoryStore) (f : Fill) : MemoryStore :=
  snd (PortfolioService.updatePortfolioAfterTrade (fill_userId f) (fill_symbol f)
         (fill_quantity f) (fill_price f) (fill_side f) st).

Definition serviceFills (st : MemoryStore) (fs : list Fill) : MemoryStore :=
  fold_left serviceFill fs st.

(** The invariant of a holding: a quantity that is not negative, and
    nothing invested when it is zero. *)
Definition holdingInvariant (h : Holding) : Prop :=
  0 <= quantity h /\
  (quantity h = 0 -> totalInvestment h = 0%Q /\ averagePrice h = 0%Q).

(** The quantity of [symbol] that [userId] holds: that of the stored
    holding, nothing when there is none. *)
Definition heldQuantity (st : MemoryStore) (userId symbol : string) : Z :=
  match JsMap.get (portfolio st) (memoryStore.portfolioKey userId symbol) with
  | Some h => quantity h
  | None => 0
  end.

Definition isInstrument (st : MemoryStore) (symbol : string) : Prop :=
  memoryStore.getInstrumentBySymbol st symbol <> None.

(** What holds of the store at any time: a [Map] has no key twice; a
    holding sits under the key of its user and symbol, and its symbol is
    an instrument; no two instruments have symbols that differ by letter
    case only. *)
Record storeInvariant (st : MemoryStore) : Prop := mkStoreInvariant {
  inv_keys : NoDup (JsMap.keys (portfolio st));
  inv_holdings :
    forall k h, In (k, h) (portfolio st) ->
      k = memoryStore.portfolioKey (holding_userId h) (holding_symbol h)
      /\ isInstrument st (holding_symbol h);
  inv_symbols :
    forall s1 s2, isInstrument st s1 -> isInstrument st s2 ->
      toLowerCase s1 = toLowerCase s2 -> s1 = s2
}.

(** The order of the store under [orderId] is absent or not PLACED. *)
Definition notPlaced (st : MemoryStore) (orderId : string) : Prop :=
  match memoryStore.getOrderById st orderId with
  | None => True
  | Some order => status order <> PLACED
  end.

(** A store with one pending order: user_001 has asked to sell 5 TCS at
    the market, and holds nothing.  It is the store of [placeOrder] at the
    moment it calls [attemptOrderExecution]. *)
Definition sellWithoutHoldings : MemoryStore :=
  let '(order, st) :=
    memoryStore.createOrder "order-1" memoryStore.initialStore
      (memoryStore.mkOrderData "user_001" "TCS" SELL MARKET 5 None NEW) in
  snd (memoryStore.updateOrderStatus st (order_id order) PLACED
         memoryStore.noExecutionData).

(** Requests that the order schema is to refuse. *)
Section InvalidRequests.

Variable stringToNumber : string -> option Q.

(** The quantity is an integer from 1 to 10000. *)
Definition quantityInRange (v : JsValue) : Prop :=
  exists (q : Q) (z : Z),
    Validation.asNumber stringToNumber v = Validation.Number q
    /\ (q == inject_Z z)%Q /\ 1 <= z <= 10000.

Definition isOrderType (v : JsValue) : Prop :=
  v = JString "BUY" \/ v = JString "SELL".

Definition isOrderStyle (v : JsValue) : Prop :=
  v = JString "MARKET" \/ v = JString "LIMIT".

Definition hasPositivePrice (v : JsValue) : Prop :=
  exists q : Q, Validation.asNumber stringToNumber v = Validation.Number q /\ (0 < q)%Q.

Definition invalidRequest (body : Validation.CreateOrderBody) : Prop :=
  ~ quantityInRange (Validation.body_quantity body)
  \/ ~ isOrderType (Validation.body_orderType body)
  \/ ~ isOrderStyle (Validation.body_orderStyle body)
  \/ (Validation.body_orderStyle body = JString "LIMIT"
      /\ ~ hasPositivePrice (Validation.body_price body)).

End InvalidRequests.

(** The holding that the SELL check of [updatePortfolioAfterTrade] finds. *)
Definition foundHolding (st : MemoryStore) (userId symbol : string)
  : option memoryStore.PortfolioEntry :=
  find (fun h =>
          String.eqb (toLowerCase (holding_symbol (memoryStore.entry_holding h)))
                     (toLowerCase symbol))
       (memoryStore.getPortfolio st userId).

(** Unfolding of the monad's operations. *)
Ltac run :=
  unfold tryCatch, bind, gets, call, ret, throw, rethrowAppError; cbn beta iota.

(** ** services/orderService.js: lookup, cancellation and the sweep *)

Module OrderLifecycle.

(** The messages of the errors that [getOrderById] and [cancelOrder]
    throw. *)
Inductive OrderMessage :=
| OrderNotFound
| UnauthorizedToCancelThisOrder
| CannotCancelExecutedOrder
| OrderIsAlreadyCancelled.

(** [new AppError(message, statusCode)] of these two functions.  Their
    [catch] rethrows an [AppError] as it is, and nothing else is thrown
    in their bodies. *)
Inductive OrderError := OrderAppError (message : OrderMessage) (statusCode : Z).

(** [getOrderById(orderId)] *)
Definition getOrderById (st : MemoryStore) (orderId : string) : OrderError + Order :=
  match memoryStore.getOrderById st orderId with
  | None => inl (OrderAppError OrderNotFound HTTP_STATUS.NOT_FOUND)
  | Some order => inr order
  end.

(** [cancelOrder(orderId, userId)]; the order returned is what
    [updateOrderStatus] returns. *)
Definition cancelOrder (orderId userId : string) (st : MemoryStore)
  : (OrderError + option Order) * MemoryStore :=
  match getOrderById st orderId with
  | inl e => (inl e, st)
  | inr order =>
      (* Verify order belongs to user *)
      if negb (String.eqb (order_userId order) userId) then
        (inl (OrderAppError UnauthorizedToCancelThisOrder HTTP_STATUS.FORBIDDEN), st)
      (* Check if order can be cancelled *)
      else if ORDER_STATUSES_eqb (status order) EXECUTED then
        (inl (OrderAppError CannotCancelExecutedOrder HTTP_STATUS.BAD_REQUEST), st)
      else if ORDER_STATUSES_eqb (status order) CANCELLED then
        (inl (OrderAppError OrderIsAlreadyCancelled HTTP_STATUS.BAD_REQUEST), st)
      else
        (* Cancel the order *)
        let '(cancelledOrder, st') :=
          memoryStore.updateOrderStatus st orderId CANCELLED memoryStore.noExecutionData in
        (inr cancelledOrder, st')
  end.

(** The loop of [processPendingOrders]: one attempt per pending order, in
    the order of the list; [rnd] and [uuid] give, for the order attempted,
    the value of [Math.random()] and the identifier of the trade. *)
Fixpoint attemptEach (rnd : string -> Q) (uuid : string -> string)
    (pendingOrders : list Order) (executedOrders : list Order) : M (list Order) :=
  match pendingOrders with
  | [] => ret executedOrders
  | order :: rest =>
      executedOrder <-
        OrderService.attemptOrderExecution
          (rnd (order_id order)) (uuid (order_id order)) (order_id order) ;;
      attemptEach rnd uuid rest
        (match executedOrder with
         | Some executed => (executedOrders ++ [executed])%list
         | None => executedOrders
         end)
  end.

(** [processPendingOrders()] *)
Definition processPendingOrders (rnd : string -> Q) (uuid : string -> string)
  : M (list Order) :=
  tryCatch
    (allOrders <- gets (fun st => JsMap.values (orders st)) ;;
     let pendingOrders :=
       filter (fun order => ORDER_STATUSES_eqb (status order) PLACED) allOrders in
     attemptEach rnd uuid pendingOrders [])
    (fun _ => ret []).

End OrderLifecycle.

(** What [attemptOrderExecution] writes when it executes [order] at
    [executionPrice]: the order as [updateOrderStatus] leaves it, and the
    trade. *)
Definition executedRecord (order : Order) (executionPrice : Q) : Order :=
  mkOrder (order_id order) (order_userId order) (order_symbol order)
    (orderType order) (orderStyle order) (order_quantity order) (order_price order)
    EXECUTED
    (if memoryStore.truthyQ (Some executionPrice)
     then Some executionPrice else executedPrice order)
    (if memoryStore.truthyZ (Some (order_quantity order))
     then Some (order_quantity order) else executedQuantity order).

Definition tradeRecord (uuid : string) (order : Order) (executionPrice : Q) : Trade :=
  mkTrade uuid (order_userId order) (order_id order) (order_symbol order)
    (orderType order) (order_quantity order) executionPrice
    (inject_Z (order_quantity order) * executionPrice)%Q.

(** The fill of an order executed at [executionPrice]. *)
Definition fillOf (order : Order) (executionPrice : Q) : Fill :=
  mkFill (order_userId order) (order_symbol order) (order_quantity order)
    executionPrice (orderType order).

(** The fields of an order that no status change touches. *)
Definition sameRequest (o o' : Order) : Prop :=
  order_id o' = order_id o /\ order_userId o' = order_userId o
  /\ order_symbol o' = order_symbol o /\ orderType o' = orderType o
  /\ orderStyle o' = orderStyle o /\ order_quantity o' = order_quantity o
  /\ order_price o' = order_price o.

(** From [st] to [st'] the only change to the orders is that some PLACED
    orders have become EXECUTED: no key appears or disappears, and an order
    is as it was or was PLACED and is EXECUTED with the same request. *)
Definition executesOnly (st st' : MemoryStore) : Prop :=
  forall k,
    match memoryStore.getOrderById st k, memoryStore.getOrderById st' k with
    | Some o, Some o' =>
        o' = o \/ (status o = PLACED /\ status o' = EXECUTED /\ sameRequest o o')
    | None, None => True
    | _, _ => False
    end.

(** An order of the result of a sweep from [st] to [st']: it was PLACED in
    [st] under some key, and is EXECUTED under that key in [st'], with the
    same request. *)
Definition executedBySweep (st st' : MemoryStore) (o : Order) : Prop :=
  exists k p,
    memoryStore.getOrderById st k = Some p /\ status p = PLACED
    /\ status o = EXECUTED /\ sameRequest p o
    /\ memoryStore.getOrderById st' k = Some o.

(** The order that [placeOrder] has stored when it calls
    [attemptOrderExecution], and the store at that moment. *)
Definition placedRecord (orderUuid : string) (orderData : OrderService.OrderRequest)
  : Order :=
  mkOrder orderUuid (OrderService.request_userId orderData)
    (OrderService.request_symbol orderData) (OrderService.request_orderType orderData)
    (OrderService.request_orderStyle orderData)
    (OrderService.request_quantity orderData) (OrderService.request_price orderData)
    PLACED None None.

Definition placedStore (st : MemoryStore) (orderUuid : string)
    (orderData : OrderService.OrderRequest) : MemoryStore :=
  memoryStore.with_orders st
    (JsMap.set (orders st) orderUuid (placedRecord orderUuid orderData)).

(** A store with one pending order: user_001 has asked to buy 10 TCS at
    3000 or less while TCS trades at 3890.20. *)
Definition pendingLimitBuy : MemoryStore :=
  snd (OrderService.placeOrder "order-1" (1 # 2) "trade-1"
         (OrderService.mkOrderRequest "user_001" "TCS" BUY LIMIT 10 (Some (3000 # 1)%Q))
         memoryStore.initialStore).

(** The same once the price of TCS has come down to 2900. *)
Definition pendingLimitBuyCrossed : MemoryStore :=
  snd (InstrumentService.updatePrice "TCS" (2900 # 1) pendingLimitBuy).

(** ** services/instrumentService.js: the simulated price updates *)

Module PriceSimulation.

(** The body of the [forEach] of [getAllInstruments] for one instrument:
    [chance] and [variation] are the two values of [Math.random()]. *)
Definition jitter (chance variation : Q) (instrument : Instrument) (st : MemoryStore)
  : MemoryStore :=
  (* 10% chance to update price on each request (for demo purposes) *)
  if Qle_bool (1 # 10) chance then st
  else
    let newPrice := generatePriceVariation variation (lastTradedPrice instrument) 1 in
    snd (memoryStore.updateInstrumentPrice st (instrument_symbol instrument) newPrice).

(** [getAllInstruments()]; [rnd] gives the two random values drawn for an
    instrument.  The array returned holds the objects of the store, so it
    is read here after the loop.  Nothing in the body throws. *)
Definition getAllInstruments (rnd : string -> Q * Q) (st : MemoryStore)
  : list Instrument * MemoryStore :=
  let instruments := memoryStore.getAllInstruments st in
  let st' :=
    fold_left
      (fun acc instrument =>
         jitter (fst (rnd (instrument_symbol instrument)))
                (snd (rnd (instrument_symbol instrument))) instrument acc)
      instruments st in
  (memoryStore.getAllInstruments st', st').

End PriceSimulation.



(** ** database/memoryStore.js: reset and counts *)

Module StoreUtilities.

(** [clearAllData()] *)
Definition clearAllData (st : MemoryStore) : MemoryStore :=
  mkStore (memoryStore.initializeSampleData (instruments st))
    JsMap.empty JsMap.empty JsMap.empty.

End StoreUtilities.

(** The store once [attemptOrderExecution] has marked [order] EXECUTED and
    recorded its trade, before the portfolio is updated. *)
Definition markedExecuted (st : MemoryStore) (orderId uuid : string) (order : Order)
    (executionPrice : Q) : MemoryStore :=
  mkStore (instruments st)
    (JsMap.set (orders st) orderId (executedRecord order executionPrice))
    (JsMap.set (trades st) uuid (tradeRecord uuid order executionPrice))
    (portfolio st).

(** ** utils/helpers.js: pagination *)

Module Pagination.

(** [data.slice(start, end)]: a negative index counts from the end, and
    both are brought into the array. *)
Definition slice {A} (data : list A) (start finish : Z) : list A :=
  let len := Z.of_nat (length data) in
  let k := if start <? 0 then Z.max (len + start) 0 else Z.min start len in
  let final := if finish <? 0 then Z.max (len + finish) 0 else Z.min finish len in
  firstn (Z.to_nat (final - k)) (skipn (Z.to_nat k) data).

(** [Math.ceil(length / limit)], for a limit that is not zero. *)
Definition pageCount (length limit : Z) : Z := - ((- length) / limit).

Record PageInfo := mkPageInfo {
  currentPage : Z;
  totalPages : Z;
  totalItems : Z;
  itemsPerPage : Z;
  hasNextPage : bool;
  hasPrevPage : bool
}.

(** [paginate(data, page = 1, limit = 10)] *)
Definition paginate {A} (data : list A) (page limit : Z) : list A * PageInfo :=
  let offset := (page - 1) * limit in
  let paginatedData := slice data offset (offset + limit) in
  (paginatedData,
   mkPageInfo page
     (pageCount (Z.of_nat (length data)) limit)
     (Z.of_nat (length data))
     limit
     (page <? pageCount (Z.of_nat (length data)) limit)
     (1 <? page)).

(** The pages from 1 to [n]. *)
Definition pagesUpTo (n : Z) : list Z :=
  map (fun i => Z.of_nat i) (seq 1 (Z.to_nat n)).

End Pagination.

(** ** utils/helpers.js and services/portfolioService.js: portfolio figures *)

Module PortfolioAnalytics.

Local Open Scope Q_scope.

(** [x || 0] on a number. *)
Definition orZero (x : Q) : Q := if Qeq_bool x 0 then 0 else x.

(** [Math.round(x * 100) / 100] *)
Definition roundToHundredths (x : Q) : Q := inject_Z (Math_round (x * 100)) / 100.

Record Summary := mkSummary {
  totalHoldings : nat;
  summary_totalInvestment : Q;
  totalCurrentValue : Q;
  summary_totalReturn : Q;
  totalReturnPercentage : Q;
  profitableHoldings : nat;
  lossHoldings : nat
}.

(** helpers.js, [calculatePortfolioMetrics(holdings)] *)
Definition calculatePortfolioMetrics (holdings : list memoryStore.PortfolioEntry) : Summary :=
  let invested := fun h => totalInvestment (memoryStore.entry_holding h) in
  let totalInvestment :=
    fold_left (fun sum holding => sum + invested holding) holdings 0 in
  let totalCurrentValue :=
    fold_left (fun sum holding => sum + orZero (memoryStore.currentValue holding)) holdings 0 in
  let totalReturn := totalCurrentValue - totalInvestment in
  let totalReturnPercentage :=
    if negb (Qle_bool totalInvestment 0)
    then totalReturn / totalInvestment * 100 else 0 in
  mkSummary (length holdings)
    (roundToHundredths totalInvestment)
    (roundToHundredths totalCurrentValue)
    (roundToHundredths totalReturn)
    (roundToHundredths totalReturnPercentage)
    (length (filter (fun h => negb (Qle_bool (orZero (memoryStore.currentValue h))
                                      (invested h)))
               holdings))
    (length (filter (fun h => negb (Qle_bool (invested h)
                                      (orZero (memoryStore.currentValue h))))
               holdings)).

(** portfolioService.js, [getPortfolio(userId)]: the holdings and the
    summary, without the formatted strings that are added to both. *)
Definition getPortfolio (st : MemoryStore) (userId : string)
  : list memoryStore.PortfolioEntry * Summary :=
  let holdings := memoryStore.getPortfolio st userId in
  match holdings with
  | [] => ([], mkSummary 0 0 0 0 0 0 0)
  | _ => (holdings, calculatePortfolioMetrics holdings)
  end.



End PortfolioAnalytics.

(** ** services/orderService.js: order statistics *)

Module OrderStatistics.

Record OrderStats := mkOrderStats {
  totalOrders : nat;
  executedOrders : nat;
  pendingOrders : nat;
  cancelledOrders : nat;
  buyOrders : nat;
  sellOrders : nat;
  marketOrders : nat;
  limitOrders : nat
}.

(** [getOrderStats(userId)], without [successRate], a string. *)
Definition getOrderStats (st : MemoryStore) (userId : string) : OrderStats :=
  let orders := memoryStore.getAllOrders st userId in
  mkOrderStats
    (length orders)
    (length (filter (fun order => ORDER_STATUSES_eqb (status order) EXECUTED) orders))
    (length (filter (fun order => ORDER_STATUSES_eqb (status order) PLACED) orders))
    (length (filter (fun order => ORDER_STATUSES_eqb (status order) CANCELLED) orders))
    (length (filter (fun order => ORDER_TYPES_eqb (orderType order) BUY) orders))
    (length (filter (fun order => ORDER_TYPES_eqb (orderType order) SELL) orders))
    (length (filter (fun order => ORDER_STYLES_eqb (orderStyle order) MARKET) orders))
    (length (filter (fun order => ORDER_STYLES_eqb (orderStyle order) LIMIT) orders)).

End OrderStatistics.

(** An order is as it was, or was PLACED and is EXECUTED with the same
    request. *)
Definition executionStep (o o' : Order) : Prop :=
  o' = o \/ (status o = PLACED /\ status o' = EXECUTED /\ sameRequest o o').

(** The orders of [st'] are those of [st], key by key in the same places,
    each one an [executionStep] later. *)
Definition ordersAligned (st st' : MemoryStore) : Prop :=
  Forall2 (fun e e' => fst e' = fst e /\ executionStep (snd e) (snd e'))
    (orders st) (orders st').

(** ** controllers/orderController.js: modifying an order *)

Module OrderModification.

(** [memoryStore.createOrder(orderData)] for an [orderData] that has an
    [id] of its own: in [{ id: orderId, ...orderData }] the fields of
    [orderData] come last, so the order keeps the [id] it came with, and
    the new identifier is only its key in the map. *)
Definition createOrder (uuid : string) (st : MemoryStore) (orderData : Order)
  : Order * MemoryStore :=
  let order := orderData in
  (order, memoryStore.with_orders st (JsMap.set (orders st) uuid order)).

(** [{ ...orderData, status }] *)
Definition withStatus (orderData : Order) (newStatus : ORDER_STATUSES) : Order :=
  mkOrder (order_id orderData) (order_userId orderData) (order_symbol orderData)
    (orderType orderData) (orderStyle orderData) (order_quantity orderData)
    (order_price orderData) newStatus (executedPrice orderData)
    (executedQuantity orderData).

(** [orderService.placeOrder(orderData)] for such an [orderData].
    [placedOrder] is the object that the store has under [order.id], so
    when no executed order is returned the result is that object as it
    is at the end. *)
Definition placeOrder (orderUuid : string) (rnd : Q) (tradeUuid : string)
    (orderData : Order) : M Order :=
  tryCatch
    ((* Validate instrument exists *)
     valid <- InstrumentService.validateInstrument (order_symbol orderData) ;;
     (if negb valid then
        throw (AppError (InvalidInstrumentSymbol (order_symbol orderData))
                 HTTP_STATUS.BAD_REQUEST)
      else ret tt) ;;;
     (* Get current market price *)
     InstrumentService.getCurrentPrice (order_symbol orderData) ;;;
     (* Validate limit order price *)
     (if ORDER_STYLES_eqb (orderStyle orderData) LIMIT
         && OrderService.missingOrNonPositive (order_price orderData)
      then throw (AppError PriceRequiredForLimitOrders HTTP_STATUS.BAD_REQUEST)
      else ret tt) ;;;
     (* Create order *)
     order <- call (fun st => createOrder orderUuid st (withStatus orderData NEW)) ;;
     (* Update status to PLACED *)
     placedOrder <- call (fun st =>
                            memoryStore.updateOrderStatus st (order_id order) PLACED
                              memoryStore.noExecutionData) ;;
     match placedOrder with
     | None => throw JsError
     | Some placedOrder =>
         (* Try to execute the order immediately *)
         executedOrder <-
           OrderService.attemptOrderExecution rnd tradeUuid (order_id placedOrder) ;;
         match executedOrder with
         | Some executedOrder => ret executedOrder
         | None =>
             stored <- gets (fun st => memoryStore.getOrderById st (order_id order)) ;;
             ret (match stored with Some o => o | None => placedOrder end)
         end
     end)
    (rethrowAppError FailedToPlaceOrder).

(** The bodies of the answers of [modifyOrder]; an error that a service
    throws is answered by the error handler with its message. *)
Inductive ModifyBody :=
| OrderModifiedSuccessfully (originalOrderId : string) (newOrder : Order)
| AccessDeniedToThisOrder
| OnlyPendingOrdersCanBeModified
| OrderErrorBody (message : OrderLifecycle.OrderMessage)
| PlaceErrorBody (message : option Message).

Record ModifyResponse := mkModifyResponse {
  modify_status : Z;
  modify_body : ModifyBody
}.

Definition orderErrorResponse (e : OrderLifecycle.OrderError) : ModifyResponse :=
  match e with
  | OrderLifecycle.OrderAppError message statusCode =>
      mkModifyResponse statusCode (OrderErrorBody message)
  end.

Definition placeErrorResponse (e : Exn) : ModifyResponse :=
  match e with
  | AppError message statusCode => mkModifyResponse statusCode (PlaceErrorBody (Some message))
  | JsError => mkModifyResponse 500 (PlaceErrorBody None)
  end.

(** [modifyOrder], under [asyncHandler] and the error handler.  [orderId]
    is [req.params.orderId], [userId] is [req.user.id], and [price] and
    [quantity] are the fields of [req.body], each a number or nothing.
    [existingOrder] is the object that the store has, so once
    [cancelOrder] has run it reads as the cancelled order. *)
Definition modifyOrder (orderUuid : string) (rnd : Q) (tradeUuid : string)
    (orderId userId : string) (price : option Q) (quantity : option Z)
  : MemoryStore -> ModifyResponse * MemoryStore :=
  fun st =>
    (* Get existing order *)
    match OrderLifecycle.getOrderById st orderId with
    | inl e => (orderErrorResponse e, st)
    | inr existingOrder =>
        (* Verify order belongs to user *)
        if negb (String.eqb (order_userId existingOrder) userId) then
          (mkModifyResponse HTTP_STATUS.FORBIDDEN AccessDeniedToThisOrder, st)
        (* Check if order can be modified *)
        else if negb (ORDER_STATUSES_eqb (status existingOrder) PLACED) then
          (mkModifyResponse HTTP_STATUS.BAD_REQUEST OnlyPendingOrdersCanBeModified, st)
        else
          (* cancel the old order *)
          match OrderLifecycle.cancelOrder orderId userId st with
          | (inl e, st1) => (orderErrorResponse e, st1)
          | (inr cancelledOrder, st1) =>
              let existingOrder :=
                match cancelledOrder with Some o => o | None => existingOrder end in
              (* Create new order with modified data *)
              let newOrderData :=
                mkOrder (order_id existingOrder) userId (order_symbol existingOrder)
                  (orderType existingOrder) (orderStyle existingOrder)
                  (match quantity with
                   | Some q => if negb (q =? 0) then q
                               else order_quantity existingOrder
                   | None => order_quantity existingOrder
                   end)
                  (if memoryStore.truthyQ price then price
                   else order_price existingOrder)
                  (status existingOrder) (executedPrice existingOrder)
                  (executedQuantity existingOrder) in
              match placeOrder orderUuid rnd tradeUuid newOrderData st1 with
              | (Returned modifiedOrder, st2) =>
                  (mkModifyResponse HTTP_STATUS.OK
                     (OrderModifiedSuccessfully orderId modifiedOrder), st2)
              | (Thrown e, st2) => (placeErrorResponse e, st2)
              end
          end
    end.

End OrderModification.

(** ** services/tradeService.js: looking trades up *)

Module TradeQueries.

(** The [AppError] of [getTradeById]: 'Trade not found'. *)
Inductive TradeError := TradeNotFound (statusCode : Z).

(** [getTradeById(tradeId, userId)], without the formatted strings that
    are added to the trade. *)
Definition getTradeById (tradeId userId : string) (st : MemoryStore)
  : TradeError + Trade :=
  let trades := memoryStore.getAllTrades st userId in
  match find (fun t => String.eqb (trade_id t) tradeId) trades with
  | None => inl (TradeNotFound HTTP_STATUS.NOT_FOUND)
  | Some trade => inr trade
  end.

(** [getTradesByOrderId(orderId, userId)], without the formatted strings. *)
Definition getTradesByOrderId (orderId userId : string) (st : MemoryStore) : list Trade :=
  let trades := memoryStore.getAllTrades st userId in
  filter (fun trade => String.eqb (trade_orderId trade) orderId) trades.

End TradeQueries.

(** The condition under which [attemptOrderExecution] executes a PLACED
    order: its instrument exists, and the order is a MARKET order or its
    limit is met by the instrument's price. *)
Definition executable (st : MemoryStore) (order : Order) : Prop :=
  exists instrument,
    memoryStore.getInstrumentBySymbol st (order_symbol order) = Some instrument
    /\ (if ORDER_STYLES_eqb (orderStyle order) MARKET then true
        else canExecuteLimitOrder order (lastTradedPrice instrument)) = true.

(** ** The stores that the operations of the API lead to *)



(** * Properties *)

(** ** The [Map] operations *)

Section JsMapFacts.
Context {V : Type}.
Implicit Types (m : JsMap.t V) (k : string) (v : V).

Lemma get_set_same m k v : JsMap.get (JsMap.set m k v) k = Some v.
Proof.
  induction m as [|[k0 v0] m IH]; simpl.
  - now rewrite String.eqb_refl.
  - destruct (String.eqb k0 k) eqn:E; simpl.
    + now rewrite String.eqb_refl.
    + now rewrite E.
Qed.

Lemma get_set_other m k k' v :
  k <> k' -> JsMap.get (JsMap.set m k v) k' = JsMap.get m k'.
Proof.
  intros Hne. induction m as [|[k0 v0] m IH]; simpl.
  - apply String.eqb_neq in Hne. now rewrite Hne.
  - destruct (String.eqb k0 k) eqn:E; simpl.
    + apply String.eqb_eq in E. subst k0.
      apply String.eqb_neq in Hne. now rewrite Hne.
    + now rewrite IH.
Qed.

Lemma get_In m k v : JsMap.get m k = Some v -> In (k, v) m.
Proof.
  induction m as [|[k0 v0] m IH]; simpl; [discriminate|].
  destruct (String.eqb k0 k) eqn:E.
  - apply String.eqb_eq in E. intros [= ->]. subst. now left.
  - intros H. right. now apply IH.
Qed.


Lemma In_keys m k v : In (k, v) m -> In k (JsMap.keys m).
Proof. intros H. unfold JsMap.keys. now apply (in_map fst) in H. Qed.

Lemma NoDup_get m k v :
  NoDup (JsMap.keys m) -> In (k, v) m -> JsMap.get m k = Some v.
Proof.
  induction m as [|[k0 v0] m IH]; simpl; [tauto|].
  intros Hnd [H|H].
  - injection H as -> ->. now rewrite String.eqb_refl.
  - inversion Hnd as [|? ? Hnot Hnd']; subst.
    destruct (String.eqb k0 k) eqn:E.
    + apply String.eqb_eq in E. subst k0.
      exfalso. apply Hnot. now apply In_keys with v.
    + now apply IH.
Qed.

Lemma In_set m k v k' v' :
  In (k', v') (JsMap.set m k v) -> (k' = k /\ v' = v) \/ In (k', v') m.
Proof.
  induction m as [|[k0 v0] m IH]; simpl.
  - intros [H|[]]. injection H as <- <-. now left.
  - destruct (String.eqb k0 k) eqn:E; simpl.
    + intros [H|H]; [injection H as <- <-; now left | right; now right].
    + intros [H|H]; [right; now left|].
      destruct (IH H) as [?|?]; [now left | right; now right].
Qed.

Lemma keys_set_in m k v :
  forall k', In k' (JsMap.keys (JsMap.set m k v)) <-> k' = k \/ In k' (JsMap.keys m).
Proof.
  induction m as [|[k0 v0] m IH]; simpl; intros k'.
  - intuition.
  - destruct (String.eqb k0 k) eqn:E; simpl.
    + apply String.eqb_eq in E. subst k0. intuition.
    + rewrite IH. intuition.
Qed.

Lemma NoDup_set m k v :
  NoDup (JsMap.keys m) -> NoDup (JsMap.keys (JsMap.set m k v)).
Proof.
  induction m as [|[k0 v0] m IH]; simpl; intros Hnd.
  - constructor; [tauto | constructor].
  - inversion Hnd as [|? ? Hnot Hnd']; subst.
    destruct (String.eqb k0 k) eqn:E; simpl.
    + apply String.eqb_eq in E. subst k0. now constructor.
    + constructor; [|now apply IH].
      rewrite keys_set_in. apply String.eqb_neq in E. intros [H|H]; congruence.
Qed.

End JsMapFacts.

(** ** The execution engine (utils/helpers.js) *)

(** C3. The execution decision: a MARKET order can always execute; a
    LIMIT BUY can execute exactly when the current price is at most the
    limit price; a LIMIT SELL exactly when the current price is at least
    the limit price. *)
Theorem canExecute_decision (order : Order) (currentPrice : Q) :
  (orderStyle order = MARKET -> canExecuteLimitOrder order currentPrice = true)
  /\ (forall limitPrice,
        orderStyle order = LIMIT -> order_price order = Some limitPrice ->
        (orderType order = BUY ->
           (canExecuteLimitOrder order currentPrice = true
            <-> (currentPrice <= limitPrice)%Q))
        /\ (orderType order = SELL ->
              (canExecuteLimitOrder order currentPrice = true
               <-> (limitPrice <= currentPrice)%Q))).
Proof.
  unfold canExecuteLimitOrder. split.
  - intros ->. reflexivity.
  - intros limitPrice -> ->. simpl. split; intros ->; simpl; apply Qle_bool_iff.
Qed.

Lemma canExecute_decision_witness :
  canExecuteLimitOrder
    (mkOrder "o" "user_001" "TCS" BUY LIMIT 10 (Some (3900 # 1)) PLACED None None)
    (389020 # 100) = true
  /\ canExecuteLimitOrder
       (mkOrder "o" "user_001" "TCS" SELL MARKET 10 None PLACED None None)
       (389020 # 100) = true.
Proof.
  split.
  - apply (proj1 (proj2 (canExecute_decision
                           (mkOrder "o" "user_001" "TCS" BUY LIMIT 10 (Some (3900 # 1))
                              PLACED None None)
                           (389020 # 100))
                   (3900 # 1) eq_refl eq_refl)).
    + reflexivity.
    + unfold Qle. simpl. lia.
  - apply (proj1 (canExecute_decision
                    (mkOrder "o" "user_001" "TCS" SELL MARKET 10 None PLACED None None)
                    (389020 # 100))).
    reflexivity.
Defined.

(** A LIMIT order that can execute carries a price: the branch of
    [attemptOrderExecution] without an execution price is not reached. *)
Lemma canExecute_has_price (rnd : Q) (order : Order) (currentPrice : Q) :
  (if ORDER_STYLES_eqb (orderStyle order) MARKET then true
   else canExecuteLimitOrder order currentPrice) = true ->
  calculateExecutionPrice rnd order currentPrice <> None.
Proof.
  unfold calculateExecutionPrice, canExecuteLimitOrder.
  destruct (orderStyle order); simpl; [discriminate|].
  destruct (ORDER_TYPES_eqb (orderType order) BUY), (order_price order);
    discriminate.
Qed.




(** ** The portfolio ledger (database/memoryStore.js) *)

(** C4. A BUY of [qty] at [price] on a holding of quantity [Q] and cost
    basis [C] (both zero when there is no holding yet) stores a holding of
    cost basis [C + qty * price], quantity [Q + qty] and average price
    [(C + qty * price) / (Q + qty)]; buying 10 at 100 and then 10 at 120
    gives quantity 20 and average price 110. *)
Theorem buy_weighted_average :
  (forall (st : MemoryStore) (userId symbol : string) (qty : Z) (price : Q),
      let prior := memoryStore.holdingOrNew (portfolio st) userId symbol in
      let C := totalInvestment prior in
      let Q := quantity prior in
      let '(h, st') := memoryStore.updatePortfolio st userId symbol qty price BUY in
      JsMap.get (portfolio st') (memoryStore.portfolioKey userId symbol) = Some h
      /\ totalInvestment h = (C + inject_Z qty * price)%Q
      /\ quantity h = Q + qty
      /\ averagePrice h = ((C + inject_Z qty * price) / inject_Z (Q + qty))%Q)
  /\ (exists h,
         JsMap.get
           (applyFills JsMap.empty
              [mkFill "user_001" "TCS" 10 (100 # 1) BUY;
               mkFill "user_001" "TCS" 10 (120 # 1) BUY])
           (memoryStore.portfolioKey "user_001" "TCS") = Some h
         /\ quantity h = 20
         /\ (averagePrice h == 110 # 1)%Q).
Proof.
  split.
  - intros st userId symbol qty price prior C Q.
    unfold memoryStore.updatePortfolio, memoryStore.updatePortfolioMap.
    cbn [portfolio memoryStore.with_portfolio].
    split; [apply get_set_same|]. repeat split.
  - eexists. split; [vm_compute; reflexivity|]. split; reflexivity.
Qed.

Lemma In_values {V} (m : JsMap.t V) (v : V) :
  In v (JsMap.values m) <-> exists k, In (k, v) m.
Proof.
  unfold JsMap.values. rewrite in_map_iff. split.
  - intros [[k v'] [<- H]]. now exists k.
  - intros [k H]. now exists (k, v).
Qed.

Lemma holdingOrNew_invariant (m : JsMap.t Holding) userId symbol :
  Forall holdingInvariant (JsMap.values m) ->
  holdingInvariant (memoryStore.holdingOrNew m userId symbol).
Proof.
  intros Hall. unfold memoryStore.holdingOrNew.
  destruct (JsMap.get m (memoryStore.portfolioKey userId symbol)) as [h|] eqn:E.
  - rewrite Forall_forall in Hall. apply Hall, In_values.
    eexists. apply get_In, E.
  - split; simpl; [lia | now split].
Qed.

Lemma applyTrade_invariant (h : Holding) (qty : Z) (price : Q) (side : ORDER_TYPES) :
  holdingInvariant h -> 0 < qty ->
  holdingInvariant (memoryStore.applyTrade h qty price side).
Proof.
  intros [Hq _] Hqty. destruct side; unfold memoryStore.applyTrade, holdingInvariant.
  - cbn [quantity]. split; [lia | intros; lia].
  - destruct (Z.eqb_spec (Z.max 0 (quantity h - qty)) 0) as [E|E];
      cbn [quantity totalInvestment averagePrice].
    + split; [lia | now split].
    + split; [lia | intros; contradiction].
Qed.

Lemma applyFill_invariant (m : JsMap.t Holding) (f : Fill) :
  Forall holdingInvariant (JsMap.values m) -> wellFormedFill f ->
  Forall holdingInvariant (JsMap.values (applyFill m f)).
Proof.
  intros Hall Hf. apply Forall_forall. intros h Hin.
  apply In_values in Hin. destruct Hin as [k Hin].
  unfold applyFill, memoryStore.updatePortfolioMap in Hin. cbn [snd] in Hin.
  apply In_set in Hin. destruct Hin as [[_ ->]|Hin].
  - apply applyTrade_invariant; [now apply holdingOrNew_invariant | exact Hf].
  - rewrite Forall_forall in Hall. apply Hall, In_values. now exists k.
Qed.

Lemma applyFills_invariant (fs : list Fill) (m : JsMap.t Holding) :
  Forall holdingInvariant (JsMap.values m) -> Forall wellFormedFill fs ->
  Forall holdingInvariant (JsMap.values (applyFills m fs)).
Proof.
  revert m. induction fs as [|f fs IH]; intros m Hm Hfs; simpl; [exact Hm|].
  inversion Hfs; subst. apply IH; [now apply applyFill_invariant | assumption].
Qed.

(** C6. After any sequence of BUY and SELL fills (of positive quantities,
    as every order has) on an empty portfolio, every stored holding has a
    quantity that is not negative, and a holding of quantity 0 has cost
    basis 0 and average price 0. *)
Theorem holdings_invariant (fs : list Fill) (h : Holding) :
  Forall wellFormedFill fs ->
  In h (JsMap.values (applyFills JsMap.empty fs)) ->
  0 <= quantity h
  /\ (quantity h = 0 -> totalInvestment h = 0%Q /\ averagePrice h = 0%Q).
Proof.
  intros Hfs Hin.
  pose proof (applyFills_invariant fs JsMap.empty (Forall_nil _) Hfs) as Hall.
  rewrite Forall_forall in Hall. exact (Hall h Hin).
Qed.

Lemma holdings_invariant_witness :
  let h := mkHolding "user_001" "TCS" 0 0 0 in
  0 <= quantity h
  /\ (quantity h = 0 -> totalInvestment h = 0%Q /\ averagePrice h = 0%Q).
Proof.
  apply (holdings_invariant
           [mkFill "user_001" "TCS" 10 (100 # 1) BUY;
            mkFill "user_001" "TCS" 10 (120 # 1) SELL]).
  - repeat constructor.
  - vm_compute. left. reflexivity.
Defined.

(** ** The portfolio service (services/portfolioService.js) *)

Lemma getHoldingBySymbol_run (st : MemoryStore) (userId symbol : string) :
  PortfolioService.getHoldingBySymbol userId symbol st
  = (Returned (foundHolding st userId symbol), st).
Proof. reflexivity. Qed.

Lemma updatePortfolioAfterTrade_unknown st userId symbol qty price side :
  memoryStore.getInstrumentBySymbol st symbol = None ->
  PortfolioService.updatePortfolioAfterTrade userId symbol qty price side st
  = (Thrown (AppError (InvalidInstrumentSymbol symbol) HTTP_STATUS.BAD_REQUEST), st).
Proof.
  intros H. unfold PortfolioService.updatePortfolioAfterTrade,
    InstrumentService.validateInstrument. run. now rewrite H.
Qed.

Lemma updatePortfolioAfterTrade_buy st userId symbol qty price :
  isInstrument st symbol ->
  PortfolioService.updatePortfolioAfterTrade userId symbol qty price BUY st
  = (let '(h, st') := memoryStore.updatePortfolio st userId symbol qty price BUY in
     (Returned h, st')).
Proof.
  unfold isInstrument. intros H.
  unfold PortfolioService.updatePortfolioAfterTrade,
    InstrumentService.validateInstrument. run.
  destruct (memoryStore.getInstrumentBySymbol st symbol); [reflexivity | contradiction].
Qed.

Lemma updatePortfolioAfterTrade_sell st userId symbol qty price :
  isInstrument st symbol ->
  PortfolioService.updatePortfolioAfterTrade userId symbol qty price SELL st
  = match foundHolding st userId symbol with
    | None =>
        (Thrown (AppError (InsufficientQuantity 0 qty) HTTP_STATUS.BAD_REQUEST), st)
    | Some h =>
        if quantity (memoryStore.entry_holding h) <? qty then
          (Thrown (AppError (InsufficientQuantity (quantity (memoryStore.entry_holding h)) qty)
                     HTTP_STATUS.BAD_REQUEST), st)
        else
          let '(h', st') := memoryStore.updatePortfolio st userId symbol qty price SELL in
          (Returned h', st')
    end.
Proof.
  unfold isInstrument. intros H.
  unfold PortfolioService.updatePortfolioAfterTrade,
    InstrumentService.validateInstrument. run.
  destruct (memoryStore.getInstrumentBySymbol st symbol); [|contradiction].
  cbn [negb ORDER_TYPES_eqb]. rewrite getHoldingBySymbol_run.
  destruct (foundHolding st userId symbol) as [h|]; [|reflexivity].
  destruct (quantity (memoryStore.entry_holding h) <? qty); reflexivity.
Qed.

(** A call of the service leaves the portfolio as it was, or as one call
    of [updatePortfolio] makes it. *)
Lemma serviceFill_portfolio (st : MemoryStore) (f : Fill) :
  instruments (serviceFill st f) = instruments st
  /\ (portfolio (serviceFill st f) = portfolio st
      \/ (isInstrument st (fill_symbol f)
          /\ portfolio (serviceFill st f) = applyFill (portfolio st) f)).
Proof.
  unfold serviceFill.
  destruct (memoryStore.getInstrumentBySymbol st (fill_symbol f)) as [i|] eqn:E.
  - assert (Hi : isInstrument st (fill_symbol f)) by (unfold isInstrument; congruence).
    destruct f as [u s q p [|]]; cbn [fill_userId fill_symbol fill_quantity fill_price
                                       fill_side] in *.
    + rewrite updatePortfolioAfterTrade_buy by assumption.
      split; [reflexivity | right; split; [assumption | reflexivity]].
    + rewrite updatePortfolioAfterTrade_sell by assumption.
      destruct (foundHolding st u s) as [h|]; [|split; [reflexivity | now left]].
      destruct (quantity (memoryStore.entry_holding h) <? q);
        [split; [reflexivity | now left]|].
      split; [reflexivity | right; split; [assumption | reflexivity]].
  - rewrite updatePortfolioAfterTrade_unknown by assumption.
    split; [reflexivity | now left].
Qed.

(** The invariant of the holdings, for fills that go through the service. *)
Lemma serviceFills_invariant (fs : list Fill) (st : MemoryStore) :
  Forall holdingInvariant (JsMap.values (portfolio st)) ->
  Forall wellFormedFill fs ->
  Forall holdingInvariant (JsMap.values (portfolio (serviceFills st fs))).
Proof.
  revert st. induction fs as [|f fs IH]; intros st Hst Hfs; simpl; [exact Hst|].
  inversion Hfs; subst. apply IH; [|assumption].
  destruct (serviceFill_portfolio st f) as [_ [-> | [_ ->]]];
    [assumption | now apply applyFill_invariant].
Qed.

(** Under the invariant of the store, the holding that the SELL check
    finds is the one stored for the user and the symbol. *)
Lemma foundHolding_stored (st : MemoryStore) (userId symbol : string)
      (e : memoryStore.PortfolioEntry) :
  storeInvariant st -> isInstrument st symbol ->
  foundHolding st userId symbol = Some e ->
  JsMap.get (portfolio st) (memoryStore.portfolioKey userId symbol)
  = Some (memoryStore.entry_holding e).
Proof.
  intros [Hkeys Hentries Hsymbols] Hsym Hfound.
  unfold foundHolding in Hfound. apply find_some in Hfound.
  destruct Hfound as [Hin Hlower]. apply String.eqb_eq in Hlower.
  unfold memoryStore.getPortfolio in Hin. apply in_map_iff in Hin.
  destruct Hin as [h [<- Hin]]. cbn [memoryStore.entry_holding] in *.
  apply filter_In in Hin. destruct Hin as [Hin Hfilter].
  apply andb_true_iff in Hfilter. destruct Hfilter as [Huser _].
  apply String.eqb_eq in Huser.
  apply In_values in Hin. destruct Hin as [k Hin].
  destruct (Hentries k h Hin) as [Hk Hinst].
  assert (holding_symbol h = symbol) as Hs by now apply Hsymbols.
  rewrite Huser, Hs in Hk. subst k.
  now apply NoDup_get.
Qed.

(** C5. A SELL of more than the user holds of the symbol (nothing, when
    there is no holding), for a symbol of the instrument list and a store
    that satisfies its invariant: the portfolio service throws the
    insufficient-quantity error (status 400) and the store, hence the
    stored holding, is as before. *)
Theorem sell_exceeding_holdings_rejected
        (st : MemoryStore) (userId symbol : string) (qty : Z) (price : Q) :
  storeInvariant st -> isInstrument st symbol ->
  heldQuantity st userId symbol < qty ->
  exists available,
    PortfolioService.updatePortfolioAfterTrade userId symbol qty price SELL st
    = (Thrown (AppError (InsufficientQuantity available qty) HTTP_STATUS.BAD_REQUEST),
       st).
Proof.
  intros Hinv Hsym Hheld.
  rewrite updatePortfolioAfterTrade_sell by assumption.
  destruct (foundHolding st userId symbol) as [e|] eqn:Hfound.
  - pose proof (foundHolding_stored st userId symbol e Hinv Hsym Hfound) as Hget.
    unfold heldQuantity in Hheld. rewrite Hget in Hheld.
    apply Z.ltb_lt in Hheld. rewrite Hheld. now eexists.
  - now eexists.
Qed.

(** The invariant of the store holds at start and the portfolio service
    keeps it. *)
Lemma initialStore_instruments (symbol : string) :
  isInstrument memoryStore.initialStore symbol ->
  In symbol ["RELIANCE"; "TCS"; "INFY"; "HDFC"; "ICICIBANK"].
Proof.
  unfold isInstrument, memoryStore.getInstrumentBySymbol. intros H.
  destruct (JsMap.get (instruments memoryStore.initialStore) symbol) as [i|] eqn:E;
    [|contradiction].
  apply get_In, In_keys in E. exact E.
Qed.

Lemma initialStore_invariant : storeInvariant memoryStore.initialStore.
Proof.
  constructor.
  - constructor.
  - intros k h [].
  - intros s1 s2 H1 H2.
    apply initialStore_instruments in H1, H2. simpl in H1, H2.
    intuition (subst; try reflexivity; discriminate).
Qed.

Lemma applyTrade_identity (h : Holding) qty price side :
  holding_userId (memoryStore.applyTrade h qty price side) = holding_userId h
  /\ holding_symbol (memoryStore.applyTrade h qty price side) = holding_symbol h.
Proof.
  destruct side; unfold memoryStore.applyTrade; [now split|].
  destruct (Z.max 0 (quantity h - qty) =? 0); now split.
Qed.

Lemma serviceFill_invariant (st : MemoryStore) (f : Fill) :
  storeInvariant st -> storeInvariant (serviceFill st f).
Proof.
  intros [Hkeys Hentries Hsymbols].
  destruct (serviceFill_portfolio st f) as [Hinstr Hport].
  assert (Hsame : forall s, isInstrument (serviceFill st f) s <-> isInstrument st s)
    by (intros s; unfold isInstrument, memoryStore.getInstrumentBySymbol;
        now rewrite Hinstr).
  constructor.
  - destruct Hport as [-> | [_ ->]]; [assumption|].
    unfold applyFill, memoryStore.updatePortfolioMap. cbn [snd]. now apply NoDup_set.
  - intros k h Hin. rewrite Hsame.
    destruct Hport as [Heq | [Hsym Heq]]; rewrite Heq in Hin; [now apply Hentries|].
    unfold applyFill, memoryStore.updatePortfolioMap in Hin. cbn [snd] in Hin.
    apply In_set in Hin. destruct Hin as [[-> ->] | Hin]; [|now apply Hentries].
    destruct (applyTrade_identity
                (memoryStore.holdingOrNew (portfolio st) (fill_userId f) (fill_symbol f))
                (fill_quantity f) (fill_price f) (fill_side f)) as [-> ->].
    unfold memoryStore.holdingOrNew.
    destruct (JsMap.get (portfolio st)
                (memoryStore.portfolioKey (fill_userId f) (fill_symbol f))) as [h0|] eqn:E.
    + apply get_In in E. now apply Hentries.
    + split; [reflexivity | exact Hsym].
  - intros s1 s2. rewrite !Hsame. apply Hsymbols.
Qed.

Lemma serviceFills_storeInvariant (fs : list Fill) (st : MemoryStore) :
  storeInvariant st -> storeInvariant (serviceFills st fs).
Proof.
  revert st. induction fs as [|f fs IH]; intros st Hst; simpl; [exact Hst|].
  apply IH. now apply serviceFill_invariant.
Qed.

(** The other mutations of the store leave the portfolio and the set of
    instruments alone, so the invariant goes through an execution attempt
    and through a price update. *)
Lemma storeInvariant_same (st st' : MemoryStore) :
  portfolio st' = portfolio st ->
  (forall s, isInstrument st' s <-> isInstrument st s) ->
  storeInvariant st -> storeInvariant st'.
Proof.
  intros Hp Hi [Hkeys Hentries Hsymbols]. constructor.
  - now rewrite Hp.
  - intros k h Hin. rewrite Hp in Hin. rewrite Hi. now apply Hentries.
  - intros s1 s2. rewrite !Hi. apply Hsymbols.
Qed.


Lemma updatePrice_invariant (st : MemoryStore) (symbol : string) (newPrice : Q) :
  storeInvariant st ->
  storeInvariant (snd (InstrumentService.updatePrice symbol newPrice st)).
Proof.
  intros Hinv. unfold InstrumentService.updatePrice, memoryStore.updateInstrumentPrice.
  run. destruct (JsMap.get (instruments st) symbol) as [i|] eqn:E; [|exact Hinv].
  cbn [negb snd]. apply storeInvariant_same with st; [reflexivity | | exact Hinv].
  intros s. unfold isInstrument, memoryStore.getInstrumentBySymbol.
  cbn [instruments memoryStore.with_instruments].
  destruct (String.eqb_spec symbol s) as [<-|Hne].
  - rewrite get_set_same, E. split; discriminate.
  - now rewrite get_set_other.
Qed.

Lemma sell_exceeding_holdings_rejected_witness :
  let st := serviceFills memoryStore.initialStore
              [mkFill "user_001" "TCS" 10 (100 # 1) BUY] in
  heldQuantity st "user_001" "TCS" = 10
  /\ exists available,
      PortfolioService.updatePortfolioAfterTrade "user_001" "TCS" 11 (100 # 1) SELL st
      = (Thrown (AppError (InsufficientQuantity available 11) HTTP_STATUS.BAD_REQUEST),
         st).
Proof.
  split; [reflexivity|].
  apply (sell_exceeding_holdings_rejected
           (serviceFills memoryStore.initialStore
              [mkFill "user_001" "TCS" 10 (100 # 1) BUY])
           "user_001" "TCS" 11 (100 # 1)).
  - apply serviceFills_storeInvariant, initialStore_invariant.
  - unfold isInstrument. vm_compute. discriminate.
  - vm_compute. reflexivity.
Defined.

(** [memoryStore.updatePortfolio] itself does not fail on such a SELL: it
    clamps the quantity at 0 and resets the holding.  The refusal is the
    check of the service above. *)
Example updatePortfolio_sell_clamps :
  let st := serviceFills memoryStore.initialStore
              [mkFill "user_001" "TCS" 10 (100 # 1) BUY] in
  fst (memoryStore.updatePortfolio st "user_001" "TCS" 11 (100 # 1) SELL)
  = mkHolding "user_001" "TCS" 0 0 0.
Proof. reflexivity. Qed.

(** ** Average price and cost basis *)

(** C2, as stated, fails: after buying 10 at 100 and selling 5, the
    holding has quantity 5, cost basis 1000 and average price 100, while
    1000 / 5 is 200.  The two fills pass the checks of the portfolio
    service, which leaves the same portfolio. *)
Lemma average_price_after_partial_sell :
  let fs := [mkFill "user_001" "TCS" 10 (100 # 1) BUY;
             mkFill "user_001" "TCS" 5 (150 # 1) SELL] in
  Forall wellFormedFill fs
  /\ portfolio (serviceFills memoryStore.initialStore fs) = applyFills JsMap.empty fs
  /\ exists h,
      In h (JsMap.values (applyFills JsMap.empty fs))
      /\ 0 < quantity h
      /\ ~ (averagePrice h == totalInvestment h / inject_Z (quantity h))%Q.
Proof.
  split; [repeat constructor|]. split; [reflexivity|].
  eexists. split; [vm_compute; left; reflexivity|].
  split; [reflexivity|]. vm_compute. discriminate.
Qed.

(** C2, amended.  In a portfolio reached by fills of positive quantities:
    right after a BUY the holding has a positive quantity and its average
    price is its cost basis divided by its quantity; a SELL that leaves a
    positive quantity takes the sold quantity off and leaves the average
    price and the cost basis as they were. *)
Theorem average_price_after_fill (fs : list Fill) (f : Fill) :
  Forall wellFormedFill fs -> wellFormedFill f ->
  let m := applyFills JsMap.empty fs in
  exists h',
    JsMap.get (applyFill m f) (fillKey f) = Some h'
    /\ match fill_side f with
       | BUY =>
           0 < quantity h'
           /\ averagePrice h' = (totalInvestment h' / inject_Z (quantity h'))%Q
       | SELL =>
           0 < quantity h' ->
           exists h,
             JsMap.get m (fillKey f) = Some h
             /\ quantity h' = quantity h - fill_quantity f
             /\ averagePrice h' = averagePrice h
             /\ totalInvestment h' = totalInvestment h
       end.
Proof.
  intros Hfs Hf m.
  assert (Hprior : holdingInvariant
                     (memoryStore.holdingOrNew m (fill_userId f) (fill_symbol f))).
  { apply holdingOrNew_invariant, applyFills_invariant; [constructor | exact Hfs]. }
  destruct Hprior as [Hq0 _]. unfold wellFormedFill in Hf.
  eexists. split.
  - unfold applyFill, memoryStore.updatePortfolioMap, fillKey. cbn [snd].
    apply get_set_same.
  - unfold memoryStore.applyTrade. destruct (fill_side f).
    + cbn [quantity averagePrice totalInvestment]. split; [lia | reflexivity].
    + revert Hq0. unfold memoryStore.holdingOrNew, fillKey.
      destruct (JsMap.get m (memoryStore.portfolioKey (fill_userId f) (fill_symbol f)))
        as [h|]; cbn [quantity]; intros Hq0.
      * destruct (Z.eqb_spec (Z.max 0 (quantity h - fill_quantity f)) 0) as [E|E];
          cbn [quantity averagePrice totalInvestment]; intros Hpos; [lia|].
        exists h. repeat split. lia.
      * destruct (Z.eqb_spec (Z.max 0 (0 - fill_quantity f)) 0) as [E|E];
          cbn [quantity]; intros Hpos; lia.
Qed.

Lemma average_price_after_fill_witness :
  exists h',
    JsMap.get
      (applyFill
         (applyFills JsMap.empty [mkFill "user_001" "TCS" 10 (100 # 1) BUY])
         (mkFill "user_001" "TCS" 10 (120 # 1) BUY))
      (memoryStore.portfolioKey "user_001" "TCS") = Some h'
    /\ 0 < quantity h'
    /\ averagePrice h' = (totalInvestment h' / inject_Z (quantity h'))%Q.
Proof.
  apply (average_price_after_fill
           [mkFill "user_001" "TCS" 10 (100 # 1) BUY]
           (mkFill "user_001" "TCS" 10 (120 # 1) BUY)).
  - repeat constructor.
  - reflexivity.
Defined.

(** ** The order lifecycle (services/orderService.js) *)

(** C8. An execution attempt on an order that is absent or not PLACED
    (EXECUTED and CANCELLED among them) returns [null] and leaves the
    store (orders, trades, holdings, instruments) as it was; a second
    attempt does the same. *)
Theorem attempt_not_placed_noop
        (st : MemoryStore) (orderId : string) (rnd rnd' : Q) (uuid uuid' : string) :
  notPlaced st orderId ->
  OrderService.attemptOrderExecution rnd uuid orderId st = (Returned None, st)
  /\ OrderService.attemptOrderExecution rnd' uuid' orderId
       (snd (OrderService.attemptOrderExecution rnd uuid orderId st))
     = (Returned None, st).
Proof.
  intros H.
  assert (Hone : forall r u,
             OrderService.attemptOrderExecution r u orderId st = (Returned None, st)).
  { intros r u. unfold OrderService.attemptOrderExecution. run.
    unfold notPlaced in H.
    destruct (memoryStore.getOrderById st orderId) as [order|]; [|reflexivity].
    destruct (status order); try reflexivity. now contradiction H. }
  split; [apply Hone|]. rewrite Hone. cbn [snd]. apply Hone.
Qed.

Lemma attempt_not_placed_noop_witness :
  let st := snd (OrderService.attemptOrderExecution (1 # 2) "trade-1" "order-1"
                   sellWithoutHoldings) in
  OrderService.attemptOrderExecution (1 # 2) "trade-2" "order-1" st = (Returned None, st)
  /\ OrderService.attemptOrderExecution (1 # 2) "trade-2" "no-such-order"
       memoryStore.initialStore = (Returned None, memoryStore.initialStore).
Proof.
  split.
  - apply (attempt_not_placed_noop
             (snd (OrderService.attemptOrderExecution (1 # 2) "trade-1" "order-1"
                     sellWithoutHoldings))
             "order-1" (1 # 2) (1 # 2) "trade-2" "trade-2").
    vm_compute. discriminate.
  - apply (attempt_not_placed_noop memoryStore.initialStore "no-such-order"
             (1 # 2) (1 # 2) "trade-2" "trade-2").
    vm_compute. exact I.
Defined.

(** C1 fails on the code.  user_001 holds nothing and has a PLACED order
    to sell 5 TCS at the market.  The attempt marks the order EXECUTED and
    records the trade before the portfolio service refuses the fill; the
    error is caught, the attempt returns [null], and the store keeps the
    EXECUTED order and the trade while the portfolio is as it was. *)
Theorem sell_without_holdings_left_executed :
  let st := sellWithoutHoldings in
  let result := OrderService.attemptOrderExecution (1 # 2) "trade-1" "order-1" st in
  (exists order,
      memoryStore.getOrderById st "order-1" = Some order
      /\ status order = PLACED /\ orderType order = SELL /\ order_quantity order = 5)
  /\ heldQuantity st "user_001" "TCS" = 0
  /\ fst result = Returned None
  /\ (exists order',
         memoryStore.getOrderById (snd result) "order-1" = Some order'
         /\ status order' = EXECUTED
         /\ executedQuantity order' = Some 5)
  /\ (exists trade,
         JsMap.get (trades (snd result)) "trade-1" = Some trade
         /\ trade_orderId trade = "order-1"
         /\ trade_orderType trade = SELL
         /\ trade_quantity trade = 5)
  /\ portfolio (snd result) = portfolio st
  /\ (exists price,
         PortfolioService.updatePortfolioAfterTrade "user_001" "TCS" 5 price SELL st
         = (Thrown (AppError (InsufficientQuantity 0 5) HTTP_STATUS.BAD_REQUEST), st)).
Proof.
  cbv zeta.
  split; [eexists; split; [vm_compute; reflexivity | repeat split]|].
  split; [reflexivity|].
  split; [vm_compute; reflexivity|].
  split; [eexists; split; [vm_compute; reflexivity | split; reflexivity]|].
  split; [eexists; split; [vm_compute; reflexivity | repeat split]|].
  split; [vm_compute; reflexivity|].
  exists (389020 # 100)%Q. vm_compute. reflexivity.
Qed.

(** The same for every store: an executable PLACED order to SELL more
    than the SELL check finds is left EXECUTED, with its trade recorded
    and the portfolio as it was, and the attempt returns [null]. *)
Lemma attempt_sell_exceeding_holdings
      (st : MemoryStore) (rnd : Q) (uuid orderId : string)
      (order : Order) (instrument : Instrument) :
  memoryStore.getOrderById st orderId = Some order ->
  status order = PLACED ->
  orderType order = SELL ->
  memoryStore.getInstrumentBySymbol st (order_symbol order) = Some instrument ->
  (if ORDER_STYLES_eqb (orderStyle order) MARKET then true
   else canExecuteLimitOrder order (lastTradedPrice instrument)) = true ->
  match foundHolding st (order_userId order) (order_symbol order) with
  | None => True
  | Some e => quantity (memoryStore.entry_holding e) < order_quantity order
  end ->
  exists st' order',
    OrderService.attemptOrderExecution rnd uuid orderId st = (Returned None, st')
    /\ memoryStore.getOrderById st' orderId = Some order'
    /\ status order' = EXECUTED
    /\ JsMap.get (trades st') uuid <> None
    /\ portfolio st' = portfolio st.
Proof.
  intros Hget Hstatus Hside Hinstr Hcan Hfound.
  pose proof (canExecute_has_price rnd order (lastTradedPrice instrument) Hcan) as Hprice.
  destruct (calculateExecutionPrice rnd order (lastTradedPrice instrument))
    as [executionPrice|] eqn:Hexec; [clear Hprice | contradiction].
  unfold OrderService.attemptOrderExecution.
  unfold tryCatch at 1. unfold bind at 1. unfold gets at 1.
  rewrite Hget, Hstatus. cbn [ORDER_STATUSES_eqb negb].
  unfold InstrumentService.getCurrentPrice, InstrumentService.getInstrumentBySymbol.
  unfold bind at 1. unfold bind at 1. unfold tryCatch at 1. unfold bind at 1.
  unfold gets at 1. rewrite Hinstr. unfold ret at 1. unfold ret at 1.
  rewrite Hcan. cbn [negb]. rewrite Hexec.
  unfold bind at 1. unfold call at 1. unfold memoryStore.updateOrderStatus.
  unfold memoryStore.getOrderById in Hget. rewrite Hget.
  unfold bind at 1. unfold TradeService.createTrade, tryCatch at 1, call at 1,
    memoryStore.createTrade.
  unfold bind at 1.
  match goal with
  | |- context [PortfolioService.updatePortfolioAfterTrade ?u ?s ?q ?p ?side ?store] =>
      set (st2 := store);
      assert (Hsell : PortfolioService.updatePortfolioAfterTrade u s q p side st2
                      = PortfolioService.updatePortfolioAfterTrade u s q p SELL st2)
        by (now rewrite Hside);
      rewrite Hsell; clear Hsell;
      rewrite (updatePortfolioAfterTrade_sell st2 u s q p)
        by (unfold isInstrument, st2; cbn; unfold memoryStore.getInstrumentBySymbol in Hinstr;
            rewrite Hinstr; discriminate);
      change (foundHolding st2 u s) with (foundHolding st u s)
  end.
  assert (Hst2 :
            exists order',
              memoryStore.getOrderById st2 orderId = Some order' /\ status order' = EXECUTED).
  { eexists. unfold st2, memoryStore.getOrderById.
    cbn [orders memoryStore.with_trades memoryStore.with_orders]. rewrite get_set_same.
    split; reflexivity. }
  assert (Htrade : JsMap.get (trades st2) uuid <> None).
  { unfold st2. cbn [trades memoryStore.with_trades]. rewrite get_set_same. discriminate. }
  assert (Hport : portfolio st2 = portfolio st) by reflexivity.
  destruct Hst2 as [order' [Ho1 Ho2]].
  destruct (foundHolding st (order_userId order) (order_symbol order)) as [e|].
  - apply Z.ltb_lt in Hfound. rewrite Hfound.
    exists st2, order'. repeat split; assumption.
  - exists st2, order'. repeat split; assumption.
Qed.

(** The same through [placeOrder] on the initial store: the request to
    sell 5 TCS at the market, with nothing held, is answered with the
    order in status EXECUTED, and a trade is recorded. *)
Lemma placeOrder_sell_without_holdings :
  let result :=
    OrderService.placeOrder "order-1" (1 # 2) "trade-1"
      (OrderService.mkOrderRequest "user_001" "TCS" SELL MARKET 5 None)
      memoryStore.initialStore in
  (exists order, fst result = Returned order /\ status order = EXECUTED)
  /\ JsMap.keys (trades (snd result)) = ["trade-1"]
  /\ portfolio (snd result) = JsMap.empty.
Proof.
  cbv zeta. split; [eexists; split; [vm_compute; reflexivity | reflexivity]|].
  split; vm_compute; reflexivity.
Qed.

(** ** The instrument registry (services/instrumentService.js) *)

(** C9, as stated, fails on the service: [updatePrice] takes a negative
    price and stores it. *)
Lemma updatePrice_accepts_negative_price :
  let result := InstrumentService.updatePrice "TCS" (-5 # 1) memoryStore.initialStore in
  (-5 # 1 <= 0)%Q
  /\ fst result = Returned true
  /\ InstrumentService.getCurrentPrice "TCS" (snd result)
     = (Returned (-5 # 1)%Q, snd result).
Proof.
  cbv zeta. split; [unfold Qle; simpl; lia|].
  split; vm_compute; reflexivity.
Qed.

(** C9, amended.  [InstrumentService.updatePrice] replaces the stored
    price of a known symbol by the given one, whatever its sign, and
    changes nothing else; for an unknown symbol it throws the 404 error
    and the store is as before.  The price is checked by the controller:
    a missing or non-positive price is answered with 400 and the store is
    as before, the service not being called. *)
Theorem updatePrice_contract (st : MemoryStore) (symbol : string) (newPrice : Q) :
  (forall instrument,
      memoryStore.getInstrumentBySymbol st symbol = Some instrument ->
      exists st' instrument',
        InstrumentService.updatePrice symbol newPrice st = (Returned true, st')
        /\ memoryStore.getInstrumentBySymbol st' symbol = Some instrument'
        /\ lastTradedPrice instrument' = newPrice
        /\ instrument_symbol instrument' = instrument_symbol instrument
        /\ (forall other, other <> symbol ->
              memoryStore.getInstrumentBySymbol st' other
              = memoryStore.getInstrumentBySymbol st other)
        /\ orders st' = orders st /\ trades st' = trades st
        /\ portfolio st' = portfolio st)
  /\ (memoryStore.getInstrumentBySymbol st symbol = None ->
      InstrumentService.updatePrice symbol newPrice st
      = (Thrown (AppError (FailedToUpdatePriceFor symbol) HTTP_STATUS.NOT_FOUND), st))
  /\ (forall price : option Q,
        match price with None => True | Some p => (p <= 0)%Q end ->
        InstrumentController.updatePrice symbol price st
        = (mkResponse HTTP_STATUS.BAD_REQUEST ValidPriceRequired, st)).
Proof.
  unfold memoryStore.getInstrumentBySymbol. split; [|split].
  - intros instrument H.
    unfold InstrumentService.updatePrice, memoryStore.updateInstrumentPrice. run.
    rewrite H. cbn [negb]. do 2 eexists. split; [reflexivity|].
    cbn [instruments orders trades portfolio memoryStore.with_instruments].
    split; [apply get_set_same|]. repeat split.
    intros other Hne. apply get_set_other. congruence.
  - intros H.
    unfold InstrumentService.updatePrice, memoryStore.updateInstrumentPrice. run.
    now rewrite H.
  - intros [p|] H; unfold InstrumentController.updatePrice; [|reflexivity].
    apply Qle_bool_iff in H. now rewrite H.
Qed.

Lemma updatePrice_contract_witness :
  (exists st' instrument',
      InstrumentService.updatePrice "TCS" (4000 # 1) memoryStore.initialStore
      = (Returned true, st')
      /\ memoryStore.getInstrumentBySymbol st' "TCS" = Some instrument'
      /\ lastTradedPrice instrument' = (4000 # 1)%Q)
  /\ InstrumentService.updatePrice "WIPRO" (4000 # 1) memoryStore.initialStore
     = (Thrown (AppError (FailedToUpdatePriceFor "WIPRO") HTTP_STATUS.NOT_FOUND),
        memoryStore.initialStore)
  /\ InstrumentController.updatePrice "tcs" (Some (-5 # 1)%Q) memoryStore.initialStore
     = (mkResponse HTTP_STATUS.BAD_REQUEST ValidPriceRequired, memoryStore.initialStore).
Proof.
  split; [|split].
  - destruct (proj1 (updatePrice_contract memoryStore.initialStore "TCS" (4000 # 1))
                (mkInstrument "TCS" "TCS" "NSE" "EQUITY" (389020 # 100)
                   "Tata Consultancy Services Ltd") eq_refl)
      as (st' & i' & H1 & H2 & H3 & _).
    exists st', i'. repeat split; assumption.
  - apply (proj1 (proj2 (updatePrice_contract memoryStore.initialStore "WIPRO" (4000 # 1)))).
    reflexivity.
  - apply (proj2 (proj2 (updatePrice_contract memoryStore.initialStore "tcs" (4000 # 1)))
             (Some (-5 # 1)%Q)).
    unfold Qle. simpl. lia.
Defined.

(** ** Request validation (middleware/validation.js, routes/orders.js) *)

Section CreateOrderSchema.

Variable stringToNumber : string -> option Q.


Lemma isInteger_inject (q : Q) :
  Validation.isInteger q = true -> (q == inject_Z (Qfloor q))%Q.
Proof.
  unfold Validation.isInteger. intros H. apply Qeq_bool_iff in H.
  now symmetry.
Qed.

Lemma check_quantity_accepts (v : JsValue) (z : Z) :
  Validation.check_quantity stringToNumber v = inr z -> quantityInRange stringToNumber v.
Proof.
  unfold Validation.check_quantity, quantityInRange.
  destruct (Validation.asNumber stringToNumber v) as [| |q]; try discriminate.
  destruct (Validation.isInteger q) eqn:Hi; [|discriminate].
  destruct (Qle_bool 1 q) eqn:Hmin; [|discriminate].
  destruct (Qle_bool q 10000) eqn:Hmax; [|discriminate].
  intros _. exists q, (Qfloor q). split; [reflexivity|].
  apply isInteger_inject in Hi. split; [exact Hi|].
  apply Qle_bool_iff in Hmin, Hmax. rewrite Hi in Hmin, Hmax.
  change 1%Q with (inject_Z 1) in Hmin. change 10000%Q with (inject_Z 10000) in Hmax.
  rewrite <- Zle_Qle in Hmin, Hmax. lia.
Qed.

Lemma check_valid_type_accepts (v : JsValue) (t : ORDER_TYPES) :
  Validation.check_valid parse_ORDER_TYPES v = inr t -> isOrderType v.
Proof.
  unfold Validation.check_valid, parse_ORDER_TYPES, isOrderType.
  destruct v as [| | | |s|]; try discriminate.
  destruct (String.eqb_spec s "BUY") as [->|_]; [now left|].
  destruct (String.eqb_spec s "SELL") as [->|_]; [now right | discriminate].
Qed.

Lemma check_valid_style_accepts (v : JsValue) (y : ORDER_STYLES) :
  Validation.check_valid parse_ORDER_STYLES v = inr y -> isOrderStyle v.
Proof.
  unfold Validation.check_valid, parse_ORDER_STYLES, isOrderStyle.
  destruct v as [| | | |s|]; try discriminate.
  destruct (String.eqb_spec s "MARKET") as [->|_]; [now left|].
  destruct (String.eqb_spec s "LIMIT") as [->|_]; [now right | discriminate].
Qed.

Lemma check_price_limit_accepts (v : JsValue) (p : option Q) :
  Validation.check_price stringToNumber (JString "LIMIT") v = inr p ->
  hasPositivePrice stringToNumber v.
Proof.
  unfold Validation.check_price, hasPositivePrice. cbn [String.eqb].
  change (String.eqb "LIMIT" "LIMIT") with true. cbv iota.
  destruct (Validation.asNumber stringToNumber v) as [| |q]; try discriminate.
  destruct (Qle_bool q 0) eqn:E; [discriminate|]. intros _.
  exists q. split; [reflexivity|].
  apply Qnot_le_lt. intros H. apply Qle_bool_iff in H. congruence.
Qed.

(** A body that the schema accepts is not an invalid request. *)
Lemma createOrder_validate_accepts (body : Validation.CreateOrderBody)
      (value : Validation.CreateOrderValue) :
  Validation.createOrder_validate stringToNumber body = inr value ->
  ~ invalidRequest stringToNumber body.
Proof.
  unfold Validation.createOrder_validate, invalidRequest.
  destruct (Validation.check_symbol (Validation.body_symbol body)); [discriminate|].
  destruct (Validation.check_valid parse_ORDER_TYPES (Validation.body_orderType body))
    as [|t] eqn:Ht; [discriminate|].
  destruct (Validation.check_valid parse_ORDER_STYLES (Validation.body_orderStyle body))
    as [|y] eqn:Hy; [discriminate|].
  destruct (Validation.check_quantity stringToNumber (Validation.body_quantity body))
    as [|z] eqn:Hq; [discriminate|].
  destruct (Validation.check_price stringToNumber (Validation.body_orderStyle body)
              (Validation.body_price body))
    as [|p] eqn:Hp; [discriminate|].
  intros _ [H|[H|[H|[Hstyle H]]]]; apply H.
  - now apply check_quantity_accepts with z.
  - now apply check_valid_type_accepts with t.
  - now apply check_valid_style_accepts with y.
  - rewrite Hstyle in Hp. now apply check_price_limit_accepts with p.
Qed.

(** C10. A request to place an order whose quantity is not an integer
    from 1 to 10000, whose order type is not BUY or SELL, whose order
    style is not MARKET or LIMIT, or which is a LIMIT request without a
    positive price, is answered by the validation middleware with
    status 400; the order service is not called and the store is as
    before. *)
Theorem invalid_order_request_rejected
        (body : Validation.CreateOrderBody) (st : MemoryStore)
        (orderUuid tradeUuid : string) (rnd : Q) :
  invalidRequest stringToNumber body ->
  exists details,
    Validation.validateCreateOrder stringToNumber body
    = inl (mkResponse 400 (ValidationFailed details))
    /\ Validation.post_orders stringToNumber orderUuid rnd tradeUuid
         (Some "Bearer mock-token") body st
       = (mkResponse 400 (ValidationFailed details), st, false).
Proof.
  intros Hbad. unfold Validation.post_orders, Validation.validateCreateOrder.
  cbn [authenticateUser String.eqb Ascii.eqb Bool.eqb negb].
  change (String.eqb "Bearer mock-token" "Bearer mock-token") with true.
  cbv iota. cbn [negb].
  destruct (Validation.createOrder_validate stringToNumber body) as [details|value] eqn:E.
  - exists details. split; reflexivity.
  - exfalso. now apply (createOrder_validate_accepts body value).
Qed.

End CreateOrderSchema.

Lemma invalid_order_request_rejected_witness :
  exists details,
    Validation.post_orders (fun _ => None) "order-1" (1 # 2) "trade-1"
      (Some "Bearer mock-token")
      (Validation.mkBody (JString "TCS") (JString "BUY") (JString "MARKET")
         (JNumber (10001 # 1)) JUndefined)
      memoryStore.initialStore
    = (mkResponse 400 (ValidationFailed details), memoryStore.initialStore, false).
Proof.
  destruct (invalid_order_request_rejected (fun _ => None)
              (Validation.mkBody (JString "TCS") (JString "BUY") (JString "MARKET")
                 (JNumber (10001 # 1)) JUndefined)
              memoryStore.initialStore "order-1" "trade-1" (1 # 2))
    as [details [_ H]].
  - left. intros (q & z & Hq & Heq & Hz).
    cbn in Hq. injection Hq as <-.
    unfold Qeq in Heq. simpl in Heq. lia.
  - exists details. exact H.
Defined.

(** The bound is tight: a quantity of 10000 passes the schema. *)
Example order_quantity_10000_accepted :
  Validation.validateCreateOrder (fun _ => None)
    (Validation.mkBody (JString "TCS") (JString "BUY") (JString "MARKET")
       (JNumber (10000 # 1)) JUndefined)
  = inr (Validation.mkValue "TCS" BUY MARKET 10000 None).
Proof. reflexivity. Qed.

(** ** Outcomes of an execution attempt *)

Lemma updatePortfolioAfterTrade_outcome (st : MemoryStore) (f : Fill) :
  (exists e,
      PortfolioService.updatePortfolioAfterTrade (fill_userId f) (fill_symbol f)
        (fill_quantity f) (fill_price f) (fill_side f) st = (Thrown e, st))
  \/ (isInstrument st (fill_symbol f)
      /\ PortfolioService.updatePortfolioAfterTrade (fill_userId f) (fill_symbol f)
           (fill_quantity f) (fill_price f) (fill_side f) st
         = (Returned
              (memoryStore.applyTrade
                 (memoryStore.holdingOrNew (portfolio st) (fill_userId f) (fill_symbol f))
                 (fill_quantity f) (fill_price f) (fill_side f)),
            memoryStore.with_portfolio st (applyFill (portfolio st) f))).
Proof.
  destruct (memoryStore.getInstrumentBySymbol st (fill_symbol f)) as [i|] eqn:E.
  - assert (Hi : isInstrument st (fill_symbol f)) by (unfold isInstrument; congruence).
    destruct f as [u s q p [|]];
      cbn [fill_userId fill_symbol fill_quantity fill_price fill_side] in *.
    + right. split; [assumption|].
      now rewrite updatePortfolioAfterTrade_buy by assumption.
    + rewrite updatePortfolioAfterTrade_sell by assumption.
      destruct (foundHolding st u s) as [h|]; [|left; now eexists].
      destruct (quantity (memoryStore.entry_holding h) <? q); [left; now eexists|].
      right. split; [assumption | reflexivity].
  - left. rewrite updatePortfolioAfterTrade_unknown by assumption. now eexists.
Qed.

(** The two ways an attempt ends: nothing happens and [null] is returned;
    or the order is marked EXECUTED and its trade recorded, after which
    the portfolio update either goes through (the executed order is
    returned) or throws (the error is caught and [null] is returned, the
    mark and the trade staying). *)
Lemma attemptOrderExecution_cases
      (st : MemoryStore) (rnd : Q) (uuid orderId : string) :
  OrderService.attemptOrderExecution rnd uuid orderId st = (Returned None, st)
  \/ exists order instrument executionPrice,
      memoryStore.getOrderById st orderId = Some order
      /\ status order = PLACED
      /\ memoryStore.getInstrumentBySymbol st (order_symbol order) = Some instrument
      /\ (orderStyle order = MARKET
          \/ canExecuteLimitOrder order (lastTradedPrice instrument) = true)
      /\ calculateExecutionPrice rnd order (lastTradedPrice instrument)
         = Some executionPrice
      /\ let st2 := markedExecuted st orderId uuid order executionPrice in
         OrderService.attemptOrderExecution rnd uuid orderId st = (Returned None, st2)
         \/ OrderService.attemptOrderExecution rnd uuid orderId st
            = (Returned (Some (executedRecord order executionPrice)),
               memoryStore.with_portfolio st2
                 (applyFill (portfolio st) (fillOf order executionPrice))).
Proof.
  unfold OrderService.attemptOrderExecution.
  unfold InstrumentService.getCurrentPrice, InstrumentService.getInstrumentBySymbol,
    TradeService.createTrade. run.
  destruct (memoryStore.getOrderById st orderId) as [order|] eqn:Hget; [|now left].
  destruct (status order) eqn:Hstatus; cbn [ORDER_STATUSES_eqb negb]; try now left.
  destruct (memoryStore.getInstrumentBySymbol st (order_symbol order)) as [i|] eqn:Hi;
    [|now left].
  destruct (ORDER_STYLES_eqb (orderStyle order) MARKET) eqn:Hstyle.
  - right. exists order, i.
    assert (Hm : orderStyle order = MARKET) by (destruct (orderStyle order); easy).
    destruct (calculateExecutionPrice rnd order (lastTradedPrice i)) as [ep|] eqn:Hep.
    2:{ unfold calculateExecutionPrice in Hep. rewrite Hstyle in Hep. discriminate. }
    exists ep. repeat (split; [first [reflexivity | assumption | now left]|]).
    cbn [negb]. unfold memoryStore.updateOrderStatus.
    unfold memoryStore.getOrderById in Hget. rewrite Hget.
    unfold memoryStore.createTrade.
    match goal with
    | |- context [PortfolioService.updatePortfolioAfterTrade _ _ _ _ _ ?store] =>
        change store with (markedExecuted st orderId uuid order ep)
    end.
    match goal with
    | |- context [Returned (Some ?o)] => change o with (executedRecord order ep)
    end.
    destruct (updatePortfolioAfterTrade_outcome
                (markedExecuted st orderId uuid order ep) (fillOf order ep))
      as [[e He] | [_ He]];
      cbn [fillOf fill_userId fill_symbol fill_quantity fill_price fill_side] in He;
      rewrite He; [now left | now right].
  - destruct (canExecuteLimitOrder order (lastTradedPrice i)) eqn:Hcan;
      cbn [negb]; [|now left].
    right. exists order, i.
    destruct (calculateExecutionPrice rnd order (lastTradedPrice i)) as [ep|] eqn:Hep.
    2:{ exfalso. apply (canExecute_has_price rnd order (lastTradedPrice i));
        [now rewrite Hstyle | exact Hep]. }
    exists ep. repeat (split; [first [reflexivity | assumption | now right]|]).
    unfold memoryStore.updateOrderStatus.
    unfold memoryStore.getOrderById in Hget. rewrite Hget.
    unfold memoryStore.createTrade.
    match goal with
    | |- context [PortfolioService.updatePortfolioAfterTrade _ _ _ _ _ ?store] =>
        change store with (markedExecuted st orderId uuid order ep)
    end.
    match goal with
    | |- context [Returned (Some ?o)] => change o with (executedRecord order ep)
    end.
    destruct (updatePortfolioAfterTrade_outcome
                (markedExecuted st orderId uuid order ep) (fillOf order ep))
      as [[e He] | [_ He]];
      cbn [fillOf fill_userId fill_symbol fill_quantity fill_price fill_side] in He;
      rewrite He; [now left | now right].
Qed.

Lemma sameRequest_refl (o : Order) : sameRequest o o.
Proof. unfold sameRequest. tauto. Qed.

Lemma sameRequest_trans (a b c : Order) :
  sameRequest a b -> sameRequest b c -> sameRequest a c.
Proof. unfold sameRequest. intuition congruence. Qed.

Lemma executesOnly_refl (st : MemoryStore) : executesOnly st st.
Proof.
  intros k. destruct (memoryStore.getOrderById st k); [now left | exact I].
Qed.

Lemma executesOnly_trans (a b c : MemoryStore) :
  executesOnly a b -> executesOnly b c -> executesOnly a c.
Proof.
  intros Hab Hbc k. specialize (Hab k). specialize (Hbc k).
  destruct (memoryStore.getOrderById a k) as [oa|],
           (memoryStore.getOrderById b k) as [ob|],
           (memoryStore.getOrderById c k) as [oc|]; try tauto.
  destruct Hbc as [-> | (Hp & He & Hs)]; [assumption|].
  destruct Hab as [-> | (Hp' & He' & _)]; [right; tauto | congruence].
Qed.

Lemma executesOnly_set (st : MemoryStore) (orderId : string) (order : Order)
      (executionPrice : Q) (m : JsMap.t Trade) (p : JsMap.t Holding) :
  memoryStore.getOrderById st orderId = Some order ->
  status order = PLACED ->
  executesOnly st
    (mkStore (instruments st)
       (JsMap.set (orders st) orderId (executedRecord order executionPrice)) m p).
Proof.
  intros Hget Hst k. unfold memoryStore.getOrderById in *. cbn [orders].
  destruct (String.eqb_spec orderId k) as [<-|Hneq].
  - rewrite get_set_same, Hget. right. split; [assumption|].
    split; [reflexivity|]. unfold sameRequest, executedRecord. cbn. tauto.
  - rewrite get_set_other by assumption.
    destruct (JsMap.get (orders st) k); [now left | exact I].
Qed.

(** X1. An execution attempt never throws and changes no instrument.  Of
    the orders it changes at most the attempted one, from PLACED to
    EXECUTED with the same request: no order appears or disappears, and
    every other order is as before. *)
Theorem attempt_keeps_orders (st : MemoryStore) (rnd : Q) (uuid orderId : string) :
  (exists result,
      fst (OrderService.attemptOrderExecution rnd uuid orderId st) = Returned result)
  /\ instruments (snd (OrderService.attemptOrderExecution rnd uuid orderId st))
     = instruments st
  /\ executesOnly st (snd (OrderService.attemptOrderExecution rnd uuid orderId st))
  /\ (forall k, k <> orderId ->
        memoryStore.getOrderById
          (snd (OrderService.attemptOrderExecution rnd uuid orderId st)) k
        = memoryStore.getOrderById st k).
Proof.
  destruct (attemptOrderExecution_cases st rnd uuid orderId)
    as [-> | (order & i & ep & Hget & Hst & _ & _ & _ & [-> | ->])]; cbn [fst snd].
  - split; [now eexists|]. split; [reflexivity|].
    split; [apply executesOnly_refl | reflexivity].
  - split; [now eexists|]. split; [reflexivity|]. split.
    + now apply executesOnly_set.
    + intros k Hk. unfold memoryStore.getOrderById, markedExecuted. cbn [orders].
      apply get_set_other. congruence.
  - split; [now eexists|]. split; [reflexivity|]. split.
    + unfold markedExecuted, memoryStore.with_portfolio.
      cbn [instruments orders trades portfolio]. now apply executesOnly_set.
    + intros k Hk. unfold memoryStore.getOrderById, markedExecuted. cbn [orders].
      apply get_set_other. congruence.
Qed.

Lemma attempt_keeps_orders_witness :
  executesOnly pendingLimitBuyCrossed
    (snd (OrderService.attemptOrderExecution (1 # 2) "trade-2" "order-1"
            pendingLimitBuyCrossed))
  /\ memoryStore.getOrderById
       (snd (OrderService.attemptOrderExecution (1 # 2) "trade-2" "order-1"
               pendingLimitBuyCrossed)) "order-9"
     = memoryStore.getOrderById pendingLimitBuyCrossed "order-9".
Proof.
  destruct (attempt_keeps_orders pendingLimitBuyCrossed (1 # 2) "trade-2" "order-1")
    as (_ & _ & H & Hother).
  split; [exact H|]. apply Hother. discriminate.
Defined.



(** ** The sweep over the pending orders *)

Lemma executedBySweep_earlier (a b c : MemoryStore) (o : Order) :
  executesOnly a b -> executedBySweep b c o -> executedBySweep a c o.
Proof.
  intros Hab (k & p & Hget & Hp & He & Hs & Hc). specialize (Hab k).
  rewrite Hget in Hab.
  destruct (memoryStore.getOrderById a k) as [p0|] eqn:Ha; [|contradiction].
  exists k, p0. destruct Hab as [-> | (_ & Hex & _)]; [tauto | congruence].
Qed.

Lemma executedBySweep_later (a b c : MemoryStore) (o : Order) :
  executesOnly b c -> executedBySweep a b o -> executedBySweep a c o.
Proof.
  intros Hbc (k & p & Hget & Hp & He & Hs & Hb). specialize (Hbc k).
  rewrite Hb in Hbc.
  destruct (memoryStore.getOrderById c k) as [o'|] eqn:Hc; [|contradiction].
  exists k, p. destruct Hbc as [-> | (Hpl & _)]; [tauto | congruence].
Qed.

Lemma attemptEach_spec (rnd : string -> Q) (uuid : string -> string)
      (pendingOrders : list Order) :
  forall (executedOrders : list Order) (st : MemoryStore),
  exists more,
    fst (OrderLifecycle.attemptEach rnd uuid pendingOrders executedOrders st)
    = Returned (executedOrders ++ more)%list
    /\ instruments (snd (OrderLifecycle.attemptEach rnd uuid pendingOrders
                           executedOrders st)) = instruments st
    /\ executesOnly st
         (snd (OrderLifecycle.attemptEach rnd uuid pendingOrders executedOrders st))
    /\ Forall (executedBySweep st
                 (snd (OrderLifecycle.attemptEach rnd uuid pendingOrders
                         executedOrders st))) more.
Proof.
  induction pendingOrders as [|order rest IH]; intros acc st.
  - exists []. cbn. rewrite app_nil_r.
    repeat split; [apply executesOnly_refl | constructor].
  - cbn [OrderLifecycle.attemptEach]. unfold bind.
    destruct (attemptOrderExecution_cases st (rnd (order_id order))
                (uuid (order_id order)) (order_id order))
      as [-> | (o & i & ep & Hget & Hst & _ & _ & _ & [-> | ->])].
    + apply IH.
    + set (st2 := markedExecuted st (order_id order) (uuid (order_id order)) o ep).
      assert (Hstep : executesOnly st st2)
        by (unfold st2, markedExecuted; now apply executesOnly_set).
      destruct (IH acc st2) as (more & Hr & Hi & Hx & Hall).
      exists more. split; [exact Hr|]. split; [now rewrite Hi|].
      split; [now apply executesOnly_trans with st2|].
      eapply Forall_impl; [|exact Hall].
      intros e. now apply executedBySweep_earlier.
    + set (e := executedRecord o ep).
      set (st3 := memoryStore.with_portfolio
                    (markedExecuted st (order_id order) (uuid (order_id order)) o ep)
                    (applyFill (portfolio st) (fillOf o ep))).
      assert (Hstep : executesOnly st st3).
      { unfold st3, markedExecuted, memoryStore.with_portfolio.
        cbn [instruments orders trades portfolio]. now apply executesOnly_set. }
      destruct (IH (acc ++ [e])%list st3) as (more & Hr & Hi & Hx & Hall).
      exists (e :: more). split; [now rewrite Hr, <- app_assoc|].
      split; [now rewrite Hi|].
      split; [now apply executesOnly_trans with st3|].
      constructor.
      * apply executedBySweep_later with st3; [exact Hx|].
        exists (order_id order), o. split; [assumption|]. split; [assumption|].
        split; [reflexivity|].
        split; [unfold sameRequest, e, executedRecord; cbn; tauto|].
        unfold memoryStore.getOrderById, st3, markedExecuted. cbn [orders
          memoryStore.with_portfolio]. apply get_set_same.
      * eapply Forall_impl; [|exact Hall].
        intros e'. now apply executedBySweep_earlier.
Qed.

Lemma no_pending_orders (l : list Order) :
  Forall (fun order => status order <> PLACED) l ->
  filter (fun order => ORDER_STATUSES_eqb (status order) PLACED) l = [].
Proof.
  induction 1 as [|o l Ho Hl IH]; [reflexivity|]. cbn.
  destruct (status o); try congruence; cbn; exact IH.
Qed.

(** X3. A sweep never throws and changes no instrument.  Each order it
    returns was PLACED before the sweep and is stored EXECUTED after it,
    with the same request.  The only change to the orders is that PLACED
    orders have become EXECUTED: a CANCELLED or EXECUTED order is as it
    was; and when no order is PLACED the sweep returns nothing and the
    store is as before. *)
Theorem sweep_executes_placed_orders
        (rnd : string -> Q) (uuid : string -> string) (st : MemoryStore) :
  let st' := snd (OrderLifecycle.processPendingOrders rnd uuid st) in
  (exists executedOrders,
      fst (OrderLifecycle.processPendingOrders rnd uuid st) = Returned executedOrders
      /\ Forall (executedBySweep st st') executedOrders)
  /\ instruments st' = instruments st
  /\ executesOnly st st'
  /\ (Forall (fun order => status order <> PLACED) (JsMap.values (orders st)) ->
      OrderLifecycle.processPendingOrders rnd uuid st = (Returned [], st)).
Proof.
  cbv zeta.
  set (pending := filter (fun order => ORDER_STATUSES_eqb (status order) PLACED)
                    (JsMap.values (orders st))).
  destruct (attemptEach_spec rnd uuid pending [] st) as (more & Hr & Hi & Hx & Hall).
  assert (Heq : OrderLifecycle.processPendingOrders rnd uuid st
                = OrderLifecycle.attemptEach rnd uuid pending [] st).
  { unfold OrderLifecycle.processPendingOrders, tryCatch, bind, gets.
    fold pending.
    destruct (OrderLifecycle.attemptEach rnd uuid pending [] st) as [[l|e] s'];
      [reflexivity | discriminate]. }
  rewrite Heq.
  split; [exists more; now split|]. split; [assumption|]. split; [assumption|].
  intros Hnone.
  unfold pending. now rewrite no_pending_orders.
Qed.

Lemma sweep_executes_placed_orders_witness :
  OrderLifecycle.processPendingOrders (fun _ => 1 # 2) (fun _ => "trade-2")
    memoryStore.initialStore
  = (Returned [], memoryStore.initialStore).
Proof.
  apply (sweep_executes_placed_orders (fun _ => 1 # 2) (fun _ => "trade-2")
           memoryStore.initialStore).
  constructor.
Defined.

(** ** Cancellation *)

(** X4. [cancelOrder] refuses an unknown order with 404, the order of
    another user with 403 (whatever its status), and an order of the user
    that is EXECUTED or CANCELLED with 400; whenever it refuses, the store
    is as before. *)
Theorem cancelOrder_refusals (st : MemoryStore) (orderId userId : string) :
  (memoryStore.getOrderById st orderId = None ->
   fst (OrderLifecycle.cancelOrder orderId userId st)
   = inl (OrderLifecycle.OrderAppError OrderLifecycle.OrderNotFound 404))
  /\ (forall order,
        memoryStore.getOrderById st orderId = Some order ->
        (order_userId order <> userId ->
         fst (OrderLifecycle.cancelOrder orderId userId st)
         = inl (OrderLifecycle.OrderAppError
                  OrderLifecycle.UnauthorizedToCancelThisOrder 403))
        /\ (order_userId order = userId -> status order = EXECUTED ->
            fst (OrderLifecycle.cancelOrder orderId userId st)
            = inl (OrderLifecycle.OrderAppError
                     OrderLifecycle.CannotCancelExecutedOrder 400))
        /\ (order_userId order = userId -> status order = CANCELLED ->
            fst (OrderLifecycle.cancelOrder orderId userId st)
            = inl (OrderLifecycle.OrderAppError
                     OrderLifecycle.OrderIsAlreadyCancelled 400)))
  /\ (forall e,
        fst (OrderLifecycle.cancelOrder orderId userId st) = inl e ->
        snd (OrderLifecycle.cancelOrder orderId userId st) = st).
Proof.
  unfold OrderLifecycle.cancelOrder, OrderLifecycle.getOrderById.
  destruct (memoryStore.getOrderById st orderId) as [order|] eqn:Hget.
  - split; [discriminate|]. split.
    + intros o [= <-]. split; [|split].
      * intros Hne. apply String.eqb_neq in Hne. now rewrite Hne.
      * intros <- ->. now rewrite String.eqb_refl.
      * intros <- ->. now rewrite String.eqb_refl.
    + intros e.
      destruct (negb (String.eqb (order_userId order) userId)); [reflexivity|].
      destruct (ORDER_STATUSES_eqb (status order) EXECUTED); [reflexivity|].
      destruct (ORDER_STATUSES_eqb (status order) CANCELLED); [reflexivity|].
      unfold memoryStore.updateOrderStatus.
      unfold memoryStore.getOrderById in Hget. rewrite Hget. discriminate.
  - split; [reflexivity|]. split; [discriminate | reflexivity].
Qed.

Lemma cancelOrder_refusals_witness :
  let st := snd (OrderService.attemptOrderExecution (1 # 2) "trade-2" "order-1"
                   pendingLimitBuyCrossed) in
  OrderLifecycle.cancelOrder "order-1" "user_001" st
  = (inl (OrderLifecycle.OrderAppError OrderLifecycle.CannotCancelExecutedOrder 400),
     st)
  /\ fst (OrderLifecycle.cancelOrder "order-1" "user_002" st)
     = inl (OrderLifecycle.OrderAppError
              OrderLifecycle.UnauthorizedToCancelThisOrder 403).
Proof.
  cbv zeta.
  set (st := snd (OrderService.attemptOrderExecution (1 # 2) "trade-2" "order-1"
                    pendingLimitBuyCrossed)).
  destruct (cancelOrder_refusals st "order-1" "user_001") as (_ & H & Hst).
  destruct (H (mkOrder "order-1" "user_001" "TCS" BUY LIMIT 10 (Some (3000 # 1)%Q)
                 EXECUTED (Some (3000 # 1)%Q) (Some 10)))
    as (_ & Hexec & _); [vm_compute; reflexivity|].
  specialize (Hexec eq_refl eq_refl). split.
  - rewrite (surjective_pairing (OrderLifecycle.cancelOrder "order-1" "user_001" st)).
    now rewrite Hexec, (Hst _ Hexec).
  - destruct (cancelOrder_refusals st "order-1" "user_002") as (_ & H2 & _).
    destruct (H2 (mkOrder "order-1" "user_001" "TCS" BUY LIMIT 10 (Some (3000 # 1)%Q)
                    EXECUTED (Some (3000 # 1)%Q) (Some 10)))
      as (Hother & _); [vm_compute; reflexivity|].
    apply Hother. discriminate.
Defined.

(** X5. [cancelOrder] on an order of the user that is NEW or PLACED returns
    it with status CANCELLED and stores it so, the request and the
    executed fields being as before; nothing else in the store changes.
    From then on an execution attempt on it does nothing, and a sweep
    leaves it CANCELLED. *)
Theorem cancelOrder_cancels
        (st : MemoryStore) (orderId userId : string) (order : Order) :
  memoryStore.getOrderById st orderId = Some order ->
  order_userId order = userId ->
  status order = NEW \/ status order = PLACED ->
  let st' := snd (OrderLifecycle.cancelOrder orderId userId st) in
  exists cancelled,
    fst (OrderLifecycle.cancelOrder orderId userId st) = inr (Some cancelled)
    /\ memoryStore.getOrderById st' orderId = Some cancelled
    /\ status cancelled = CANCELLED
    /\ sameRequest order cancelled
    /\ executedPrice cancelled = executedPrice order
    /\ executedQuantity cancelled = executedQuantity order
    /\ (forall k, k <> orderId ->
          memoryStore.getOrderById st' k = memoryStore.getOrderById st k)
    /\ instruments st' = instruments st
    /\ trades st' = trades st
    /\ portfolio st' = portfolio st
    /\ (forall rnd uuid,
          OrderService.attemptOrderExecution rnd uuid orderId st' = (Returned None, st'))
    /\ (forall rnd uuid,
          memoryStore.getOrderById
            (snd (OrderLifecycle.processPendingOrders rnd uuid st')) orderId
          = Some cancelled).
Proof.
  intros Hget Huser Hstatus. cbv zeta.
  unfold OrderLifecycle.cancelOrder, OrderLifecycle.getOrderById.
  rewrite Hget, Huser, String.eqb_refl. cbn [negb].
  assert (He : ORDER_STATUSES_eqb (status order) EXECUTED = false)
    by (destruct Hstatus as [-> | ->]; reflexivity).
  assert (Hc : ORDER_STATUSES_eqb (status order) CANCELLED = false)
    by (destruct Hstatus as [-> | ->]; reflexivity).
  rewrite He, Hc. unfold memoryStore.updateOrderStatus.
  pose proof Hget as Hget'. unfold memoryStore.getOrderById in Hget'. rewrite Hget'.
  cbn [fst snd memoryStore.noExecutionData memoryStore.data_executedPrice
       memoryStore.data_executedQuantity memoryStore.truthyQ memoryStore.truthyZ].
  eexists. split; [reflexivity|].
  set (cancelled := mkOrder _ _ _ _ _ _ _ CANCELLED _ _).
  set (st' := memoryStore.with_orders st _).
  assert (Hstored : memoryStore.getOrderById st' orderId = Some cancelled)
    by (unfold st', memoryStore.getOrderById; cbn [orders memoryStore.with_orders];
        apply get_set_same).
  split; [exact Hstored|]. split; [reflexivity|].
  split; [unfold sameRequest; cbn; tauto|].
  split; [reflexivity|]. split; [reflexivity|]. split.
  { intros k Hk. unfold st', memoryStore.getOrderById.
    cbn [orders memoryStore.with_orders]. apply get_set_other. congruence. }
  split; [reflexivity|]. split; [reflexivity|]. split; [reflexivity|]. split.
  - intros rnd uuid.
    unfold OrderService.attemptOrderExecution. run. now rewrite Hstored.
  - intros rnd uuid.
    destruct (attemptEach_spec rnd uuid
                (filter (fun o => ORDER_STATUSES_eqb (status o) PLACED)
                   (JsMap.values (orders st'))) [] st') as (more & Hr & _ & Hx & _).
    assert (Heq : OrderLifecycle.processPendingOrders rnd uuid st'
                  = OrderLifecycle.attemptEach rnd uuid
                      (filter (fun o => ORDER_STATUSES_eqb (status o) PLACED)
                         (JsMap.values (orders st'))) [] st').
    { unfold OrderLifecycle.processPendingOrders, tryCatch, bind, gets.
      destruct (OrderLifecycle.attemptEach rnd uuid _ [] st') as [[l|e] s'];
        [reflexivity | discriminate]. }
    rewrite Heq. specialize (Hx orderId). rewrite Hstored in Hx.
    match type of Hx with
    | match ?t with _ => _ end => destruct t as [o'|]; [|contradiction]
    end.
    destruct Hx as [-> | (Hp & _)]; [reflexivity | discriminate].
Qed.

Lemma cancelOrder_cancels_witness :
  exists cancelled,
    fst (OrderLifecycle.cancelOrder "order-1" "user_001" pendingLimitBuyCrossed)
    = inr (Some cancelled)
    /\ status cancelled = CANCELLED.
Proof.
  destruct (cancelOrder_cancels pendingLimitBuyCrossed "order-1" "user_001"
              (mkOrder "order-1" "user_001" "TCS" BUY LIMIT 10 (Some (3000 # 1)%Q)
                 PLACED None None))
    as (cancelled & H1 & _ & H3 & _).
  - vm_compute. reflexivity.
  - reflexivity.
  - right. reflexivity.
  - exists cancelled. split; assumption.
Defined.

(** ** Placement *)

Lemma set_set {V} (m : JsMap.t V) (k : string) (v v' : V) :
  JsMap.set (JsMap.set m k v) k v' = JsMap.set m k v'.
Proof.
  induction m as [|[k0 v0] m IH]; simpl.
  - now rewrite String.eqb_refl.
  - destruct (String.eqb k0 k) eqn:E; simpl.
    + now rewrite String.eqb_refl.
    + now rewrite E, IH.
Qed.

(** An attempt on a PLACED order that can execute: the order is marked and
    the trade recorded, and the result follows the portfolio update. *)
Lemma attempt_executable
      (st : MemoryStore) (rnd : Q) (uuid orderId : string)
      (order : Order) (instrument : Instrument) (executionPrice : Q) :
  memoryStore.getOrderById st orderId = Some order ->
  status order = PLACED ->
  memoryStore.getInstrumentBySymbol st (order_symbol order) = Some instrument ->
  (if ORDER_STYLES_eqb (orderStyle order) MARKET then true
   else canExecuteLimitOrder order (lastTradedPrice instrument)) = true ->
  calculateExecutionPrice rnd order (lastTradedPrice instrument) = Some executionPrice ->
  OrderService.attemptOrderExecution rnd uuid orderId st
  = match PortfolioService.updatePortfolioAfterTrade
            (order_userId order) (order_symbol order) (order_quantity order)
            executionPrice (orderType order)
            (markedExecuted st orderId uuid order executionPrice) with
    | (Returned _, st3) => (Returned (Some (executedRecord order executionPrice)), st3)
    | (Thrown _, st3) => (Returned None, st3)
    end.
Proof.
  intros Hget Hst Hi Hcan Hep.
  unfold OrderService.attemptOrderExecution.
  unfold InstrumentService.getCurrentPrice, InstrumentService.getInstrumentBySymbol,
    TradeService.createTrade. run.
  rewrite Hget, Hst. cbn [ORDER_STATUSES_eqb negb]. rewrite Hi, Hcan. cbn [negb].
  rewrite Hep. unfold memoryStore.updateOrderStatus.
  unfold memoryStore.getOrderById in Hget. rewrite Hget.
  unfold memoryStore.createTrade.
  match goal with
  | |- context [PortfolioService.updatePortfolioAfterTrade _ _ _ _ _ ?store] =>
      change store with (markedExecuted st orderId uuid order executionPrice)
  end.
  destruct (PortfolioService.updatePortfolioAfterTrade _ _ _ _ _ _) as [[h|e] st3];
    reflexivity.
Qed.

(** [placeOrder] on a request that passes its checks: the order is stored
    as PLACED, an attempt is made, and the stored order is returned. *)
Lemma placeOrder_accepted
      (st : MemoryStore) (orderUuid tradeUuid : string) (rnd : Q)
      (orderData : OrderService.OrderRequest) :
  isInstrument st (OrderService.request_symbol orderData) ->
  (ORDER_STYLES_eqb (OrderService.request_orderStyle orderData) LIMIT
   && OrderService.missingOrNonPositive (OrderService.request_price orderData))%bool
  = false ->
  OrderService.placeOrder orderUuid rnd tradeUuid orderData st
  = let st2 := snd (OrderService.attemptOrderExecution rnd tradeUuid orderUuid
                      (placedStore st orderUuid orderData)) in
    (Returned (match memoryStore.getOrderById st2 orderUuid with
               | Some o => o
               | None => placedRecord orderUuid orderData
               end), st2).
Proof.
  unfold isInstrument. intros Hsym Hprice.
  unfold OrderService.placeOrder, InstrumentService.validateInstrument,
    InstrumentService.getCurrentPrice, InstrumentService.getInstrumentBySymbol. run.
  destruct (memoryStore.getInstrumentBySymbol st (OrderService.request_symbol orderData))
    as [i|] eqn:Hi; [|contradiction].
  cbn [negb]. rewrite Hprice.
  unfold memoryStore.createOrder. cbn beta iota zeta. rewrite ?Hi.
  cbn beta iota zeta.
  unfold memoryStore.updateOrderStatus.
  cbn [orders memoryStore.with_orders order_id]. rewrite get_set_same.
  cbn beta iota zeta.
  cbn [order_id order_userId order_symbol orderType orderStyle order_quantity
       order_price executedPrice executedQuantity memoryStore.noExecutionData
       memoryStore.data_executedPrice memoryStore.data_executedQuantity
       memoryStore.truthyQ memoryStore.truthyZ memoryStore.data_userId
       memoryStore.data_symbol memoryStore.data_orderType memoryStore.data_orderStyle
       memoryStore.data_quantity memoryStore.data_price memoryStore.data_status
       instruments trades portfolio].
  rewrite set_set.
  match goal with
  | |- context [OrderService.attemptOrderExecution _ _ _ ?s] =>
      change s with (placedStore st orderUuid orderData)
  end.
  match goal with
  | |- context [match memoryStore.getOrderById _ _ with Some _ => _ | None => ?o end] =>
      change o with (placedRecord orderUuid orderData)
  end.
  destruct (attemptOrderExecution_cases (placedStore st orderUuid orderData)
              rnd tradeUuid orderUuid)
    as [-> | (o & i' & ep & _ & _ & _ & _ & _ & [-> | ->])]; reflexivity.
Qed.

(** X6. [placeOrder] refuses a request for a symbol that is not an
    instrument, and a LIMIT request whose price is missing, zero or
    negative, with a 400 error; in both cases no order is created and the
    store is as before. *)
Theorem placeOrder_refusals
        (st : MemoryStore) (orderUuid tradeUuid : string) (rnd : Q)
        (orderData : OrderService.OrderRequest) :
  (memoryStore.getInstrumentBySymbol st (OrderService.request_symbol orderData) = None ->
   OrderService.placeOrder orderUuid rnd tradeUuid orderData st
   = (Thrown (AppError (InvalidInstrumentSymbol (OrderService.request_symbol orderData))
                400), st))
  /\ (isInstrument st (OrderService.request_symbol orderData) ->
      OrderService.request_orderStyle orderData = LIMIT ->
      match OrderService.request_price orderData with
      | None => True
      | Some price => (price <= 0)%Q
      end ->
      OrderService.placeOrder orderUuid rnd tradeUuid orderData st
      = (Thrown (AppError PriceRequiredForLimitOrders 400), st)).
Proof.
  split.
  - intros H.
    unfold OrderService.placeOrder, InstrumentService.validateInstrument. run.
    now rewrite H.
  - unfold isInstrument. intros Hsym Hstyle Hprice.
    unfold OrderService.placeOrder, InstrumentService.validateInstrument,
      InstrumentService.getCurrentPrice, InstrumentService.getInstrumentBySymbol. run.
    destruct (memoryStore.getInstrumentBySymbol st
                (OrderService.request_symbol orderData)) as [i|] eqn:Hi;
      [|contradiction].
    cbn [negb]. rewrite Hi. cbn beta iota. rewrite Hstyle.
    cbn [ORDER_STYLES_eqb andb].
    assert (Hm : OrderService.missingOrNonPositive (OrderService.request_price orderData)
                 = true).
    { unfold OrderService.missingOrNonPositive.
      destruct (OrderService.request_price orderData); [|reflexivity].
      now apply Qle_bool_iff. }
    now rewrite Hm.
Qed.

Lemma placeOrder_refusals_witness :
  OrderService.placeOrder "order-1" (1 # 2) "trade-1"
    (OrderService.mkOrderRequest "user_001" "WIPRO" BUY MARKET 10 None)
    memoryStore.initialStore
  = (Thrown (AppError (InvalidInstrumentSymbol "WIPRO") 400), memoryStore.initialStore)
  /\ OrderService.placeOrder "order-1" (1 # 2) "trade-1"
       (OrderService.mkOrderRequest "user_001" "TCS" BUY LIMIT 10 None)
       memoryStore.initialStore
     = (Thrown (AppError PriceRequiredForLimitOrders 400), memoryStore.initialStore).
Proof.
  split.
  - apply (proj1 (placeOrder_refusals memoryStore.initialStore "order-1" "trade-1"
                    (1 # 2)
                    (OrderService.mkOrderRequest "user_001" "WIPRO" BUY MARKET 10 None))).
    reflexivity.
  - apply (proj2 (placeOrder_refusals memoryStore.initialStore "order-1" "trade-1"
                    (1 # 2)
                    (OrderService.mkOrderRequest "user_001" "TCS" BUY LIMIT 10 None))).
    + unfold isInstrument. vm_compute. discriminate.
    + reflexivity.
    + exact I.
Defined.

(** X7. [placeOrder] on a MARKET BUY request for an instrument executes it
    in the same call: the order returned and stored is EXECUTED, its
    trade is stored with the execution price computed from the current
    price and a total amount of quantity times that price, and the user
    holds the quantity more of the symbol. *)
Theorem market_buy_executes
        (st : MemoryStore) (orderUuid tradeUuid : string) (rnd : Q)
        (orderData : OrderService.OrderRequest) (instrument : Instrument) :
  memoryStore.getInstrumentBySymbol st (OrderService.request_symbol orderData)
  = Some instrument ->
  OrderService.request_orderStyle orderData = MARKET ->
  OrderService.request_orderType orderData = BUY ->
  let st' := snd (OrderService.placeOrder orderUuid rnd tradeUuid orderData st) in
  exists order trade,
    fst (OrderService.placeOrder orderUuid rnd tradeUuid orderData st) = Returned order
    /\ memoryStore.getOrderById st' orderUuid = Some order
    /\ status order = EXECUTED
    /\ sameRequest (placedRecord orderUuid orderData) order
    /\ JsMap.get (trades st') tradeUuid = Some trade
    /\ trade_orderId trade = orderUuid
    /\ calculateExecutionPrice rnd order (lastTradedPrice instrument)
       = Some (trade_price trade)
    /\ totalAmount trade
       = (inject_Z (OrderService.request_quantity orderData) * trade_price trade)%Q
    /\ heldQuantity st' (OrderService.request_userId orderData)
         (OrderService.request_symbol orderData)
       = heldQuantity st (OrderService.request_userId orderData)
           (OrderService.request_symbol orderData)
         + OrderService.request_quantity orderData.
Proof.
  intros Hi Hstyle Htype. cbv zeta.
  assert (Hsym : isInstrument st (OrderService.request_symbol orderData))
    by (unfold isInstrument; congruence).
  rewrite placeOrder_accepted by (assumption || now rewrite Hstyle).
  cbv zeta. cbn [fst snd].
  set (placed := placedRecord orderUuid orderData).
  destruct (calculateExecutionPrice rnd placed (lastTradedPrice instrument))
    as [ep|] eqn:Hep.
  2:{ unfold calculateExecutionPrice, placed, placedRecord in Hep.
      cbn [orderStyle] in Hep. rewrite Hstyle in Hep. discriminate. }
  rewrite (attempt_executable (placedStore st orderUuid orderData) rnd tradeUuid
             orderUuid placed instrument ep).
  - assert (Hbuy : orderType placed = BUY) by exact Htype.
    rewrite Hbuy.
    rewrite updatePortfolioAfterTrade_buy by exact Hsym.
    unfold memoryStore.updatePortfolio, memoryStore.updatePortfolioMap.
    cbn [fst snd].
    exists (executedRecord placed ep), (tradeRecord tradeUuid placed ep).
    unfold memoryStore.getOrderById, markedExecuted, placedStore.
    cbn [orders trades portfolio instruments memoryStore.with_portfolio
         memoryStore.with_orders].
    rewrite !get_set_same.
    split; [reflexivity|]. split; [reflexivity|]. split; [reflexivity|].
    split; [unfold sameRequest, executedRecord; cbn; tauto|].
    split; [reflexivity|]. split; [reflexivity|].
    split; [exact Hep|]. split; [reflexivity|].
    unfold heldQuantity. cbn [portfolio].
    change (order_userId placed) with (OrderService.request_userId orderData).
    change (order_symbol placed) with (OrderService.request_symbol orderData).
    cbn [portfolio memoryStore.with_portfolio]. rewrite get_set_same.
    unfold memoryStore.applyTrade, memoryStore.holdingOrNew. cbn [quantity].
    change (order_quantity placed) with (OrderService.request_quantity orderData).
    now destruct (JsMap.get (portfolio st) _).
  - unfold memoryStore.getOrderById, placedStore. cbn [orders memoryStore.with_orders].
    apply get_set_same.
  - reflexivity.
  - exact Hi.
  - unfold placed, placedRecord. cbn [orderStyle]. now rewrite Hstyle.
  - exact Hep.
Qed.

Lemma market_buy_executes_witness :
  let result :=
    OrderService.placeOrder "order-1" (1 # 2) "trade-1"
      (OrderService.mkOrderRequest "user_001" "RELIANCE" BUY MARKET 10 None)
      memoryStore.initialStore in
  exists order trade,
    fst result = Returned order
    /\ status order = EXECUTED
    /\ JsMap.get (trades (snd result)) "trade-1" = Some trade
    /\ heldQuantity (snd result) "user_001" "RELIANCE" = 10.
Proof.
  destruct (market_buy_executes memoryStore.initialStore "order-1" "trade-1" (1 # 2)
              (OrderService.mkOrderRequest "user_001" "RELIANCE" BUY MARKET 10 None)
              (mkInstrument "RELIANCE" "RELIANCE" "NSE" "EQUITY" (245075 # 100)
                 "Reliance Industries Ltd") eq_refl eq_refl eq_refl)
    as (order & trade & H1 & _ & H3 & _ & H5 & _ & _ & _ & H9).
  exists order, trade. repeat split; assumption.
Defined.

Lemma attempt_not_executable
      (st : MemoryStore) (rnd : Q) (uuid orderId : string)
      (order : Order) (instrument : Instrument) :
  memoryStore.getOrderById st orderId = Some order ->
  memoryStore.getInstrumentBySymbol st (order_symbol order) = Some instrument ->
  orderStyle order = LIMIT ->
  canExecuteLimitOrder order (lastTradedPrice instrument) = false ->
  OrderService.attemptOrderExecution rnd uuid orderId st = (Returned None, st).
Proof.
  intros Hget Hi Hstyle Hcan.
  unfold OrderService.attemptOrderExecution.
  unfold InstrumentService.getCurrentPrice, InstrumentService.getInstrumentBySymbol. run.
  rewrite Hget. destruct (negb (ORDER_STATUSES_eqb (status order) PLACED));
    [reflexivity|].
  rewrite Hi, Hstyle. cbn [ORDER_STYLES_eqb]. now rewrite Hcan.
Qed.

(** X8. [placeOrder] on a LIMIT request with a positive price that the
    current price has not reached (a BUY below the current price, a SELL
    above it) stores the order as PLACED and returns it; no trade is
    recorded, and instruments, portfolio and the other orders are as
    before. *)
Theorem limit_order_waits
        (st : MemoryStore) (orderUuid tradeUuid : string) (rnd : Q)
        (orderData : OrderService.OrderRequest) (instrument : Instrument)
        (limitPrice : Q) :
  memoryStore.getInstrumentBySymbol st (OrderService.request_symbol orderData)
  = Some instrument ->
  OrderService.request_orderStyle orderData = LIMIT ->
  OrderService.request_price orderData = Some limitPrice ->
  (0 < limitPrice)%Q ->
  (OrderService.request_orderType orderData = BUY
   /\ (limitPrice < lastTradedPrice instrument)%Q)
  \/ (OrderService.request_orderType orderData = SELL
      /\ (lastTradedPrice instrument < limitPrice)%Q) ->
  let st' := snd (OrderService.placeOrder orderUuid rnd tradeUuid orderData st) in
  fst (OrderService.placeOrder orderUuid rnd tradeUuid orderData st)
  = Returned (placedRecord orderUuid orderData)
  /\ memoryStore.getOrderById st' orderUuid = Some (placedRecord orderUuid orderData)
  /\ (forall k, k <> orderUuid ->
        memoryStore.getOrderById st' k = memoryStore.getOrderById st k)
  /\ trades st' = trades st
  /\ portfolio st' = portfolio st
  /\ instruments st' = instruments st.
Proof.
  intros Hi Hstyle Hprice Hpos Hside. cbv zeta.
  assert (Hsym : isInstrument st (OrderService.request_symbol orderData))
    by (unfold isInstrument; congruence).
  assert (Hok : (ORDER_STYLES_eqb (OrderService.request_orderStyle orderData) LIMIT
                 && OrderService.missingOrNonPositive
                      (OrderService.request_price orderData))%bool = false).
  { rewrite Hstyle, Hprice. cbn.
    destruct (Qle_bool limitPrice 0) eqn:E; [|reflexivity].
    apply Qle_bool_iff in E. exfalso. now apply (Qlt_not_le _ _ Hpos). }
  rewrite placeOrder_accepted by assumption. cbv zeta.
  assert (Hstored : memoryStore.getOrderById (placedStore st orderUuid orderData)
                      orderUuid = Some (placedRecord orderUuid orderData)).
  { unfold memoryStore.getOrderById, placedStore. cbn [orders memoryStore.with_orders].
    apply get_set_same. }
  rewrite (attempt_not_executable (placedStore st orderUuid orderData) rnd tradeUuid
             orderUuid (placedRecord orderUuid orderData) instrument).
  - cbn [fst snd]. rewrite Hstored. split; [reflexivity|]. split; [reflexivity|].
    split; [|repeat split].
    intros k Hk. unfold memoryStore.getOrderById, placedStore.
    cbn [orders memoryStore.with_orders]. apply get_set_other. congruence.
  - exact Hstored.
  - exact Hi.
  - exact Hstyle.
  - unfold canExecuteLimitOrder, placedRecord. cbn [orderStyle orderType order_price].
    rewrite Hstyle, Hprice. cbn [ORDER_STYLES_eqb negb].
    destruct Hside as [[-> Hlt] | [-> Hlt]]; cbn [ORDER_TYPES_eqb].
    + destruct (Qle_bool (lastTradedPrice instrument) limitPrice) eqn:E;
        [|reflexivity].
      apply Qle_bool_iff in E. exfalso. now apply (Qlt_not_le _ _ Hlt).
    + destruct (Qle_bool limitPrice (lastTradedPrice instrument)) eqn:E;
        [|reflexivity].
      apply Qle_bool_iff in E. exfalso. now apply (Qlt_not_le _ _ Hlt).
Qed.

Lemma limit_order_waits_witness :
  fst (OrderService.placeOrder "order-1" (1 # 2) "trade-1"
         (OrderService.mkOrderRequest "user_001" "TCS" BUY LIMIT 10 (Some (3000 # 1)%Q))
         memoryStore.initialStore)
  = Returned (mkOrder "order-1" "user_001" "TCS" BUY LIMIT 10 (Some (3000 # 1)%Q)
                PLACED None None)
  /\ trades pendingLimitBuy = JsMap.empty
  /\ portfolio pendingLimitBuy = JsMap.empty.
Proof.
  destruct (limit_order_waits memoryStore.initialStore "order-1" "trade-1" (1 # 2)
              (OrderService.mkOrderRequest "user_001" "TCS" BUY LIMIT 10
                 (Some (3000 # 1)%Q))
              (mkInstrument "TCS" "TCS" "NSE" "EQUITY" (389020 # 100)
                 "Tata Consultancy Services Ltd") (3000 # 1))
    as (H1 & _ & _ & H4 & H5 & _).
  - reflexivity.
  - reflexivity.
  - reflexivity.
  - reflexivity.
  - left. split; reflexivity.
  - split; [exact H1|]. split; [exact H4 | exact H5].
Defined.

(** X9. An attempt on a PLACED LIMIT BUY order whose limit price (not
    zero) is at or above the current price executes it at the limit
    price, however low the current price is: the order returned is
    EXECUTED with that executed price, the trade carries the limit price
    and quantity times the limit price as total amount, and the user
    holds the quantity more of the symbol. *)
Theorem limit_buy_fills_at_limit
        (st : MemoryStore) (rnd : Q) (uuid orderId : string)
        (order : Order) (instrument : Instrument) (limitPrice : Q) :
  memoryStore.getOrderById st orderId = Some order ->
  status order = PLACED ->
  orderStyle order = LIMIT ->
  orderType order = BUY ->
  order_price order = Some limitPrice ->
  ~ (limitPrice == 0)%Q ->
  memoryStore.getInstrumentBySymbol st (order_symbol order) = Some instrument ->
  (lastTradedPrice instrument <= limitPrice)%Q ->
  let st' := snd (OrderService.attemptOrderExecution rnd uuid orderId st) in
  exists executed trade,
    fst (OrderService.attemptOrderExecution rnd uuid orderId st)
    = Returned (Some executed)
    /\ memoryStore.getOrderById st' orderId = Some executed
    /\ status executed = EXECUTED
    /\ executedPrice executed = Some limitPrice
    /\ JsMap.get (trades st') uuid = Some trade
    /\ trade_price trade = limitPrice
    /\ totalAmount trade = (inject_Z (order_quantity order) * limitPrice)%Q
    /\ heldQuantity st' (order_userId order) (order_symbol order)
       = heldQuantity st (order_userId order) (order_symbol order)
         + order_quantity order.
Proof.
  intros Hget Hst Hstyle Htype Hprice Hnz Hi Hle. cbv zeta.
  assert (Hsym : isInstrument st (order_symbol order))
    by (unfold isInstrument; congruence).
  rewrite (attempt_executable st rnd uuid orderId order instrument limitPrice);
    try assumption.
  - rewrite Htype. rewrite updatePortfolioAfterTrade_buy by exact Hsym.
    unfold memoryStore.updatePortfolio, memoryStore.updatePortfolioMap.
    cbn [fst snd].
    exists (executedRecord order limitPrice), (tradeRecord uuid order limitPrice).
    unfold memoryStore.getOrderById, markedExecuted.
    cbn [orders trades portfolio instruments memoryStore.with_portfolio].
    rewrite !get_set_same.
    split; [reflexivity|]. split; [reflexivity|]. split; [reflexivity|]. split.
    { unfold executedRecord, memoryStore.truthyQ. cbn [executedPrice].
      destruct (Qeq_bool limitPrice 0) eqn:E; [|reflexivity].
      apply Qeq_bool_iff in E. contradiction. }
    split; [reflexivity|]. split; [reflexivity|]. split; [reflexivity|].
    unfold heldQuantity. cbn [portfolio memoryStore.with_portfolio].
    rewrite get_set_same.
    unfold memoryStore.applyTrade, memoryStore.holdingOrNew. cbn [quantity].
    now destruct (JsMap.get (portfolio st) _).
  - rewrite Hstyle. cbn [ORDER_STYLES_eqb].
    unfold canExecuteLimitOrder. rewrite Hstyle, Htype, Hprice.
    cbn [ORDER_STYLES_eqb ORDER_TYPES_eqb negb]. now apply Qle_bool_iff.
  - unfold calculateExecutionPrice. rewrite Hstyle. cbn [ORDER_STYLES_eqb].
    exact Hprice.
Qed.

Lemma limit_buy_fills_at_limit_witness :
  let st' := snd (OrderService.attemptOrderExecution (1 # 2) "trade-2" "order-1"
                    pendingLimitBuyCrossed) in
  exists executed trade,
    memoryStore.getOrderById st' "order-1" = Some executed
    /\ executedPrice executed = Some (3000 # 1)%Q
    /\ JsMap.get (trades st') "trade-2" = Some trade
    /\ trade_price trade = (3000 # 1)%Q
    /\ InstrumentService.getCurrentPrice "TCS" st' = (Returned (2900 # 1)%Q, st').
Proof.
  destruct (limit_buy_fills_at_limit pendingLimitBuyCrossed (1 # 2) "trade-2" "order-1"
              (mkOrder "order-1" "user_001" "TCS" BUY LIMIT 10 (Some (3000 # 1)%Q)
                 PLACED None None)
              (mkInstrument "TCS" "TCS" "NSE" "EQUITY" (2900 # 1)
                 "Tata Consultancy Services Ltd") (3000 # 1))
    as (executed & trade & _ & H2 & _ & H4 & H5 & H6 & _).
  - vm_compute. reflexivity.
  - reflexivity.
  - reflexivity.
  - reflexivity.
  - reflexivity.
  - unfold Qeq. simpl. lia.
  - vm_compute. reflexivity.
  - unfold Qle. simpl. lia.
  - exists executed, trade.
    split; [exact H2|]. split; [exact H4|]. split; [exact H5|]. split; [exact H6|].
    vm_compute. reflexivity.
Defined.

(** ** Selling what is held *)

Lemma foundHolding_visible (st : MemoryStore) (userId symbol : string)
      (e : memoryStore.PortfolioEntry) :
  foundHolding st userId symbol = Some e ->
  0 < quantity (memoryStore.entry_holding e)
  /\ holding_userId (memoryStore.entry_holding e) = userId.
Proof.
  unfold foundHolding. intros H. apply find_some in H. destruct H as [Hin _].
  unfold memoryStore.getPortfolio in Hin. apply in_map_iff in Hin.
  destruct Hin as [h [<- Hin]]. cbn [memoryStore.entry_holding].
  apply filter_In in Hin. destruct Hin as [_ Hf].
  apply andb_true_iff in Hf. destruct Hf as [Hu Hq].
  split; [now apply Z.ltb_lt | now apply String.eqb_eq].
Qed.

Lemma foundHolding_finds (st : MemoryStore) (userId symbol : string) (h : Holding) :
  storeInvariant st -> isInstrument st symbol ->
  JsMap.get (portfolio st) (memoryStore.portfolioKey userId symbol) = Some h ->
  holding_userId h = userId -> holding_symbol h = symbol -> 0 < quantity h ->
  exists e, foundHolding st userId symbol = Some e /\ memoryStore.entry_holding e = h.
Proof.
  intros Hinv Hsym Hget Hu Hs Hq.
  destruct (foundHolding st userId symbol) as [e|] eqn:Hfound.
  - exists e. split; [reflexivity|].
    pose proof (foundHolding_stored st userId symbol e Hinv Hsym Hfound) as Hstored.
    congruence.
  - exfalso. unfold foundHolding in Hfound.
    pose proof (find_none _ _ Hfound) as Hnone. cbv beta in Hnone.
    assert (Hin : In h (filter
                          (fun holding =>
                             String.eqb (holding_userId holding) userId
                             && (0 <? quantity holding))%bool
                          (JsMap.values (portfolio st)))).
    { apply filter_In. split.
      - apply In_values. exists (memoryStore.portfolioKey userId symbol).
        now apply get_In.
      - rewrite Hu, String.eqb_refl. now apply Z.ltb_lt. }
    unfold memoryStore.getPortfolio in Hnone.
    apply (in_map (fun holding =>
                     let currentPrice :=
                       match memoryStore.getInstrumentBySymbol st (holding_symbol holding)
                       with
                       | Some instrument => lastTradedPrice instrument
                       | None => 0%Q
                       end in
                     let currentValue := (inject_Z (quantity holding) * currentPrice)%Q in
                     memoryStore.mkEntry holding currentPrice currentValue
                       (currentValue - totalInvestment holding)%Q)) in Hin.
    specialize (Hnone _ Hin). cbn [memoryStore.entry_holding] in Hnone.
    rewrite Hs, String.eqb_refl in Hnone. discriminate.
Qed.

(** X10. A SELL through the portfolio service of a positive quantity that
    the user holds, in a store that satisfies its invariant: the holding
    is stored with the quantity reduced by the quantity sold, whatever the
    sale price.  While something is left, average price and cost basis are
    as before; when nothing is left, both are 0 and the holding is no
    longer found for the user. *)
Theorem sell_within_holdings
        (st : MemoryStore) (userId symbol : string) (qty : Z) (price : Q) (h : Holding) :
  storeInvariant st -> isInstrument st symbol ->
  JsMap.get (portfolio st) (memoryStore.portfolioKey userId symbol) = Some h ->
  holding_userId h = userId -> holding_symbol h = symbol ->
  0 < qty <= quantity h ->
  let st' := snd (PortfolioService.updatePortfolioAfterTrade userId symbol qty price
                    SELL st) in
  exists h',
    fst (PortfolioService.updatePortfolioAfterTrade userId symbol qty price SELL st)
    = Returned h'
    /\ JsMap.get (portfolio st') (memoryStore.portfolioKey userId symbol) = Some h'
    /\ quantity h' = quantity h - qty
    /\ (qty < quantity h ->
        averagePrice h' = averagePrice h /\ totalInvestment h' = totalInvestment h)
    /\ (qty = quantity h ->
        averagePrice h' = 0%Q /\ totalInvestment h' = 0%Q
        /\ PortfolioService.getHoldingBySymbol userId symbol st' = (Returned None, st')).
Proof.
  intros Hinv Hsym Hget Hu Hs [Hpos Hle]. cbv zeta.
  pose proof (serviceFill_invariant st (mkFill userId symbol qty price SELL) Hinv)
    as Hinv'.
  unfold serviceFill in Hinv'.
  cbn [fill_userId fill_symbol fill_quantity fill_price fill_side] in Hinv'.
  destruct (foundHolding_finds st userId symbol h Hinv Hsym Hget Hu Hs)
    as (e & Hfound & He); [lia|].
  rewrite updatePortfolioAfterTrade_sell in * by assumption.
  rewrite Hfound, He in *.
  destruct (Z.ltb_spec (quantity h) qty) as [Hlt|_]; [lia|].
  unfold memoryStore.updatePortfolio, memoryStore.updatePortfolioMap in *.
  cbn [fst snd] in *.
  set (h' := memoryStore.applyTrade
               (memoryStore.holdingOrNew (portfolio st) userId symbol) qty price SELL)
    in *.
  set (st' := memoryStore.with_portfolio st _) in *.
  assert (Hh' : h' = memoryStore.applyTrade h qty price SELL)
    by (unfold h', memoryStore.holdingOrNew; now rewrite Hget).
  assert (Hstored : JsMap.get (portfolio st') (memoryStore.portfolioKey userId symbol)
                    = Some h')
    by (unfold st'; cbn [portfolio memoryStore.with_portfolio]; apply get_set_same).
  exists h'. split; [reflexivity|]. split; [exact Hstored|].
  rewrite Hh'. unfold memoryStore.applyTrade.
  destruct (Z.eqb_spec (Z.max 0 (quantity h - qty)) 0) as [E|E];
    cbn [quantity averagePrice totalInvestment].
  - split; [lia|]. split; [intros; lia|]. intros _.
    split; [reflexivity|]. split; [reflexivity|].
    rewrite getHoldingBySymbol_run.
    destruct (foundHolding st' userId symbol) as [e'|] eqn:Hfound'; [|reflexivity].
    exfalso.
    assert (Hsym' : isInstrument st' symbol) by exact Hsym.
    pose proof (foundHolding_stored st' userId symbol e' Hinv' Hsym' Hfound') as Hs'.
    destruct (foundHolding_visible st' userId symbol e' Hfound') as [Hq _].
    rewrite Hstored in Hs'. injection Hs' as Hs'. rewrite <- Hs', Hh' in Hq.
    unfold memoryStore.applyTrade in Hq.
    destruct (Z.max 0 (quantity h - qty) =? 0) eqn:E'; cbn [quantity] in Hq; lia.
  - split; [lia|]. split; [intros _; now split | intros; lia].
Qed.

Lemma sell_within_holdings_witness :
  let st := serviceFills memoryStore.initialStore
              [mkFill "user_001" "TCS" 10 (100 # 1) BUY] in
  exists h',
    JsMap.get
      (portfolio
         (snd (PortfolioService.updatePortfolioAfterTrade "user_001" "TCS" 10 (150 # 1)
                 SELL st)))
      (memoryStore.portfolioKey "user_001" "TCS") = Some h'
    /\ quantity h' = 0.
Proof.
  cbv zeta.
  destruct (sell_within_holdings
              (serviceFills memoryStore.initialStore
                 [mkFill "user_001" "TCS" 10 (100 # 1) BUY])
              "user_001" "TCS" 10 (150 # 1)
              (mkHolding "user_001" "TCS" 10 (0 + inject_Z 10 * (100 # 1))%Q
                 ((0 + inject_Z 10 * (100 # 1)) / inject_Z (0 + 10))%Q))
    as (h' & _ & H2 & H3 & _).
  - apply serviceFills_storeInvariant, initialStore_invariant.
  - unfold isInstrument. vm_compute. discriminate.
  - reflexivity.
  - reflexivity.
  - reflexivity.
  - cbn. lia.
  - exists h'. split; [exact H2|]. rewrite H3. reflexivity.
Defined.

(** ** The instrument registry and the simulated prices *)











(** X13. Looking an instrument up never changes the store.
    [validateInstrument] never throws and says whether the symbol is an
    instrument; [getCurrentPrice] returns the stored price of an
    instrument and throws the 404 error for any other symbol; after a
    successful [updatePrice], [getCurrentPrice] returns the new price. *)
Theorem price_lookup (st : MemoryStore) (symbol : string) :
  (exists known,
      InstrumentService.validateInstrument symbol st = (Returned known, st)
      /\ (known = true <-> isInstrument st symbol))
  /\ (forall instrument,
        memoryStore.getInstrumentBySymbol st symbol = Some instrument ->
        InstrumentService.getCurrentPrice symbol st
        = (Returned (lastTradedPrice instrument), st))
  /\ (memoryStore.getInstrumentBySymbol st symbol = None ->
      InstrumentService.getCurrentPrice symbol st
      = (Thrown (AppError (InstrumentNotFound symbol) 404), st))
  /\ (forall newPrice,
        fst (InstrumentService.updatePrice symbol newPrice st) = Returned true ->
        InstrumentService.getCurrentPrice symbol
          (snd (InstrumentService.updatePrice symbol newPrice st))
        = (Returned newPrice, snd (InstrumentService.updatePrice symbol newPrice st))).
Proof.
  unfold isInstrument. split; [|split; [|split]].
  - unfold InstrumentService.validateInstrument. run.
    destruct (memoryStore.getInstrumentBySymbol st symbol).
    + exists true. split; [reflexivity|]. split; [discriminate | reflexivity].
    + exists false. split; [reflexivity|]. split; [discriminate | congruence].
  - intros i H.
    unfold InstrumentService.getCurrentPrice, InstrumentService.getInstrumentBySymbol.
    run. now rewrite H.
  - intros H.
    unfold InstrumentService.getCurrentPrice, InstrumentService.getInstrumentBySymbol.
    run. now rewrite H.
  - intros newPrice.
    unfold InstrumentService.updatePrice, memoryStore.updateInstrumentPrice. run.
    destruct (JsMap.get (instruments st) symbol) as [i|]; cbn [negb fst snd];
      [intros _ | discriminate].
    unfold InstrumentService.getCurrentPrice, InstrumentService.getInstrumentBySymbol,
      memoryStore.getInstrumentBySymbol. run.
    cbn [instruments memoryStore.with_instruments]. now rewrite get_set_same.
Qed.

Lemma price_lookup_witness :
  InstrumentService.getCurrentPrice "TCS" memoryStore.initialStore
  = (Returned (389020 # 100)%Q, memoryStore.initialStore)
  /\ InstrumentService.getCurrentPrice "WIPRO" memoryStore.initialStore
     = (Thrown (AppError (InstrumentNotFound "WIPRO") 404), memoryStore.initialStore).
Proof.
  split.
  - apply (proj1 (proj2 (price_lookup memoryStore.initialStore "TCS"))
             (mkInstrument "TCS" "TCS" "NSE" "EQUITY" (389020 # 100)
                "Tata Consultancy Services Ltd")).
    reflexivity.
  - apply (proj1 (proj2 (proj2 (price_lookup memoryStore.initialStore "WIPRO")))).
    reflexivity.
Defined.



(** ** Pagination *)

Lemma slice_from (A : Type) (data : list A) (start count : Z) :
  0 <= start -> 0 <= count ->
  Pagination.slice data start (start + count)
  = firstn (Z.to_nat count) (skipn (Z.to_nat start) data).
Proof.
  intros Hs Hc. unfold Pagination.slice.
  destruct (Z.ltb_spec start 0) as [?|_]; [lia|].
  destruct (Z.ltb_spec (start + count) 0) as [?|_]; [lia|].
  set (len := Z.of_nat (length data)).
  destruct (Z.le_gt_cases start len) as [Hle|Hgt].
  - rewrite (Z.min_l start len) by lia.
    destruct (Z.le_gt_cases (start + count) len) as [Hle2|Hgt2].
    + rewrite Z.min_l by lia. f_equal. lia.
    + rewrite Z.min_r by lia.
      rewrite !firstn_all2; try reflexivity; rewrite length_skipn; unfold len in *; lia.
  - rewrite !Z.min_r by lia.
    rewrite (skipn_all2 data) by (unfold len in *; lia).
    rewrite (skipn_all2 data) by (unfold len in *; lia).
    now rewrite !firstn_nil.
Qed.

Lemma chunks_concat (A : Type) (c n : nat) :
  forall data : list A,
    (length data <= n * c)%nat ->
    concat (map (fun p => firstn c (skipn (p * c) data)) (seq 0 n)) = data.
Proof.
  induction n as [|n IH]; intros data Hlen.
  - destruct data; [reflexivity | simpl in Hlen; lia].
  - cbn [seq map concat]. rewrite <- seq_shift, map_map.
    cbn [Nat.mul Nat.add skipn].
    rewrite (map_ext _ (fun p => firstn c (skipn (p * c) (skipn c data)))).
    + rewrite IH; [apply firstn_skipn|]. rewrite length_skipn. simpl in Hlen. lia.
    + intros p. rewrite skipn_skipn. do 2 f_equal. simpl. lia.
Qed.

Lemma pageCount_covers (len limit : Z) :
  0 < limit -> 0 <= len ->
  0 <= Pagination.pageCount len limit
  /\ len <= Pagination.pageCount len limit * limit
  /\ (Pagination.pageCount len limit - 1) * limit < len.
Proof.
  intros Hl Hn. unfold Pagination.pageCount.
  pose proof (Z.div_mod (- len) limit ltac:(lia)) as Hdm.
  pose proof (Z.mod_pos_bound (- len) limit Hl) as Hm.
  nia.
Qed.

Lemma page_items (A : Type) (data : list A) (page limit : Z) :
  1 <= limit -> 1 <= page ->
  fst (Pagination.paginate data page limit)
  = firstn (Z.to_nat limit) (skipn (Z.to_nat ((page - 1) * limit)) data).
Proof.
  intros Hl Hp. unfold Pagination.paginate. cbn [fst].
  apply slice_from; nia.
Qed.

(** X15. For a limit of at least 1, the pages from 1 to [totalPages], one
    after the other, are the data: every item is on one page, in order,
    and none is repeated. *)
Theorem pages_partition (A : Type) (data : list A) (limit : Z) :
  1 <= limit ->
  concat
    (map (fun page => fst (Pagination.paginate data page limit))
       (Pagination.pagesUpTo
          (Pagination.totalPages (snd (Pagination.paginate data 1 limit)))))
  = data.
Proof.
  intros Hl. unfold Pagination.paginate at 2. cbn [snd Pagination.totalPages].
  set (len := Z.of_nat (length data)).
  destruct (pageCount_covers len limit) as (Hn0 & Hcover & _); [lia | unfold len; lia|].
  unfold Pagination.pagesUpTo. rewrite map_map.
  rewrite <- seq_shift, map_map.
  rewrite (map_ext _ (fun p => firstn (Z.to_nat limit)
                                 (skipn (p * Z.to_nat limit) data))).
  - apply chunks_concat. unfold len in *.
    apply Nat2Z.inj_le. rewrite Nat2Z.inj_mul, !Z2Nat.id by lia. exact Hcover.
  - intros p. rewrite page_items by lia. do 2 f_equal.
    rewrite <- (Nat2Z.id (p * Z.to_nat limit)). f_equal.
    rewrite Nat2Z.inj_mul, Z2Nat.id by lia. lia.
Qed.

Lemma pages_partition_witness :
  concat
    (map (fun page => fst (Pagination.paginate [1; 2; 3; 4; 5; 6; 7] page 3))
       [1; 2; 3])
  = [1; 2; 3; 4; 5; 6; 7].
Proof.
  apply (pages_partition Z [1; 2; 3; 4; 5; 6; 7] 3). lia.
Defined.

(** X16. For a limit of at least 1 and a page of at least 1: a page has at
    most [limit] items; a page up to [totalPages] has at least one item
    and a page beyond it has none; [hasNextPage] says whether the page is
    before [totalPages] and [hasPrevPage] whether it is after page 1.
    Page 0 has no item. *)
Theorem page_bounds (A : Type) (data : list A) (page limit : Z) :
  1 <= limit -> 1 <= page ->
  let items := fst (Pagination.paginate data page limit) in
  let info := snd (Pagination.paginate data page limit) in
  Z.of_nat (length items) <= limit
  /\ (page <= Pagination.totalPages info -> items <> [])
  /\ (Pagination.totalPages info < page -> items = [])
  /\ (Pagination.hasNextPage info = true <-> page < Pagination.totalPages info)
  /\ (Pagination.hasPrevPage info = true <-> 1 < page)
  /\ Pagination.totalItems info = Z.of_nat (length data)
  /\ fst (Pagination.paginate data 0 limit) = [].
Proof.
  intros Hl Hp. cbv zeta. rewrite page_items by assumption.
  unfold Pagination.paginate.
  cbn [fst snd Pagination.totalPages Pagination.hasNextPage Pagination.hasPrevPage
       Pagination.totalItems].
  set (len := Z.of_nat (length data)).
  destruct (pageCount_covers len limit) as (Hn0 & Hcover & Hlast);
    [lia | unfold len; lia|].
  assert (Hlen : Z.of_nat
                   (length (firstn (Z.to_nat limit)
                              (skipn (Z.to_nat ((page - 1) * limit)) data)))
                 = Z.min limit (Z.max 0 (len - (page - 1) * limit))).
  { rewrite length_firstn, length_skipn. unfold len. nia. }
  split; [lia|]. split; [|split; [|split; [|split; [|split]]]].
  - intros Hle Hnil. rewrite Hnil in Hlen. cbn [length] in Hlen. nia.
  - intros Hgt. apply length_zero_iff_nil. nia.
  - apply Z.ltb_lt.
  - apply Z.ltb_lt.
  - reflexivity.
  - unfold Pagination.slice. fold len.
    destruct (Z.ltb_spec ((0 - 1) * limit) 0) as [_|?]; [|lia].
    destruct (Z.ltb_spec ((0 - 1) * limit + limit) 0) as [?|_]; [lia|].
    replace (Z.to_nat (Z.min ((0 - 1) * limit + limit) len
                       - Z.max (len + (0 - 1) * limit) 0)) with 0%nat
      by (unfold len; lia).
    reflexivity.
Qed.

Lemma page_bounds_witness :
  fst (Pagination.paginate [1; 2; 3; 4; 5; 6; 7] 4 3) = []
  /\ fst (Pagination.paginate [1; 2; 3; 4; 5; 6; 7] 3 3) <> [].
Proof.
  destruct (page_bounds Z [1; 2; 3; 4; 5; 6; 7] 4 3) as (_ & _ & H & _); [lia | lia|].
  destruct (page_bounds Z [1; 2; 3; 4; 5; 6; 7] 3 3) as (_ & H' & _); [lia | lia|].
  split; [apply H | apply H']; vm_compute; congruence.
Defined.

(** ** Clearing the store *)

Lemma initializeSampleData_sets (m : JsMap.t Instrument) :
  forall i, In i memoryStore.sampleInstruments ->
  JsMap.get (memoryStore.initializeSampleData m) (instrument_symbol i) = Some i.
Proof.
  intros i Hi. unfold memoryStore.initializeSampleData, memoryStore.sampleInstruments in *.
  cbn [fold_left instrument_symbol].
  cbn [In] in Hi.
  repeat (destruct Hi as [<- | Hi];
          [cbn [instrument_symbol];
           repeat (rewrite get_set_other by discriminate);
           apply get_set_same|]).
  contradiction.
Qed.

(** X17. [clearAllData] empties the orders, the trades and the portfolio of
    any store, and puts every sample instrument back under its symbol with
    its sample price.  When the store has the sample instruments' symbols
    as its instrument keys, the result is the store as it was created. *)
Theorem clearAllData_resets (st : MemoryStore) :
  let st' := StoreUtilities.clearAllData st in
  orders st' = JsMap.empty /\ trades st' = JsMap.empty /\ portfolio st' = JsMap.empty
  /\ (forall userId, memoryStore.getPortfolio st' userId = [])
  /\ (forall i, In i memoryStore.sampleInstruments ->
        memoryStore.getInstrumentBySymbol st' (instrument_symbol i) = Some i)
  /\ (JsMap.keys (instruments st) = JsMap.keys (instruments memoryStore.initialStore) ->
      st' = memoryStore.initialStore).
Proof.
  cbv zeta. unfold StoreUtilities.clearAllData.
  cbn [orders trades portfolio instruments].
  split; [reflexivity|]. split; [reflexivity|]. split; [reflexivity|].
  split; [reflexivity|]. split.
  - unfold memoryStore.getInstrumentBySymbol. cbn [instruments].
    apply initializeSampleData_sets.
  - intros Hkeys. unfold memoryStore.initialStore. f_equal.
    destruct (instruments st) as [|[k1 v1] [|[k2 v2] [|[k3 v3] [|[k4 v4] [|[k5 v5] [|? ?]]]]]];
      try discriminate Hkeys.
    vm_compute in Hkeys. injection Hkeys as -> -> -> -> ->.
    reflexivity.
Qed.

Lemma clearAllData_resets_witness :
  StoreUtilities.clearAllData pendingLimitBuyCrossed = memoryStore.initialStore.
Proof.
  apply (clearAllData_resets pendingLimitBuyCrossed). reflexivity.
Defined.

(** ** The route that places an order *)


Section PostOrders.

Variable stringToNumber : string -> option Q.



End PostOrders.


(** ** Portfolio figures *)














(** ** Order statistics *)

Lemma ordersAligned_refl (st : MemoryStore) : ordersAligned st st.
Proof.
  unfold ordersAligned. induction (orders st) as [|e l IH]; constructor; [|exact IH].
  split; [reflexivity | now left].
Qed.

Lemma executionStep_trans (a b c : Order) :
  executionStep a b -> executionStep b c -> executionStep a c.
Proof.
  intros [-> | (Ha & Hb & Hab)] [-> | (Hb' & Hc & Hbc)].
  - now left.
  - right. tauto.
  - right. tauto.
  - congruence.
Qed.

Lemma ordersAligned_trans (a b c : MemoryStore) :
  ordersAligned a b -> ordersAligned b c -> ordersAligned a c.
Proof.
  unfold ordersAligned. generalize (orders a) (orders b) (orders c).
  intros la lb lc Hab. revert lc.
  induction Hab as [|x y la lb [Hk Hs] _ IH]; intros lc Hbc; inversion Hbc; subst.
  - constructor.
  - constructor; [|now apply IH].
    match goal with H : _ /\ executionStep (snd y) _ |- _ => destruct H as [Hk' Hs'] end.
    split; [congruence | now apply executionStep_trans with (snd y)].
Qed.

Lemma ordersAligned_set (st : MemoryStore) (orderId : string) (order : Order)
      (executionPrice : Q) (m : JsMap.t Trade) (p : JsMap.t Holding) :
  memoryStore.getOrderById st orderId = Some order ->
  status order = PLACED ->
  ordersAligned st
    (mkStore (instruments st)
       (JsMap.set (orders st) orderId (executedRecord order executionPrice)) m p).
Proof.
  unfold ordersAligned, memoryStore.getOrderById. cbn [orders].
  intros Hget Hst. induction (orders st) as [|[k o] l IH]; [discriminate|].
  cbn [JsMap.get JsMap.set] in *.
  destruct (String.eqb_spec k orderId) as [->|Hne].
  - injection Hget as ->. constructor.
    + split; [reflexivity|]. right. cbn [snd].
      split; [exact Hst|]. split; [reflexivity|].
      unfold sameRequest, executedRecord. cbn. tauto.
    + clear. induction l as [|e l IH]; constructor; [|exact IH].
      split; [reflexivity | now left].
  - constructor; [|now apply IH]. split; [reflexivity | now left].
Qed.

Lemma attemptEach_aligned (rnd : string -> Q) (uuid : string -> string)
      (pendingOrders : list Order) :
  forall (executedOrders : list Order) (st : MemoryStore),
    ordersAligned st
      (snd (OrderLifecycle.attemptEach rnd uuid pendingOrders executedOrders st)).
Proof.
  induction pendingOrders as [|order rest IH]; intros acc st.
  - apply ordersAligned_refl.
  - cbn [OrderLifecycle.attemptEach]. unfold bind.
    destruct (attemptOrderExecution_cases st (rnd (order_id order))
                (uuid (order_id order)) (order_id order))
      as [-> | (o & i & ep & Hget & Hst & _ & _ & _ & [-> | ->])].
    + apply IH.
    + eapply ordersAligned_trans; [|apply IH].
      unfold markedExecuted. now apply ordersAligned_set.
    + eapply ordersAligned_trans; [|apply IH].
      unfold markedExecuted, memoryStore.with_portfolio.
      cbn [instruments orders trades portfolio]. now apply ordersAligned_set.
Qed.

Lemma filter_filter_length {A} (p q : A -> bool) (l : list A) :
  length (filter q (filter p l)) = length (filter (fun x => p x && q x)%bool l).
Proof.
  induction l as [|x l IH]; [reflexivity|]. cbn [filter].
  destruct (p x); cbn [filter andb]; [|exact IH].
  destruct (q x); cbn [length]; now rewrite IH.
Qed.

(** A count that depends on the request only is the same in aligned
    stores. *)
Lemma aligned_count (p : Order -> bool) (st st' : MemoryStore) :
  (forall o o', executionStep o o' -> p o' = p o) ->
  ordersAligned st st' ->
  length (filter p (JsMap.values (orders st)))
  = length (filter p (JsMap.values (orders st'))).
Proof.
  intros Hp. unfold ordersAligned, JsMap.values.
  induction 1 as [|e e' l l' [_ Hs] _ IH]; [reflexivity|].
  cbn [map filter]. rewrite (Hp _ _ Hs).
  destruct (p (snd e)); cbn [length]; now rewrite IH.
Qed.

(** Of the orders that pass a test on the request, as many are PLACED or
    EXECUTED in aligned stores, and no fewer are EXECUTED in the later
    one. *)
Lemma aligned_executions (p : Order -> bool) (st st' : MemoryStore) :
  (forall o o', executionStep o o' -> p o' = p o) ->
  ordersAligned st st' ->
  let count := fun (s : ORDER_STATUSES) (store : MemoryStore) =>
    length (filter (fun o => p o && ORDER_STATUSES_eqb (status o) s)%bool
              (JsMap.values (orders store))) in
  (count EXECUTED st + count PLACED st = count EXECUTED st' + count PLACED st')%nat
  /\ (count EXECUTED st <= count EXECUTED st')%nat.
Proof.
  intros Hp. cbv zeta. unfold ordersAligned, JsMap.values.
  induction 1 as [|e e' l l' [_ Hs] _ IH]; [split; reflexivity|].
  cbn [map filter]. rewrite (Hp _ _ Hs).
  destruct (p (snd e)); cbn [andb]; [|exact IH].
  destruct Hs as [-> | (H1 & H2 & _)].
  - destruct (status (snd e)); cbn [ORDER_STATUSES_eqb length]; lia.
  - rewrite H1, H2. cbn [ORDER_STATUSES_eqb length]. lia.
Qed.

(** X21. The statistics of a user's orders: every order is a BUY or a
    SELL, and a MARKET or a LIMIT order, and at most one of executed,
    pending and cancelled.  A sweep of the pending orders changes none of
    the counts of the total, the cancelled, the BUY, SELL, MARKET and LIMIT
    orders; the executed and the pending orders together are as many as
    before, and the executed ones no fewer. *)
Theorem sweep_keeps_order_counts
        (rnd : string -> Q) (uuid : string -> string) (st : MemoryStore)
        (userId : string) :
  let before := OrderStatistics.getOrderStats st userId in
  let after :=
    OrderStatistics.getOrderStats
      (snd (OrderLifecycle.processPendingOrders rnd uuid st)) userId in
  (OrderStatistics.buyOrders before + OrderStatistics.sellOrders before
   = OrderStatistics.totalOrders before
   /\ OrderStatistics.marketOrders before + OrderStatistics.limitOrders before
      = OrderStatistics.totalOrders before
   /\ OrderStatistics.executedOrders before + OrderStatistics.pendingOrders before
      + OrderStatistics.cancelledOrders before
      <= OrderStatistics.totalOrders before)%nat
  /\ OrderStatistics.totalOrders after = OrderStatistics.totalOrders before
  /\ OrderStatistics.cancelledOrders after = OrderStatistics.cancelledOrders before
  /\ OrderStatistics.buyOrders after = OrderStatistics.buyOrders before
  /\ OrderStatistics.sellOrders after = OrderStatistics.sellOrders before
  /\ OrderStatistics.marketOrders after = OrderStatistics.marketOrders before
  /\ OrderStatistics.limitOrders after = OrderStatistics.limitOrders before
  /\ (OrderStatistics.executedOrders after + OrderStatistics.pendingOrders after
      = OrderStatistics.executedOrders before + OrderStatistics.pendingOrders before)%nat
  /\ (OrderStatistics.executedOrders before <= OrderStatistics.executedOrders after)%nat.
Proof.
  cbv zeta.
  assert (Hal : ordersAligned st (snd (OrderLifecycle.processPendingOrders rnd uuid st))).
  { set (pending := filter (fun order => ORDER_STATUSES_eqb (status order) PLACED)
                      (JsMap.values (orders st))).
    destruct (attemptEach_spec rnd uuid pending [] st) as (more & Hr & _).
    assert (Heq : OrderLifecycle.processPendingOrders rnd uuid st
                  = OrderLifecycle.attemptEach rnd uuid pending [] st).
    { unfold OrderLifecycle.processPendingOrders, tryCatch, bind, gets.
      fold pending.
      destruct (OrderLifecycle.attemptEach rnd uuid pending [] st) as [[l|e] s'];
        [reflexivity | discriminate]. }
    rewrite Heq. apply attemptEach_aligned. }
  set (st' := snd (OrderLifecycle.processPendingOrders rnd uuid st)) in *.
  unfold OrderStatistics.getOrderStats, memoryStore.getAllOrders.
  cbn [OrderStatistics.totalOrders OrderStatistics.executedOrders
       OrderStatistics.pendingOrders OrderStatistics.cancelledOrders
       OrderStatistics.buyOrders OrderStatistics.sellOrders
       OrderStatistics.marketOrders OrderStatistics.limitOrders].
  set (user := fun order : Order => String.eqb (order_userId order) userId).
  assert (Huser : forall o o', executionStep o o' -> user o' = user o).
  { intros o o' [-> | (_ & _ & _ & Hu & _)]; [reflexivity|]. unfold user. now rewrite Hu. }
  split.
  { generalize (filter user (JsMap.values (orders st))). intros l.
    split; [|split].
    - induction l as [|o l IH]; [reflexivity|]. cbn [filter].
      destruct (orderType o); cbn [ORDER_TYPES_eqb length] in *; lia.
    - induction l as [|o l IH]; [reflexivity|]. cbn [filter].
      destruct (orderStyle o); cbn [ORDER_STYLES_eqb length] in *; lia.
    - induction l as [|o l IH]; [reflexivity|]. cbn [filter].
      destruct (status o); cbn [ORDER_STATUSES_eqb length] in *; lia. }
  rewrite !filter_filter_length.
  pose proof (aligned_executions user st st' Huser Hal) as [Hsum Hexe]. cbv beta in *.
  split; [symmetry; now apply aligned_count|].
  split.
  { symmetry. apply aligned_count; [|exact Hal].
    intros o o' Hs. rewrite (Huser _ _ Hs).
    destruct Hs as [-> | (H1 & H2 & _)]; [reflexivity|]. now rewrite H1, H2. }
  split.
  { symmetry. apply aligned_count; [|exact Hal].
    intros o o' Hs. rewrite (Huser _ _ Hs).
    destruct Hs as [-> | (_ & _ & _ & _ & _ & Ht & _)]; [reflexivity|]. now rewrite Ht. }
  split.
  { symmetry. apply aligned_count; [|exact Hal].
    intros o o' Hs. rewrite (Huser _ _ Hs).
    destruct Hs as [-> | (_ & _ & _ & _ & _ & Ht & _)]; [reflexivity|]. now rewrite Ht. }
  split.
  { symmetry. apply aligned_count; [|exact Hal].
    intros o o' Hs. rewrite (Huser _ _ Hs).
    destruct Hs as [-> | (_ & _ & _ & _ & _ & _ & Hy & _)]; [reflexivity|]. now rewrite Hy. }
  split.
  { symmetry. apply aligned_count; [|exact Hal].
    intros o o' Hs. rewrite (Huser _ _ Hs).
    destruct Hs as [-> | (_ & _ & _ & _ & _ & _ & Hy & _)]; [reflexivity|]. now rewrite Hy. }
  split; [symmetry; exact Hsum | exact Hexe].
Qed.

(** ** Modifying an order *)

(** On a request that has just been given the new identifier, this
    [placeOrder] is the one of the order service. *)
Lemma placeOrder_of_request
      (st : MemoryStore) (orderUuid tradeUuid : string) (rnd : Q)
      (orderData : OrderService.OrderRequest) (anyStatus : ORDER_STATUSES) :
  OrderModification.placeOrder orderUuid rnd tradeUuid
    (mkOrder orderUuid (OrderService.request_userId orderData)
       (OrderService.request_symbol orderData) (OrderService.request_orderType orderData)
       (OrderService.request_orderStyle orderData)
       (OrderService.request_quantity orderData) (OrderService.request_price orderData)
       anyStatus None None) st
  = OrderService.placeOrder orderUuid rnd tradeUuid orderData st.
Proof.
  unfold OrderModification.placeOrder, OrderService.placeOrder,
    InstrumentService.validateInstrument,
    InstrumentService.getCurrentPrice, InstrumentService.getInstrumentBySymbol. run.
  cbn [order_symbol orderStyle order_price].
  destruct (memoryStore.getInstrumentBySymbol st (OrderService.request_symbol orderData))
    as [i|] eqn:Hi; [|reflexivity].
  cbn [negb]. cbn beta iota zeta. rewrite ?Hi. cbn beta iota zeta.
  destruct (ORDER_STYLES_eqb (OrderService.request_orderStyle orderData) LIMIT
            && OrderService.missingOrNonPositive (OrderService.request_price orderData))%bool;
    [reflexivity|].
  unfold memoryStore.createOrder, OrderModification.createOrder,
    OrderModification.withStatus. cbn beta iota zeta.
  unfold memoryStore.updateOrderStatus.
  cbn [orders memoryStore.with_orders order_id]. rewrite !get_set_same.
  cbn beta iota zeta.
  cbn [order_id order_userId order_symbol orderType orderStyle order_quantity
       order_price executedPrice executedQuantity memoryStore.noExecutionData
       memoryStore.data_executedPrice memoryStore.data_executedQuantity
       memoryStore.truthyQ memoryStore.truthyZ memoryStore.data_userId
       memoryStore.data_symbol memoryStore.data_orderType memoryStore.data_orderStyle
       memoryStore.data_quantity memoryStore.data_price memoryStore.data_status
       instruments trades portfolio].
  rewrite !set_set.
  match goal with
  | |- context [OrderService.attemptOrderExecution _ _ _ ?s] =>
      change s with (placedStore st orderUuid orderData)
  end.
  match goal with
  | |- context [match memoryStore.getOrderById _ _ with Some _ => _ | None => ?o end] =>
      change o with (placedRecord orderUuid orderData)
  end.
  destruct (attemptOrderExecution_cases (placedStore st orderUuid orderData)
              rnd tradeUuid orderUuid)
    as [-> | (o & i' & ep & _ & _ & _ & _ & _ & [-> | ->])]; try reflexivity.
  cbv zeta. unfold memoryStore.getOrderById, memoryStore.with_portfolio, markedExecuted.
  cbn [orders]. now rewrite get_set_same.
Qed.

(** Placing a copy of an order [c] that the store has under its id: the
    copy is stored NEW under the new identifier, while the order that is
    set to PLACED and attempted is [c] itself. *)
Lemma placeOrder_of_copy
      (st : MemoryStore) (orderUuid tradeUuid : string) (rnd : Q)
      (orderData c : Order) :
  isInstrument st (order_symbol orderData) ->
  (ORDER_STYLES_eqb (orderStyle orderData) LIMIT
   && OrderService.missingOrNonPositive (order_price orderData))%bool = false ->
  orderUuid <> order_id orderData ->
  memoryStore.getOrderById st (order_id orderData) = Some c ->
  order_id c = order_id orderData ->
  let placed := OrderModification.withStatus c PLACED in
  exists order st',
    OrderModification.placeOrder orderUuid rnd tradeUuid orderData st
    = (Returned order, st')
    /\ memoryStore.getOrderById st' (order_id orderData) = Some order
    /\ sameRequest placed order
    /\ (status order = PLACED \/ status order = EXECUTED)
    /\ memoryStore.getOrderById st' orderUuid
       = Some (OrderModification.withStatus orderData NEW).
Proof.
  unfold isInstrument. intros Hsym Hprice Hfresh Hget Hid. cbv zeta.
  unfold OrderModification.placeOrder, InstrumentService.validateInstrument,
    InstrumentService.getCurrentPrice, InstrumentService.getInstrumentBySymbol. run.
  destruct (memoryStore.getInstrumentBySymbol st (order_symbol orderData))
    as [i|] eqn:Hi; [|contradiction].
  cbn [negb]. cbn beta iota zeta. rewrite ?Hi. cbn beta iota zeta. rewrite Hprice.
  unfold OrderModification.createOrder. cbn beta iota zeta.
  unfold memoryStore.updateOrderStatus.
  cbn [orders memoryStore.with_orders].
  change (order_id (OrderModification.withStatus orderData NEW)) with (order_id orderData).
  rewrite get_set_other by exact Hfresh.
  unfold memoryStore.getOrderById in Hget. rewrite Hget.
  cbn beta iota zeta.
  cbn [memoryStore.noExecutionData memoryStore.data_executedPrice
       memoryStore.data_executedQuantity memoryStore.truthyQ memoryStore.truthyZ
       instruments trades portfolio orders].
  fold (OrderModification.withStatus c PLACED).
  set (placed := OrderModification.withStatus c PLACED).
  set (ghost := OrderModification.withStatus orderData NEW).
  change (order_id placed) with (order_id c). rewrite Hid.
  match goal with
  | |- context [OrderService.attemptOrderExecution _ _ _ ?s] => set (stored := s)
  end.
  assert (Hplaced : memoryStore.getOrderById stored (order_id orderData) = Some placed).
  { unfold memoryStore.getOrderById, stored, memoryStore.with_orders. cbn [orders].
    apply get_set_same. }
  assert (Hghost : JsMap.get (orders stored) orderUuid = Some ghost).
  { unfold stored, memoryStore.with_orders. cbn [orders].
    rewrite get_set_other by congruence. apply get_set_same. }
  destruct (attemptOrderExecution_cases stored rnd tradeUuid (order_id orderData))
    as [E | (o & i' & ep & Hget' & Hst & _ & _ & _ & E)].
  - rewrite E. cbn beta iota zeta. rewrite Hplaced.
    eexists _, _. split; [reflexivity|]. split; [exact Hplaced|].
    split; [apply sameRequest_refl|]. split; [now left|]. exact Hghost.
  - rewrite Hplaced in Hget'. injection Hget' as <-. cbv zeta in E.
    assert (Horder : forall m p,
               JsMap.get (orders (mkStore (instruments stored)
                                    (JsMap.set (orders stored) (order_id orderData)
                                       (executedRecord placed ep)) m p))
                 (order_id orderData)
               = Some (executedRecord placed ep)).
    { intros m p. cbn [orders]. apply get_set_same. }
    assert (Hcopy : forall m p,
               JsMap.get (orders (mkStore (instruments stored)
                                    (JsMap.set (orders stored) (order_id orderData)
                                       (executedRecord placed ep)) m p))
                 orderUuid
               = Some ghost).
    { intros m p. cbn [orders]. rewrite get_set_other by congruence. exact Hghost. }
    unfold markedExecuted, memoryStore.with_portfolio in E.
    cbn [instruments orders trades portfolio] in E.
    destruct E as [E | E]; rewrite E; cbn beta iota zeta;
      unfold memoryStore.getOrderById; rewrite ?Horder; eexists _, _;
      (split; [reflexivity|]); (split; [apply Horder|]);
      (split; [now repeat split|]); (split; [now right|]); apply Hcopy.
Qed.

(** X22. [modifyOrder] on a PLACED order of the user, stored under its id,
    for an instrument, with a new identifier that is not the order's.
    When the modified request passes the price check of [placeOrder], the
    answer is 200 and the order it shows is the original one, under its
    original id with its original price and quantity, PLACED again or
    EXECUTED on those terms; the requested price and quantity are only in
    a copy stored under the new identifier with the original id and the
    status NEW.  When the modified request fails the price check, the
    answer is 400 and the original order is left CANCELLED. *)
Theorem modifyOrder_keeps_original_terms
        (st : MemoryStore) (orderUuid tradeUuid : string) (rnd : Q)
        (orderId userId : string) (price : option Q) (quantity : option Z)
        (existingOrder : Order) :
  memoryStore.getOrderById st orderId = Some existingOrder ->
  order_id existingOrder = orderId ->
  order_userId existingOrder = userId ->
  status existingOrder = PLACED ->
  isInstrument st (order_symbol existingOrder) ->
  orderUuid <> orderId ->
  let newPrice :=
    if memoryStore.truthyQ price then price else order_price existingOrder in
  let newQuantity :=
    match quantity with
    | Some q => if negb (q =? 0) then q else order_quantity existingOrder
    | None => order_quantity existingOrder
    end in
  let answer :=
    OrderModification.modifyOrder orderUuid rnd tradeUuid orderId userId price quantity
      st in
  ((ORDER_STYLES_eqb (orderStyle existingOrder) LIMIT
    && OrderService.missingOrNonPositive newPrice)%bool = false ->
   exists newOrder,
     fst answer
     = OrderModification.mkModifyResponse 200
         (OrderModification.OrderModifiedSuccessfully orderId newOrder)
     /\ memoryStore.getOrderById (snd answer) orderId = Some newOrder
     /\ sameRequest existingOrder newOrder
     /\ (status newOrder = PLACED \/ status newOrder = EXECUTED)
     /\ memoryStore.getOrderById (snd answer) orderUuid
        = Some (mkOrder orderId userId (order_symbol existingOrder)
                  (orderType existingOrder) (orderStyle existingOrder)
                  newQuantity newPrice NEW
                  (executedPrice existingOrder) (executedQuantity existingOrder)))
  /\ ((ORDER_STYLES_eqb (orderStyle existingOrder) LIMIT
       && OrderService.missingOrNonPositive newPrice)%bool = true ->
      fst answer
      = OrderModification.mkModifyResponse 400
          (OrderModification.PlaceErrorBody (Some PriceRequiredForLimitOrders))
      /\ snd answer = snd (OrderLifecycle.cancelOrder orderId userId st)
      /\ memoryStore.getOrderById (snd answer) orderId
         = Some (OrderModification.withStatus existingOrder CANCELLED)).
Proof.
  intros Hget Hid Huser Hstatus Hsym Hfresh. cbv zeta.
  unfold OrderModification.modifyOrder, OrderLifecycle.cancelOrder,
    OrderLifecycle.getOrderById.
  rewrite Hget, Huser, String.eqb_refl, Hstatus.
  cbn [negb ORDER_STATUSES_eqb].
  unfold memoryStore.updateOrderStatus.
  pose proof Hget as Hget0. unfold memoryStore.getOrderById in Hget0. rewrite Hget0.
  cbn [memoryStore.noExecutionData memoryStore.data_executedPrice
       memoryStore.data_executedQuantity memoryStore.truthyQ memoryStore.truthyZ].
  fold (OrderModification.withStatus existingOrder CANCELLED).
  set (cancelled := OrderModification.withStatus existingOrder CANCELLED).
  set (st1 := memoryStore.with_orders st (JsMap.set (orders st) orderId cancelled)).
  cbn [order_id order_symbol orderType orderStyle order_quantity order_price status
       executedPrice executedQuantity cancelled OrderModification.withStatus].
  rewrite Hid.
  set (newOrderData := mkOrder orderId userId _ _ _ _ _ _ _ _).
  assert (Hcancelled : memoryStore.getOrderById st1 orderId = Some cancelled).
  { unfold memoryStore.getOrderById, st1, memoryStore.with_orders. cbn [orders].
    apply get_set_same. }
  split.
  - intros Hprice.
    destruct (placeOrder_of_copy st1 orderUuid tradeUuid rnd newOrderData cancelled)
      as (order & st' & E & Hstored & Hsame & Hst & Hcopy).
    + exact Hsym.
    + exact Hprice.
    + exact Hfresh.
    + exact Hcancelled.
    + exact Hid.
    + rewrite E. cbn [fst snd]. exists order.
      split; [reflexivity|]. split; [exact Hstored|].
      split; [|split; [exact Hst | exact Hcopy]].
      apply sameRequest_trans with (OrderModification.withStatus cancelled PLACED);
        [|exact Hsame].
      unfold sameRequest. cbn. tauto.
  - intros Hprice.
    assert (E : OrderModification.placeOrder orderUuid rnd tradeUuid newOrderData st1
                = (Thrown (AppError PriceRequiredForLimitOrders 400), st1)).
    { unfold OrderModification.placeOrder, InstrumentService.validateInstrument,
        InstrumentService.getCurrentPrice, InstrumentService.getInstrumentBySymbol. run.
      unfold isInstrument in Hsym.
      change (memoryStore.getInstrumentBySymbol st1 (order_symbol newOrderData))
        with (memoryStore.getInstrumentBySymbol st (order_symbol existingOrder)).
      destruct (memoryStore.getInstrumentBySymbol st (order_symbol existingOrder))
        as [i|] eqn:Hi; [|contradiction].
      cbn [negb]. cbn beta iota zeta.
      change (memoryStore.getInstrumentBySymbol st1 (order_symbol newOrderData))
        with (memoryStore.getInstrumentBySymbol st (order_symbol existingOrder)).
      rewrite ?Hi. cbn beta iota zeta.
      change (orderStyle newOrderData) with (orderStyle existingOrder).
      cbn [order_price newOrderData]. now rewrite Hprice. }
    rewrite E. cbn [fst snd OrderModification.placeErrorResponse].
    split; [reflexivity|]. split; [reflexivity | exact Hcancelled].
Qed.

Lemma modifyOrder_keeps_original_terms_witness :
  exists newOrder,
    fst (OrderModification.modifyOrder "order-2" (1 # 2) "trade-2" "order-1" "user_001"
           (Some (4000 # 1)%Q) (Some 20) pendingLimitBuy)
    = OrderModification.mkModifyResponse 200
        (OrderModification.OrderModifiedSuccessfully "order-1" newOrder)
    /\ order_quantity newOrder = 10
    /\ order_price newOrder = Some (3000 # 1)%Q.
Proof.
  destruct (proj1 (modifyOrder_keeps_original_terms pendingLimitBuy "order-2" "trade-2"
                     (1 # 2) "order-1" "user_001" (Some (4000 # 1)%Q) (Some 20)
                     (mkOrder "order-1" "user_001" "TCS" BUY LIMIT 10
                        (Some (3000 # 1)%Q) PLACED None None)
                     eq_refl eq_refl eq_refl eq_refl
                     ltac:(unfold isInstrument; vm_compute; discriminate)
                     ltac:(discriminate))
             eq_refl)
    as (newOrder & E & _ & Hsame & _).
  exists newOrder. split; [exact E|].
  destruct Hsame as (_ & _ & _ & _ & _ & Hq & Hp). split; assumption.
Defined.

(** ** Looking trades up *)

Lemma find_unique {A} (p : A -> bool) (l : list A) (x : A) :
  In x l -> p x = true -> (forall y, In y l -> p y = true -> y = x) ->
  find p l = Some x.
Proof.
  intros Hin Hp Huniq. destruct (find p l) as [y|] eqn:E.
  - apply find_some in E. destruct E as [Hy Hpy]. f_equal. now apply Huniq.
  - pose proof (find_none _ _ E x Hin) as H. congruence.
Qed.

Lemma In_set_same {V} (m : JsMap.t V) (k : string) (v : V) : In (k, v) (JsMap.set m k v).
Proof. apply get_In, get_set_same. Qed.

(** X23. The trade of an executed order can be looked up.  When an attempt
    returns an order, and the identifier given to the trade is not that of
    a trade already stored: [getTradeById] finds the trade for the user of
    the order, with the order's id, quantity and the product of quantity
    and price as amount; [getTradesByOrderId] lists it; and for any other
    user [getTradeById] answers 404 and [getTradesByOrderId] lists only
    trades that were there before. *)
Theorem executed_order_trade_found
        (st : MemoryStore) (rnd : Q) (uuid orderId : string) (executed : Order) :
  fst (OrderService.attemptOrderExecution rnd uuid orderId st)
  = Returned (Some executed) ->
  (forall k t, In (k, t) (trades st) -> trade_id t <> uuid) ->
  let st' := snd (OrderService.attemptOrderExecution rnd uuid orderId st) in
  exists trade,
    TradeQueries.getTradeById uuid (order_userId executed) st' = inr trade
    /\ In trade (TradeQueries.getTradesByOrderId (order_id executed)
                   (order_userId executed) st')
    /\ trade_id trade = uuid
    /\ trade_orderId trade = order_id executed
    /\ trade_symbol trade = order_symbol executed
    /\ trade_orderType trade = orderType executed
    /\ trade_quantity trade = order_quantity executed
    /\ totalAmount trade = (inject_Z (trade_quantity trade) * trade_price trade)%Q
    /\ (forall userId, userId <> order_userId executed ->
          TradeQueries.getTradeById uuid userId st' = inl (TradeQueries.TradeNotFound 404)
          /\ forall t, In t (TradeQueries.getTradesByOrderId (order_id executed) userId st')
                       -> In t (JsMap.values (trades st))).
Proof.
  intros Hret Hfresh st'. subst st'. revert Hret.
  destruct (attemptOrderExecution_cases st rnd uuid orderId)
    as [-> | (order & i & ep & Hget & Hst & _ & _ & _ & [-> | ->])]; cbn [fst snd];
    try discriminate.
  intros [= <-]. set (trade := tradeRecord uuid order ep). exists trade.
  unfold TradeQueries.getTradeById, TradeQueries.getTradesByOrderId,
    memoryStore.getAllTrades, markedExecuted, memoryStore.with_portfolio.
  cbn [trades]. cbn [executedRecord order_id order_userId order_symbol orderType
                     order_quantity].
  assert (Hin : In trade (JsMap.values (JsMap.set (trades st) uuid trade)))
    by (apply In_values; exists uuid; apply In_set_same).
  assert (Hold : forall t, In t (JsMap.values (JsMap.set (trades st) uuid trade)) ->
                           t = trade \/ (In t (JsMap.values (trades st))
                                         /\ trade_id t <> uuid)).
  { intros t Ht. apply In_values in Ht. destruct Ht as [k Ht].
    apply In_set in Ht. destruct Ht as [[_ ->] | Ht]; [now left|].
    right. split; [apply In_values; now exists k | now apply Hfresh with k]. }
  split.
  { rewrite (find_unique _ _ trade); [reflexivity| | |].
    - apply filter_In. split; [exact Hin | apply String.eqb_refl].
    - apply String.eqb_refl.
    - intros y Hy Hid. apply filter_In in Hy. destruct Hy as [Hy _].
      apply String.eqb_eq in Hid.
      destruct (Hold y Hy) as [-> | [_ Hne]]; [reflexivity | contradiction]. }
  split.
  { apply filter_In. split; [|apply String.eqb_refl].
    apply filter_In. split; [exact Hin | apply String.eqb_refl]. }
  do 6 (split; [reflexivity|]).
  intros userId Hother. split.
  - destruct (find _ _) as [y|] eqn:E; [|reflexivity].
    apply find_some in E. destruct E as [Hy Hid].
    apply filter_In in Hy. destruct Hy as [Hy Hu].
    apply String.eqb_eq in Hid, Hu.
    destruct (Hold y Hy) as [-> | [_ Hne]]; [|contradiction].
    cbn [trade tradeRecord trade_userId] in Hu. congruence.
  - intros t Ht. apply filter_In in Ht. destruct Ht as [Ht _].
    apply filter_In in Ht. destruct Ht as [Ht Hu]. apply String.eqb_eq in Hu.
    destruct (Hold t Ht) as [-> | [H _]]; [|exact H].
    cbn [trade tradeRecord trade_userId] in Hu. congruence.
Qed.

Lemma executed_order_trade_found_witness :
  exists trade,
    TradeQueries.getTradeById "trade-2" "user_001"
      (snd (OrderService.attemptOrderExecution (1 # 2) "trade-2" "order-1"
              pendingLimitBuyCrossed))
    = inr trade
    /\ trade_quantity trade = 10.
Proof.
  destruct (executed_order_trade_found pendingLimitBuyCrossed (1 # 2) "trade-2" "order-1"
              (mkOrder "order-1" "user_001" "TCS" BUY LIMIT 10 (Some (3000 # 1)%Q)
                 EXECUTED (Some (3000 # 1)%Q) (Some 10))
              eq_refl
              ltac:(intros k t H; vm_compute in H; contradiction))
    as (trade & E & _ & _ & _ & _ & _ & Hq & _).
  exists trade. split; [exact E | exact Hq].
Defined.

(** ** What a sweep leaves behind *)

(** An attempt on a PLACED order that is executable marks it EXECUTED,
    whether or not the portfolio update goes through. *)
Lemma attempt_marks (st : MemoryStore) (rnd : Q) (uuid orderId : string) (order : Order) :
  memoryStore.getOrderById st orderId = Some order ->
  status order = PLACED ->
  executable st order ->
  exists executionPrice,
    memoryStore.getOrderById (snd (OrderService.attemptOrderExecution rnd uuid orderId st))
      orderId
    = Some (executedRecord order executionPrice).
Proof.
  intros Hget Hst (i & Hi & Hcan).
  destruct (calculateExecutionPrice rnd order (lastTradedPrice i)) as [ep|] eqn:Hep;
    [|now elim (canExecute_has_price rnd order (lastTradedPrice i) Hcan)].
  exists ep. rewrite (attempt_executable st rnd uuid orderId order i ep) by assumption.
  set (st2 := markedExecuted st orderId uuid order ep).
  assert (H2 : memoryStore.getOrderById st2 orderId = Some (executedRecord order ep)).
  { unfold memoryStore.getOrderById, st2, markedExecuted. cbn [orders].
    apply get_set_same. }
  destruct (updatePortfolioAfterTrade_outcome st2 (fillOf order ep)) as [[e E] | [_ E]];
    cbn [fillOf fill_userId fill_symbol fill_quantity fill_price fill_side] in E;
    rewrite E; cbn [snd]; exact H2.
Qed.

Lemma attemptEach_reaches (rnd : string -> Q) (uuid : string -> string) (order : Order)
      (pendingOrders : list Order) :
  forall (executedOrders : list Order) (st : MemoryStore),
    In order pendingOrders ->
    status order = PLACED ->
    executable st order ->
    (exists current,
        memoryStore.getOrderById st (order_id order) = Some current
        /\ (current = order
            \/ (status current = EXECUTED /\ sameRequest order current))) ->
    exists executed,
      memoryStore.getOrderById
        (snd (OrderLifecycle.attemptEach rnd uuid pendingOrders executedOrders st))
        (order_id order) = Some executed
      /\ status executed = EXECUTED /\ sameRequest order executed.
Proof.
  induction pendingOrders as [|x rest IH]; intros acc st Hin Hst Hexe Hcur; [contradiction|].
  cbn [OrderLifecycle.attemptEach]. unfold bind.
  (* the store after the attempt on [x] *)
  pose proof (attemptOrderExecution_cases st (rnd (order_id x)) (uuid (order_id x))
                (order_id x)) as Hcases.
  assert (Hstep : exists r st2,
             OrderService.attemptOrderExecution (rnd (order_id x)) (uuid (order_id x))
               (order_id x) st = (Returned r, st2)
             /\ instruments st2 = instruments st /\ executesOnly st st2).
  { destruct Hcases as [-> | (o & i & ep & Hget & Hpl & _ & _ & _ & [-> | ->])].
    - eexists _, _. split; [reflexivity|]. split; [reflexivity | apply executesOnly_refl].
    - eexists _, _. split; [reflexivity|]. split; [reflexivity|].
      unfold markedExecuted. now apply executesOnly_set.
    - eexists _, _. split; [reflexivity|]. split; [reflexivity|].
      unfold markedExecuted, memoryStore.with_portfolio.
      cbn [instruments orders trades portfolio]. now apply executesOnly_set. }
  destruct Hstep as (r & st2 & E & Hinst & Hx).
  assert (Hexe2 : executable st2 order).
  { destruct Hexe as (i & Hi & Hcan). exists i. split; [|exact Hcan].
    unfold memoryStore.getInstrumentBySymbol in *. now rewrite Hinst. }
  destruct Hcur as (current & Hget & Hcurrent).
  (* the order once [x] has been attempted *)
  assert (Hcur2 : exists current2,
             memoryStore.getOrderById st2 (order_id order) = Some current2
             /\ (current2 = order
                 \/ (status current2 = EXECUTED /\ sameRequest order current2))).
  { pose proof (Hx (order_id order)) as Hk. rewrite Hget in Hk.
    destruct (memoryStore.getOrderById st2 (order_id order)) as [c2|];
      [|exact (False_ind _ Hk)].
    exists c2. split; [reflexivity|].
    destruct Hk as [-> | (Hpl & He & Hsame)]; [exact Hcurrent|].
    right. split; [exact He|].
    destruct Hcurrent as [-> | [Hne _]]; [exact Hsame | congruence]. }
  destruct Hin as [-> | Hin].
  - (* [x] is the order: it is EXECUTED after its attempt *)
    assert (Hdone : exists executed,
               memoryStore.getOrderById st2 (order_id order) = Some executed
               /\ status executed = EXECUTED /\ sameRequest order executed).
    { destruct Hcurrent as [-> | Hdone].
      - destruct (attempt_marks st (rnd (order_id order)) (uuid (order_id order))
                    (order_id order) order Hget Hst Hexe) as (ep & Hmarked).
        rewrite E in Hmarked. cbn [snd] in Hmarked.
        exists (executedRecord order ep). split; [exact Hmarked|].
        split; [reflexivity|]. unfold sameRequest, executedRecord. cbn. tauto.
      - destruct Hcur2 as (c2 & Hc2 & [-> | Hc2']).
        + pose proof (Hx (order_id order)) as Hk. rewrite Hget, Hc2 in Hk.
          destruct Hdone as [He Hsame].
          destruct Hk as [<- | (Hpl & _)]; [|congruence]. congruence.
        + now exists c2. }
    rewrite E. cbn beta iota.
    destruct Hdone as (executed & Hget2 & He & Hsame).
    set (acc2 := match r with Some e => (acc ++ [e])%list | None => acc end).
    destruct (attemptEach_spec rnd uuid rest acc2 st2) as (_ & _ & _ & Hrest & _).
    pose proof (Hrest (order_id order)) as Hk. rewrite Hget2 in Hk.
    cbv beta iota in Hk.
    match type of Hk with
    | match ?t with _ => _ end => destruct t as [final|] eqn:Hfinal
    end; [|contradiction].
    exists final. split; [reflexivity|].
    destruct Hk as [-> | (Hpl & _)]; [now split | congruence].
  - rewrite E. cbn beta iota. now apply IH.
Qed.

(** X24. A sweep leaves no executable order pending.  An order that is
    PLACED before the sweep, stored under its id, and can execute (its
    instrument exists, and it is a MARKET order or its limit is met by
    the instrument's price) is EXECUTED after the sweep, with the same
    request. *)
Theorem sweep_executes_every_executable_order
        (rnd : string -> Q) (uuid : string -> string) (st : MemoryStore)
        (order : Order) :
  memoryStore.getOrderById st (order_id order) = Some order ->
  status order = PLACED ->
  executable st order ->
  exists executed,
    memoryStore.getOrderById (snd (OrderLifecycle.processPendingOrders rnd uuid st))
      (order_id order) = Some executed
    /\ status executed = EXECUTED
    /\ sameRequest order executed.
Proof.
  intros Hget Hst Hexe.
  set (pending := filter (fun order => ORDER_STATUSES_eqb (status order) PLACED)
                    (JsMap.values (orders st))).
  destruct (attemptEach_spec rnd uuid pending [] st) as (more & Hr & _).
  assert (Heq : OrderLifecycle.processPendingOrders rnd uuid st
                = OrderLifecycle.attemptEach rnd uuid pending [] st).
  { unfold OrderLifecycle.processPendingOrders, tryCatch, bind, gets.
    fold pending.
    destruct (OrderLifecycle.attemptEach rnd uuid pending [] st) as [[l|e] s'];
      [reflexivity | discriminate]. }
  rewrite Heq. apply attemptEach_reaches; try assumption.
  - unfold pending. apply filter_In. split.
    + apply In_values. exists (order_id order). now apply get_In.
    + now rewrite Hst.
  - exists order. split; [exact Hget | now left].
Qed.

Lemma sweep_executes_every_executable_order_witness :
  exists executed,
    memoryStore.getOrderById
      (snd (OrderLifecycle.processPendingOrders (fun _ => 1 # 2) (fun _ => "trade-2")
              pendingLimitBuyCrossed)) "order-1" = Some executed
    /\ status executed = EXECUTED.
Proof.
  destruct (sweep_executes_every_executable_order (fun _ => 1 # 2) (fun _ => "trade-2")
              pendingLimitBuyCrossed
              (mkOrder "order-1" "user_001" "TCS" BUY LIMIT 10 (Some (3000 # 1)%Q)
                 PLACED None None)
              eq_refl eq_refl
              (ex_intro _
                 (mkInstrument "TCS" "TCS" "NSE" "EQUITY" (2900 # 1) 
                    "Tata Consultancy Services Ltd")
                 (conj eq_refl eq_refl)))
    as (executed & Hget & Hst & _).
  exists executed. split; assumption.
Defined.

(** ** The invariant of the system *)















Section ReachableStores.

Variable stringToNumber : string -> option Q.




End ReachableStores.

